(** * AssignmentSolver: a shallow embedding of [auto_student.py]

    The development follows the source file
    [src/AIStudyCompanion/references/auto_student.py]:

    - [PyStr]       the handful of [str] methods the solver uses;
    - [Regex]       a backtracking matcher for the [re] patterns of the file;
    - [VideoId]     [_extract_youtube_video_id];
    - [Summarizer]  [AssignmentSolver._summarize_text];
    - [Extractor]   the link / video classification loop of
                    [_extract_links_yt_from_html];
    - [Fetcher]     [AssignmentSolver._download_file];
    - [Aggregator]  the fan-out / fan-in part of [generate_solution];
    - [Json], [Reflect]  [remove_think_tags] and
                    [generate_reflective_questions].

    Python [str] values are modelled as [string] (one [ascii] per character,
    so the text is ASCII / Latin-1), [bytes] as [list Byte.byte], [int] as
    [Z], [set] as [gset], [None] as [option]'s [None].  A raised exception is
    the [Raises] constructor of [result]; logging and the activity callback
    are observational and are not modelled. *)

From Stdlib Require Import ZArith String Ascii List Bool Lia Permutation.
From stdpp Require Import base option list strings gmap pretty.

Open Scope Z_scope.
Set Warnings "-register-all,-clear-no-such-hyp".

(** ** Exceptions and results *)

(** The exception classes the file distinguishes, with the message they carry. *)
Inductive exn : Type :=
  | TimeoutError (msg : string)
  | ClientError (msg : string)
  | OSError (msg : string)
  | ValueError (msg : string)
  | AttributeError (msg : string)
  | IndexError (msg : string)
  | JSONDecodeError (msg : string)
  | APIError (msg : string).

(** [str(e)] *)
Definition exn_str (e : exn) : string :=
  match e with
  | TimeoutError m | ClientError m | OSError m | ValueError m
  | AttributeError m | IndexError m | JSONDecodeError m | APIError m => m
  end.

Inductive result (A : Type) : Type :=
  | Returns (a : A)
  | Raises (e : exn).
Arguments Returns {A} a.
Arguments Raises {A} e.

(** ** The [str] methods used by the solver *)

Module PyStr.

(** [str.isspace] on the ASCII range. *)
Definition is_space (c : ascii) : bool :=
  let n := nat_of_ascii c in
  ((9 <=? n)%nat && (n <=? 13)%nat) || ((28 <=? n)%nat && (n <=? 32)%nat).

Fixpoint lstrip (s : string) : string :=
  match s with
  | EmptyString => EmptyString
  | String c s' => if is_space c then lstrip s' else s
  end.

Fixpoint rstrip (s : string) : string :=
  match s with
  | EmptyString => EmptyString
  | String c s' =>
      match rstrip s' with
      | EmptyString => if is_space c then EmptyString else String c EmptyString
      | r => String c r
      end
  end.

(** [s.strip()] *)
Definition strip (s : string) : string := rstrip (lstrip s).

(** Truthiness of a [str]: [bool(s)]. *)
Definition truthy (s : string) : bool :=
  match s with EmptyString => false | _ => true end.

(** [s.split()] with no separator: maximal runs of non-space characters.
    [cur] is the word being read, in reverse. *)
Fixpoint split_go (cur : list ascii) (s : string) : list string :=
  let flush := match cur with
               | [] => []
               | _ => [string_of_list_ascii (rev cur)]
               end in
  match s with
  | EmptyString => flush
  | String c s' =>
      if is_space c then flush ++ split_go [] s'
      else split_go (c :: cur) s'
  end.

Definition split (s : string) : list string := split_go [] s.

(** [sep.join(l)] *)
Fixpoint join (sep : string) (l : list string) : string :=
  match l with
  | [] => ""
  | [w] => w
  | w :: l' => w +:+ sep +:+ join sep l'
  end.

(** [l[:k]] for a Python [int] [k]: a negative bound counts from the end. *)
Definition slice_to {A} (l : list A) (k : Z) : list A :=
  if 0 <=? k then take (Z.to_nat k) l
  else take (Z.to_nat (Z.of_nat (length l) + k)) l.

(** [s[:k]] on a string, for [k >= 0]. *)
Definition str_take (k : nat) (s : string) : string := String.substring 0 k s.

Definition lower_char (c : ascii) : ascii :=
  let n := nat_of_ascii c in
  if (65 <=? n)%nat && (n <=? 90)%nat then ascii_of_nat (n + 32) else c.

(** [s.lower()] on ASCII letters. *)
Fixpoint lower (s : string) : string :=
  match s with
  | EmptyString => EmptyString
  | String c s' => String (lower_char c) (lower s')
  end.

(** [s.startswith(p)] *)
Definition startswith (p s : string) : bool := String.prefix p s.

(** [p in s] *)
Fixpoint contains (p s : string) : bool :=
  String.prefix p s ||
  match s with
  | EmptyString => false
  | String _ s' => contains p s'
  end.

(** [len(s)] *)
Definition len (s : string) : nat := String.length s.

End PyStr.

(** ** Regular expressions

    The patterns of the file use literals, character classes, alternation,
    greedy [*], lazy [*?] and bounded repetition.  [rmatch] is the usual
    backtracking matcher in continuation-passing style: alternatives are
    tried left to right, [*] takes the longest repetition first and [*?]
    the shortest, as in Python's [re].  Every starred sub-pattern of the
    file consumes at least one character per iteration, which is what the
    progress test of the two loops relies on. *)

Module Regex.

Inductive re : Type :=
  | Eps
  | Chr (p : ascii -> bool)
  | Seq (r1 r2 : re)
  | Alt (r1 r2 : re)
  | Star (r : re)
  | StarLazy (r : re).

(** A literal string. *)
Fixpoint lit (s : string) : re :=
  match s with
  | EmptyString => Eps
  | String c s' => Seq (Chr (Ascii.eqb c)) (lit s')
  end.

(** [r{n}] *)
Fixpoint rep (n : nat) (r : re) : re :=
  match n with
  | O => Eps
  | S n' => Seq r (rep n' r)
  end.

Fixpoint alts (rs : list re) : re :=
  match rs with
  | [] => Chr (fun _ => false)
  | [r] => r
  | r :: rs' => Alt r (alts rs')
  end.

Definition orelse {R} (a b : option R) : option R :=
  match a with Some x => Some x | None => b end.

(** The loop of a greedy star over a matcher [body] for one iteration:
    try one more iteration first, then the continuation.  An iteration must
    consume a character; [fuel] bounds the iterations by the length. *)
Fixpoint star_loop {R} (body : string -> (string -> option R) -> option R)
    (k : string -> option R) (fuel : nat) (s : string) : option R :=
  match fuel with
  | O => k s
  | S fuel' =>
      orelse
        (body s (fun s1 =>
           if (String.length s1 <? String.length s)%nat
           then star_loop body k fuel' s1 else None))
        (k s)
  end.

(** The loop of a lazy star: the continuation first, then one more iteration. *)
Fixpoint lazy_loop {R} (body : string -> (string -> option R) -> option R)
    (k : string -> option R) (fuel : nat) (s : string) : option R :=
  match fuel with
  | O => k s
  | S fuel' =>
      orelse
        (k s)
        (body s (fun s1 =>
           if (String.length s1 <? String.length s)%nat
           then lazy_loop body k fuel' s1 else None))
  end.

Fixpoint rmatch {R} (r : re) (s : string) (k : string -> option R) : option R :=
  match r with
  | Eps => k s
  | Chr p =>
      match s with
      | String c s' => if p c then k s' else None
      | EmptyString => None
      end
  | Seq r1 r2 => rmatch r1 s (fun s1 => rmatch r2 s1 k)
  | Alt r1 r2 => orelse (rmatch r1 s k) (rmatch r2 s k)
  | Star r1 => star_loop (rmatch r1) k (String.length s) s
  | StarLazy r1 => lazy_loop (rmatch r1) k (String.length s) s
  end.

(** The match anchored at the start of [s]: what is left of [s] behind it. *)
Definition match_prefix (r : re) (s : string) : option string :=
  rmatch r s (fun rest => Some rest).

(** The text a match consumed, given what it left. *)
Definition consumed (s rest : string) : string :=
  String.substring 0 (String.length s - String.length rest) s.

(** [re.sub(r, '', s)] for a pattern with no empty match: while [skip]
    is positive the characters belong to a match and are dropped. *)
Fixpoint sub_go (r : re) (skip : nat) (s : string) : string :=
  match s with
  | EmptyString => EmptyString
  | String c s' =>
      match skip with
      | S n => sub_go r n s'
      | O =>
          match match_prefix r s with
          | Some rest =>
              match (String.length s - String.length rest)%nat with
              | S n => sub_go r n s'
              | O => String c (sub_go r 0 s')
              end
          | None => String c (sub_go r 0 s')
          end
      end
  end.

Definition sub_empty (r : re) (s : string) : string := sub_go r 0 s.

(** [re.findall(r, s)] for a pattern with no group and no empty match:
    the matches from left to right, none overlapping. *)
Fixpoint findall_go (r : re) (skip : nat) (s : string) : list string :=
  match s with
  | EmptyString => []
  | String c s' =>
      match skip with
      | S n => findall_go r n s'
      | O =>
          match match_prefix r s with
          | Some rest =>
              match (String.length s - String.length rest)%nat with
              | S n => consumed s rest :: findall_go r n s'
              | O => findall_go r 0 s'
              end
          | None => findall_go r 0 s'
          end
      end
  end.

Definition findall (r : re) (s : string) : list string := findall_go r 0 s.

(** The patterns of [_extract_youtube_video_id] and of the file-name
    search all have the shape [(?:lead)(group1)]: a non-capturing lead
    followed by the only capturing group. *)
Record pattern : Type := Pattern { lead : re; group1 : re }.

(** The match anchored at the start of [s]; returns [match.group(1)]. *)
Definition match_here (p : pattern) (s : string) : option string :=
  rmatch (lead p) s (fun s1 =>
    rmatch (group1 p) s1 (fun s2 => Some (consumed s1 s2))).

(** [re.search(p, s)]: the leftmost position with a match. *)
Fixpoint search (p : pattern) (s : string) : option string :=
  orelse (match_here p s)
    match s with
    | EmptyString => None
    | String _ s' => search p s'
    end.

End Regex.

(** ** [_extract_youtube_video_id] *)

Module VideoId.
Import Regex.

Definition in_range (lo hi : ascii) (c : ascii) : bool :=
  (nat_of_ascii lo <=? nat_of_ascii c)%nat && (nat_of_ascii c <=? nat_of_ascii hi)%nat.

(** [[a-zA-Z0-9_-]] *)
Definition id_char (c : ascii) : bool :=
  in_range "a" "z" c || in_range "A" "Z" c || in_range "0" "9" c
  || Ascii.eqb c "_" || Ascii.eqb c "-".

(** [[^&]] *)
Definition not_amp (c : ascii) : bool := negb (Ascii.eqb c "&").

(** [[?&]] *)
Definition qmark_or_amp (c : ascii) : bool := Ascii.eqb c "?" || Ascii.eqb c "&".

(** [.] without [re.DOTALL] *)
Definition dot (c : ascii) : bool := negb (Ascii.eqb c "010").

(** [([a-zA-Z0-9_-]{11})] *)
Definition id11 : re := rep 11 (Chr id_char).

(** [watch\?(?:[^&]*&)*v=] *)
Definition watch_v : re :=
  Seq (lit "watch?") (Seq (Star (Seq (Star (Chr not_amp)) (lit "&"))) (lit "v=")).

(** [.*[?&]v=] *)
Definition any_v : re :=
  Seq (Star (Chr dot)) (Seq (Chr qmark_or_amp) (lit "v=")).

Definition patterns : list pattern :=
  [ Pattern (Seq (lit "youtube.com/")
               (alts [watch_v; lit "embed/"; lit "v/"; lit "shorts/"; lit "live/"]))
            id11;
    Pattern (lit "youtu.be/") id11;
    Pattern (Seq (lit "googleusercontent.com/youtube.com/")
               (alts [watch_v; lit "embed/"; lit "v/"]))
            id11;
    Pattern (Seq (lit "youtube.com/") any_v) id11;
    Pattern (Seq (lit "googleusercontent.com/youtube.com/") any_v) id11 ].

Definition domains : list string :=
  ["youtube.com"; "youtu.be"; "googleusercontent.com"].

(** The [for pattern in patterns] loop: the first pattern with a non-empty
    group wins. *)
Fixpoint first_match (ps : list pattern) (url : string) : option string :=
  match ps with
  | [] => None
  | p :: ps' =>
      match search p url with
      | Some g => if PyStr.truthy g then Some g else first_match ps' url
      | None => first_match ps' url
      end
  end.

Definition _extract_youtube_video_id (url : string) : option string :=
  if negb (PyStr.truthy (PyStr.strip url)) then None
  else if negb (PyStr.startswith "http://" url || PyStr.startswith "https://" url) then None
  else if negb (existsb (fun domain => PyStr.contains domain (PyStr.lower url)) domains) then None
  else first_match patterns url.

End VideoId.

(** ** Settings and the generation collaborator *)

Record Settings : Type := {
  OPENAI_API_KEY : string;
  OPENAI_API_BASE : string;
  CANVAS_API_KEY : string;
  CANVAS_API_URL : string;
  SUMMARY_MODEL_NAME : string;
  HW_MODEL_NAME : string;
  max_file_size : Z;
  download_timeout : Z
}.

(** [max_file_size: int = 50 * 1024 * 1024], [download_timeout: int = 30] *)
Definition default_max_file_size : Z := 50 * 1024 * 1024.
Definition default_download_timeout : Z := 30.

Record message : Type := { role : string; content : string }.

(** The keyword arguments of [chat.completions.create]; the temperature is
    the constant [0.3] at every call site and is left out. *)
Record request : Type := {
  model : string;
  messages : list message;
  max_tokens : option Z
}.

(** What the call gives back: it raises, or returns [response.choices],
    each choice carrying [message.content], which may be [None]. *)
Definition completion : Type := result (list (option string)).

(** ** [AssignmentSolver._summarize_text] *)

Module Summarizer.

Definition no_content : string := "[No content to summarize]".
Definition truncation_marker : string := "... [truncated due to summarization error]".

Definition empty_summary (text : string) : string :=
  "[Empty summary returned for content of length " +:+ pretty (PyStr.len text) +:+ "]".

Definition summary_prompt (text : string) (max_words : Z) : string :=
  "Please summarize the following text in no more than " +:+ pretty max_words +:+
  " words, focusing on key points relevant to an academic assignment. Only provide me the summary as a block of text, I do not want you to repeat your task or ask me any follow up questions:" +:+
  String "010" (String "010" (PyStr.str_take (Z.to_nat 10000) text)).

Definition summary_request (settings : Settings) (text : string) (max_words : Z) : request :=
  {| model := SUMMARY_MODEL_NAME settings;
     messages :=
       [ {| role := "system";
            content := "You are a helpful assistant that summarizes academic materials concisely and accurately." |};
         {| role := "user"; content := summary_prompt text max_words |} ];
     max_tokens := Some 1000 |}.

(** The [except Exception] branch. *)
Definition truncate_words (text : string) (max_words : Z) : string :=
  let words := PyStr.split text in
  if max_words <? Z.of_nat (length words)
  then PyStr.join " " (PyStr.slice_to words max_words) +:+ truncation_marker
  else text.

Section WithCollaborator.
Variable settings : Settings.
(** [self.openai_client.chat.completions.create] *)
Variable create : request -> completion.

(** Returns the summary together with the requests sent to the
    collaborator, in order. *)
Definition _summarize_text (text : string) (max_words : Z) : string * list request :=
  if negb (PyStr.truthy text) || negb (PyStr.truthy (PyStr.strip text))
  then (no_content, [])
  else if Z.of_nat (length (PyStr.split text)) <=? max_words
  then (text, [])
  else
    let req := summary_request settings text max_words in
    match create req with
    | Returns [] => (* response.choices[0]: IndexError *)
        (truncate_words text max_words, [req])
    | Returns (None :: _) => (empty_summary text, [req])
    | Returns (Some summary :: _) =>
        if negb (PyStr.truthy summary) || negb (PyStr.truthy (PyStr.strip summary))
        then (empty_summary text, [req])
        else (PyStr.strip summary, [req])
    | Raises _ => (truncate_words text max_words, [req])
    end.

(** [max_words: int = 500] *)
Definition default_max_words : Z := 500.

End WithCollaborator.

End Summarizer.

(** ** The link and video classification of [_extract_links_yt_from_html] *)

Module Extractor.

(** [s.split('\n')] *)
Fixpoint split_lines_go (cur : list ascii) (s : string) : list string :=
  match s with
  | EmptyString => [string_of_list_ascii (rev cur)]
  | String c s' =>
      if Ascii.eqb c "010" then string_of_list_ascii (rev cur) :: split_lines_go [] s'
      else split_lines_go (c :: cur) s'
  end.
Definition split_lines (s : string) : list string := split_lines_go [] s.

(** ['\n'.join([line.strip() for line in text.split('\n') if line.strip()])] *)
Definition clean_lines (text_content : string) : string :=
  PyStr.join (String "010" EmptyString)
    (map PyStr.strip
       (filter (fun line => PyStr.truthy (PyStr.strip line) = true) (split_lines text_content))).

(** The accumulators of the two loops: [general_links] and the set
    [youtube_video_ids]. *)
Record acc : Type := Acc { general_links : list string; youtube_video_ids : gset string }.

(** The [continue] test of the anchor loop: an empty [href], an in-page
    anchor, a script pseudo-URL. *)
Definition skipped_href (href : string) : bool :=
  negb (PyStr.truthy href) || PyStr.startswith "#" href
  || PyStr.startswith "javascript:" (PyStr.lower href).

Section WithParser.
(** The services of the markup library: the parsed tree, the text of
    the selected main region, and the attribute values that
    [find_all('a', href=True)] and [find_all('iframe', src=True)] yield
    on the tree as the function has left it. *)
Variable soup : Type.
Variable BeautifulSoup : string -> result soup.
Variable main_text : soup -> string.
Variable a_hrefs : soup -> list string.
Variable iframe_srcs : soup -> list string.
(** [urllib.parse.urljoin] *)
Variable urljoin : string -> string -> result string.

(** One iteration of [for a_tag in soup.find_all('a', href=True)]. *)
Definition anchor_step (base_url_for_links : string) (st : acc) (href : string) : acc :=
  if skipped_href href then st
  else
    match VideoId._extract_youtube_video_id href with
    | Some video_id =>
        if PyStr.truthy video_id
        then Acc (general_links st) ({[ video_id ]} ∪ youtube_video_ids st)
        else match urljoin base_url_for_links href with
             | Returns u => Acc (general_links st ++ [u]) (youtube_video_ids st)
             | Raises _ => st
             end
    | None =>
        match urljoin base_url_for_links href with
        | Returns u => Acc (general_links st ++ [u]) (youtube_video_ids st)
        | Raises _ => st
        end
    end.

(** One iteration of [for iframe in soup.find_all('iframe', src=True)]. *)
Definition iframe_step (st : acc) (src : string) : acc :=
  if PyStr.truthy src then
    match VideoId._extract_youtube_video_id src with
    | Some video_id =>
        if PyStr.truthy video_id
        then Acc (general_links st) ({[ video_id ]} ∪ youtube_video_ids st)
        else st
    | None => st
    end
  else st.

(** Returns [(cleaned_text, general_links, youtube_video_ids)];
    [list(youtube_video_ids)] is [elements]. *)
Definition _extract_links_yt_from_html (html_content base_url_for_links : string)
  : string * list string * list string :=
  if negb (PyStr.truthy html_content) || negb (PyStr.truthy (PyStr.strip html_content))
  then ("", [], [])
  else
    match BeautifulSoup html_content with
    | Raises _ => ("", [], [])
    | Returns sp =>
        let cleaned_text := clean_lines (main_text sp) in
        let st0 := Acc [] ∅ in
        let st1 := fold_left (anchor_step base_url_for_links) (a_hrefs sp) st0 in
        let st2 := fold_left iframe_step (iframe_srcs sp) st1 in
        (cleaned_text, general_links st2, elements (youtube_video_ids st2))
    end.

End WithParser.

End Extractor.

(** ** [AssignmentSolver._download_file] *)

Module Fetcher.
Import Regex.

Definition chunk : Type := list Byte.byte.

(** What [response.content.iter_chunked(8192)] delivers: chunks, until the
    body ends or the connection fails. *)
Inductive stream : Type :=
  | SEnd
  | SChunk (c : chunk) (rest : stream)
  | SError (e : exn).

Record response : Type := {
  status : Z;
  content_type : option string;
  content_disposition : option string;
  content_length : option string;
  body : stream
}.

(** The local file system: path to file content. *)
Abbreviation file_system := (gmap string (list Byte.byte)).

(** [aiofiles.open(filepath, 'wb')]: create or truncate. *)
Definition open_wb (path : string) (fs : file_system) : file_system :=
  <[path := []]> fs.

(** [f.write(chunk)] *)
Definition f_write (path : string) (c : chunk) (fs : file_system) : file_system :=
  <[path := default [] (fs !! path) ++ c]> fs.

(** [os.remove(path)]: [OSError] when there is no such file. *)
Definition os_remove (path : string) (fs : file_system) : result file_system :=
  match fs !! path with
  | Some _ => Returns (delete path fs)
  | None => Raises (OSError "No such file or directory")
  end.

(** [try: os.remove(filepath) except OSError: pass] *)
Definition try_remove (path : string) (fs : file_system) : file_system :=
  match os_remove path fs with
  | Returns fs' => fs'
  | Raises _ => fs
  end.

(** [filepath.stat().st_size], 0 for a missing file. *)
Definition file_size (fs : file_system) (path : string) : Z :=
  match fs !! path with
  | Some b => Z.of_nat (length b)
  | None => 0
  end.

Inductive loop_exit : Type :=
  | Completed (downloaded_size : Z)
  | ExceededSize
  | Failed (e : exn).

(** The [async for chunk in ...] loop.  Besides the exit and the final
    file system it returns the file system as it stood after each
    iteration, oldest first. *)
Fixpoint stream_loop (max_size : Z) (filepath : string) (s : stream)
    (downloaded_size : Z) (fs : file_system)
  : loop_exit * file_system * list file_system :=
  match s with
  | SEnd => (Completed downloaded_size, fs, [])
  | SError e => (Failed e, fs, [])
  | SChunk c rest =>
      let downloaded_size := downloaded_size + Z.of_nat (length c) in
      if max_size <? downloaded_size then
        let fs' := try_remove filepath fs in
        (ExceededSize, fs', [fs'])
      else
        let fs' := f_write filepath c fs in
        let '(e, fs'', seen) := stream_loop max_size filepath rest downloaded_size fs' in
        (e, fs'', fs' :: seen)
  end.

(** [\w] on ASCII. *)
Definition word_char (c : ascii) : bool :=
  VideoId.in_range "a" "z" c || VideoId.in_range "A" "Z" c
  || VideoId.in_range "0" "9" c || Ascii.eqb c "_".

(** [re.sub(r'[^\w\-_\.]', '_', filename)] *)
Fixpoint sanitize (filename : string) : string :=
  match filename with
  | EmptyString => EmptyString
  | String c s' =>
      String (if word_char c || Ascii.eqb c "-" || Ascii.eqb c "_" || Ascii.eqb c "."
              then c else "_"%char) (sanitize s')
  end.

Definition is_quote (c : ascii) : bool := Ascii.eqb c "034".

(** The pattern [filename=Q?([^Q]+)Q?], Q being the double quote; the
    optional closing quote follows the group and never changes what the
    greedy group captures. *)
Definition filename_pattern : pattern :=
  Pattern (Seq (lit "filename=") (Alt (Chr is_quote) Eps))
          (Seq (Chr (fun c => negb (is_quote c))) (Star (Chr (fun c => negb (is_quote c))))).

(** [ext_map], in insertion order. *)
Definition ext_map : list (string * string) :=
  [("html", ".html"); ("json", ".json"); ("text", ".txt")].

Fixpoint ext_for (m : list (string * string)) (content_type : string) : string :=
  match m with
  | [] => ".dat"
  | (key, ext) :: m' =>
      if PyStr.contains key content_type then ext else ext_for m' content_type
  end.

Definition downloads_dir : string := "downloads".

Definition opt_truthy (o : option string) : bool :=
  match o with Some s => PyStr.truthy s | None => false end.

(** What the call leaves behind: the returned path, the file system, and
    the file-system states seen from the moment the file was opened. *)
Record outcome : Type := Outcome {
  returned : option string;
  fs_after : file_system;
  fs_seen : list file_system
}.

(** The test that opens [_download_file]: a video reference, or a [data:]
    or [mailto:] URL. *)
Definition not_fetchable (url : string) : bool :=
  opt_truthy (VideoId._extract_youtube_video_id url)
  || PyStr.startswith "data:" url || PyStr.startswith "mailto:" url.

Section WithSession.
Variable settings : Settings.
(** [self.session.get(url)] *)
Variable session_get : string -> result response.
(** [int(time.time())] *)
Variable now : Z.
(** [int(s)]; [None] stands for [ValueError]. *)
Variable py_int : string -> option Z.
(** [Path(urlparse(url).path).name] and [Path(filename).suffix] *)
Variable url_path_name : string -> string.
Variable path_suffix : string -> string.

Definition download_filename (url : string) (r : response) : string :=
  let content_type := PyStr.lower (default "" (content_type r)) in
  let filename :=
    match search filename_pattern (default "" (content_disposition r)) with
    | Some g => g
    | None =>
        if PyStr.truthy (url_path_name url) then url_path_name url
        else "downloaded_file"
    end in
  let filename := sanitize filename in
  if negb (PyStr.truthy (path_suffix filename))
  then filename +:+ ext_for ext_map content_type
  else filename.

(** [self.downloads_dir / f"{int(time.time())}_{filename}"] *)
Definition download_path (url : string) (r : response) : string :=
  downloads_dir +:+ "/" +:+ pretty now +:+ "_" +:+ download_filename url r.

(** The streaming part, from [aiofiles.open] on. *)
Definition stream_to_file (filepath : string) (r : response) (fs : file_system) : outcome :=
  let fs0 := open_wb filepath fs in
  let '(e, fs', seen) := stream_loop (max_file_size settings) filepath (body r) 0 fs0 in
  match e with
  | Completed _ => Outcome (Some filepath) fs' (fs0 :: seen)
  | ExceededSize => Outcome None fs' (fs0 :: seen)
  | Failed _ => Outcome None fs' (fs0 :: seen)
  end.

Definition _download_file (url : string) (fs : file_system) : outcome :=
  if not_fetchable url then Outcome None fs []
  else
    match session_get url with
    | Raises _ => Outcome None fs []
    | Returns r =>
        if 400 <=? status r then Outcome None fs []
        else
          let filepath := download_path url r in
          match content_length r with
          | Some cl =>
              if PyStr.truthy cl then
                match py_int cl with
                | None => Outcome None fs []
                | Some n =>
                    if max_file_size settings <? n then Outcome None fs []
                    else stream_to_file filepath r fs
                end
              else stream_to_file filepath r fs
          | None => stream_to_file filepath r fs
          end
    end.

End WithSession.

(** The bytes a stream delivers before it ends or fails. *)
Fixpoint stream_chunks (s : stream) : list chunk :=
  match s with
  | SChunk c rest => c :: stream_chunks rest
  | _ => []
  end.

Definition total_size (cs : list chunk) : Z :=
  fold_right (fun c n => Z.of_nat (length c) + n) 0 cs.

(** The cumulative size of the stream passes [max_size] at some chunk. *)
Definition overflows (max_size : Z) (s : stream) : Prop :=
  exists k, (0 < k <= length (stream_chunks s))%nat /\
            max_size < total_size (take k (stream_chunks s)).

(** The [Content-Length] header lets the download start: it is absent or
    empty, or it reads as a number within [max_size]. *)
Definition declared_within (py_int : string -> option Z) (max_size : Z)
    (header : option string) : Prop :=
  match header with
  | None => True
  | Some cl => cl = EmptyString \/ exists n, py_int cl = Some n /\ n <= max_size
  end.

End Fetcher.

(** ** The fan-out / fan-in of [generate_solution] *)

Record AssignmentData : Type := {
  id : Z;
  name : string;
  description : string;
  links : list string;
  youtube_video_ids : list string
}.

Module Aggregator.

Definition nl : string := String "010" EmptyString.

(** The fragment appended for link [i] (lines 359 to 363). *)
Definition link_part (i : nat) (link : string)
    (res : result (option string * string * string)) : string :=
  match res with
  | Raises e =>
      "--- Error processing link " +:+ pretty (i + 1)%nat +:+ ": " +:+ link +:+ " ---" +:+ nl
      +:+ "[Exception: " +:+ exn_str e +:+ "]" +:+ nl +:+ "--- End Error ---"
  | Returns (filename, content, original_url) =>
      let source_id :=
        match filename with
        | Some f =>
            if PyStr.truthy f then "File: " +:+ f +:+ " (from " +:+ original_url +:+ ")"
            else "URL: " +:+ original_url
        | None => "URL: " +:+ original_url
        end in
      "--- Content from " +:+ source_id +:+ " ---" +:+ nl +:+ content +:+ nl
      +:+ "--- End Content from " +:+ source_id +:+ " ---"
  end.

(** The fragment appended for a video identifier (lines 370 to 372). *)
Definition video_part (video_id : string) (res : result (option string)) : string :=
  let content :=
    match res with
    | Raises e => "[Exception: " +:+ exn_str e +:+ "]"
    | Returns (Some t) =>
        if PyStr.truthy t then t else "[No transcript for " +:+ video_id +:+ "]"
    | Returns None => "[No transcript for " +:+ video_id +:+ "]"
    end in
  "--- YouTube Transcript (Video ID: " +:+ video_id +:+ ") ---" +:+ nl +:+ content +:+ nl
  +:+ "--- End Transcript (Video ID: " +:+ video_id +:+ ") ---".

(** The test that decides whether the downloaded file is deleted. *)
Definition keeps_file (content : string) : bool :=
  PyStr.contains "[Error" content || PyStr.contains "[No text content" content
  || PyStr.contains "not implemented]" content || PyStr.contains "Unknown file type" content.

Definition all_supplementary_content (parts : list string) : string :=
  match parts with
  | [] => "[No supplementary content processed.]"
  | _ => PyStr.join (nl +:+ nl) parts
  end.

Section WithWorld.
(** Everything the item operations read and change: the network, the
    file system, the collaborators. *)
Variable World : Type.

(** A coroutine, run to completion from the state it finds. *)
Definition coroutine (A : Type) : Type := World -> result A * World.

(** *** [asyncio.gather] with [return_exceptions=True]

    The event loop completes the tasks in some order, the [schedule];
    each completion stores the task's outcome, value or exception, in
    the slot of the task's position.  [gather] returns once every slot
    is filled. *)
Definition complete {A} (tasks : list (coroutine A))
    (st : list (option (result A)) * World) (i : nat)
  : list (option (result A)) * World :=
  match tasks !! i with
  | Some t => let '(r, w') := t st.2 in (<[i := Some r]> st.1, w')
  | None => st
  end.

Definition gather {A} (tasks : list (coroutine A)) (schedule : list nat) (w : World)
  : option (list (result A)) * World :=
  let '(slots, w') :=
    fold_left (complete tasks) schedule (replicate (length tasks) None, w) in
  (mapM (fun slot => slot) slots, w').

Variable _download_file : string -> coroutine (option string).
Variable _read_file_content : string -> string -> coroutine string.
Variable _get_youtube_transcript : string -> coroutine (option string).
(** [filepath.name] and [filepath.unlink()], an [OSError] swallowed. *)
Variable path_name : string -> string.
Variable unlink : string -> World -> World.

Definition process_single_link (url : string) (index : nat)
  : coroutine (option string * string * string) :=
  fun w =>
    match _download_file url w with
    | (Raises e, w1) => (Raises e, w1)
    | (Returns None, w1) =>
        (Returns (None, "[Download failed for: " +:+ url +:+ "]", url), w1)
    | (Returns (Some filepath), w1) =>
        match _read_file_content filepath url w1 with
        | (Raises e, w2) => (Raises e, w2)
        | (Returns content, w2) =>
            let filename := path_name filepath in
            let w3 := if PyStr.truthy content && negb (keeps_file content)
                      then unlink filepath w2 else w2 in
            (Returns (Some filename, content, url), w3)
        end
    end.

(** Lines 344 to 373: [supplementary_content_parts] once both groups are
    gathered, [None] while a [gather] is still waiting. *)
Definition supplementary_content_parts (assignment : AssignmentData)
    (link_schedule video_schedule : list nat) (w : World)
  : option (list string) * World :=
  let '(link_parts, w1) :=
    match links assignment with
    | [] => (Some [], w)
    | _ =>
        let link_tasks :=
          imap (fun i link => process_single_link link i) (links assignment) in
        match gather link_tasks link_schedule w with
        | (Some link_results, w') =>
            (Some (imap (fun i res => link_part i (links assignment !!! i) res)
                     link_results), w')
        | (None, w') => (None, w')
        end
    end in
  match link_parts with
  | None => (None, w1)
  | Some parts =>
      match youtube_video_ids assignment with
      | [] => (Some parts, w1)
      | _ =>
          let transcript_tasks :=
            map _get_youtube_transcript (youtube_video_ids assignment) in
          match gather transcript_tasks video_schedule w1 with
          | (Some transcript_results, w') =>
              (Some (parts ++
                     imap (fun i res =>
                             video_part (youtube_video_ids assignment !!! i) res)
                       transcript_results), w')
          | (None, w') => (None, w')
          end
      end
  end.

End WithWorld.

End Aggregator.

(** ** JSON values and [json.loads] *)

Module Json.

(** The Python objects [json.loads] builds. *)
Inductive json : Type :=
  | JNull
  | JBool (b : bool)
  | JInt (n : Z)
  | JFloat (lexeme : string)
  | JStr (s : string)
  | JArr (items : list json)
  | JObj (members : list (string * json)).

(** [d[k] = v] on a [dict] kept in insertion order. *)
Fixpoint dict_set (k : string) (v : json) (d : list (string * json)) : list (string * json) :=
  match d with
  | [] => [(k, v)]
  | (k', v') :: d' =>
      if String.eqb k k' then (k, v) :: d' else (k', v') :: dict_set k v d'
  end.

(** [d.get(k)] *)
Fixpoint dict_get (k : string) (d : list (string * json)) : option json :=
  match d with
  | [] => None
  | (k', v) :: d' => if String.eqb k k' then Some v else dict_get k d'
  end.

Definition is_digit (c : ascii) : bool := VideoId.in_range "0" "9" c.

(** Truthiness of a float literal: some digit of the mantissa is not 0
    (a literal that underflows to 0.0 is read as non-zero here). *)
Fixpoint mantissa_nonzero (lexeme : string) : bool :=
  match lexeme with
  | EmptyString => false
  | String c s' =>
      if Ascii.eqb c "e" || Ascii.eqb c "E" then false
      else (is_digit c && negb (Ascii.eqb c "0")) || mantissa_nonzero s'
  end.

(** [bool(v)] *)
Definition truthy (v : json) : bool :=
  match v with
  | JNull => false
  | JBool b => b
  | JInt n => negb (n =? 0)
  | JFloat l => String.eqb l "NaN" || String.eqb l "Infinity" || String.eqb l "-Infinity"
                || mantissa_nonzero l
  | JStr s => PyStr.truthy s
  | JArr l => match l with [] => false | _ => true end
  | JObj d => match d with [] => false | _ => true end
  end.

(** *** A reference [json.loads]

    The grammar of RFC 8259 with the three constants Python adds; text
    is ASCII / Latin-1, so a [\u] escape above [00ff] is not read. *)

Definition is_ws (c : ascii) : bool :=
  Ascii.eqb c " " || Ascii.eqb c "009" || Ascii.eqb c "010" || Ascii.eqb c "013".

Fixpoint skip_ws (s : string) : string :=
  match s with
  | String c s' => if is_ws c then skip_ws s' else s
  | EmptyString => EmptyString
  end.

Definition hex_val (c : ascii) : option nat :=
  let n := nat_of_ascii c in
  if is_digit c then Some (n - 48)%nat
  else if VideoId.in_range "a" "f" c then Some (n - 87)%nat
  else if VideoId.in_range "A" "F" c then Some (n - 55)%nat
  else None.

Definition unescape (c : ascii) : option ascii :=
  if Ascii.eqb c "034" then Some "034"%char
  else if Ascii.eqb c "\" then Some "\"%char
  else if Ascii.eqb c "/" then Some "/"%char
  else if Ascii.eqb c "b" then Some "008"%char
  else if Ascii.eqb c "f" then Some "012"%char
  else if Ascii.eqb c "n" then Some "010"%char
  else if Ascii.eqb c "r" then Some "013"%char
  else if Ascii.eqb c "t" then Some "009"%char
  else None.

(** The characters after an opening quote, up to the closing one. *)
Fixpoint parse_string (acc : list ascii) (s : string) : option (string * string) :=
  match s with
  | EmptyString => None
  | String c rest =>
      if Ascii.eqb c "034" then Some (string_of_list_ascii (rev acc), rest)
      else if Ascii.eqb c "\" then
        match rest with
        | String e rest' =>
            if Ascii.eqb e "u" then
              match rest' with
              | String h1 (String h2 (String h3 (String h4 rest''))) =>
                  match hex_val h1, hex_val h2, hex_val h3, hex_val h4 with
                  | Some a, Some b, Some c', Some d =>
                      let n := (((a * 16 + b) * 16 + c') * 16 + d)%nat in
                      if (n <? 256)%nat then parse_string (ascii_of_nat n :: acc) rest''
                      else None
                  | _, _, _, _ => None
                  end
              | _ => None
              end
            else
              match unescape e with
              | Some c' => parse_string (c' :: acc) rest'
              | None => None
              end
        | EmptyString => None
        end
      else if (nat_of_ascii c <? 32)%nat then None
      else parse_string (c :: acc) rest
  end.

Fixpoint span_digits (s : string) : string * string :=
  match s with
  | String c s' =>
      if is_digit c then let '(ds, r) := span_digits s' in (String c ds, r) else ("", s)
  | EmptyString => ("", "")
  end.

Fixpoint digits_value (acc : Z) (ds : string) : Z :=
  match ds with
  | EmptyString => acc
  | String c ds' => digits_value (acc * 10 + Z.of_nat (nat_of_ascii c - 48)) ds'
  end.

(** A number: an optional minus, an integer part with no leading zero,
    an optional fraction, an optional exponent. *)
Definition parse_number (s : string) : option (json * string) :=
  let '(sign, s1) :=
    match s with
    | String c r => if Ascii.eqb c "-" then ("-", r) else ("", s)
    | EmptyString => ("", s)
    end in
  match s1 with
  | EmptyString => None
  | String d0 r0 =>
      if negb (is_digit d0) then None
      else
        let '(int_part, s2) :=
          if Ascii.eqb d0 "0" then (String d0 "", r0) else span_digits s1 in
        let '(frac, s3) :=
          match s2 with
          | String c r =>
              if Ascii.eqb c "." then
                match span_digits r with
                | (EmptyString, _) => ("", s2)
                | (ds, r') => (String c ds, r')
                end
              else ("", s2)
          | EmptyString => ("", s2)
          end in
        let '(exp, s4) :=
          match s3 with
          | String c r =>
              if Ascii.eqb c "e" || Ascii.eqb c "E" then
                let '(sg, r1) :=
                  match r with
                  | String g r' =>
                      if Ascii.eqb g "+" || Ascii.eqb g "-" then (String g "", r') else ("", r)
                  | EmptyString => ("", r)
                  end in
                match span_digits r1 with
                | (EmptyString, _) => ("", s3)
                | (ds, r') => (String c (sg +:+ ds), r')
                end
              else ("", s3)
          | EmptyString => ("", s3)
          end in
        match frac, exp with
        | EmptyString, EmptyString =>
            let n := digits_value 0 int_part in
            Some (JInt (if String.eqb sign "-" then - n else n), s4)
        | _, _ => Some (JFloat (sign +:+ int_part +:+ frac +:+ exp), s4)
        end
  end.

Definition drop_prefix (p s : string) : string :=
  String.substring (String.length p) (String.length s - String.length p) s.

(** One value at the head of [s] (white space already skipped), and the
    rest of the text; [None] stands for [JSONDecodeError]. *)
Fixpoint parse_value (fuel : nat) (s : string) : option (json * string) :=
  match fuel with
  | O => None
  | S fuel' =>
      match s with
      | EmptyString => None
      | String c rest =>
          if Ascii.eqb c "034" then
            match parse_string [] rest with
            | Some (str, r) => Some (JStr str, r)
            | None => None
            end
          else if Ascii.eqb c "{" then
            match skip_ws rest with
            | String c' r =>
                if Ascii.eqb c' "}" then Some (JObj [], r)
                else parse_members fuel' [] (String c' r)
            | EmptyString => None
            end
          else if Ascii.eqb c "[" then
            match skip_ws rest with
            | String c' r =>
                if Ascii.eqb c' "]" then Some (JArr [], r)
                else parse_elements fuel' [] (String c' r)
            | EmptyString => None
            end
          else if String.prefix "null" s then Some (JNull, drop_prefix "null" s)
          else if String.prefix "true" s then Some (JBool true, drop_prefix "true" s)
          else if String.prefix "false" s then Some (JBool false, drop_prefix "false" s)
          else if String.prefix "NaN" s then Some (JFloat "NaN", drop_prefix "NaN" s)
          else if String.prefix "Infinity" s
          then Some (JFloat "Infinity", drop_prefix "Infinity" s)
          else if String.prefix "-Infinity" s
          then Some (JFloat "-Infinity", drop_prefix "-Infinity" s)
          else parse_number s
      end
  end
with parse_elements (fuel : nat) (acc : list json) (s : string) : option (json * string) :=
  match fuel with
  | O => None
  | S fuel' =>
      match parse_value fuel' s with
      | None => None
      | Some (v, r) =>
          match skip_ws r with
          | String c r' =>
              if Ascii.eqb c "," then parse_elements fuel' (acc ++ [v]) (skip_ws r')
              else if Ascii.eqb c "]" then Some (JArr (acc ++ [v]), r')
              else None
          | EmptyString => None
          end
      end
  end
with parse_members (fuel : nat) (acc : list (string * json)) (s : string)
    : option (json * string) :=
  match fuel with
  | O => None
  | S fuel' =>
      match s with
      | EmptyString => None
      | String q r0 =>
          if negb (Ascii.eqb q "034") then None
          else
            match parse_string [] r0 with
            | None => None
            | Some (key, r1) =>
                match skip_ws r1 with
                | EmptyString => None
                | String c r2 =>
                    if negb (Ascii.eqb c ":") then None
                    else
                      match parse_value fuel' (skip_ws r2) with
                      | None => None
                      | Some (v, r3) =>
                          match skip_ws r3 with
                          | EmptyString => None
                          | String c' r4 =>
                              if Ascii.eqb c' ","
                              then parse_members fuel' (dict_set key v acc) (skip_ws r4)
                              else if Ascii.eqb c' "}"
                              then Some (JObj (dict_set key v acc), r4)
                              else None
                          end
                      end
                end
            end
      end
  end.

(** [json.loads(s)]: one value, white space around it, nothing else. *)
Definition loads (s : string) : option json :=
  match parse_value (2 * String.length s + 2) (skip_ws s) with
  | Some (v, r) =>
      match skip_ws r with
      | EmptyString => Some v
      | _ => None
      end
  | None => None
  end.

End Json.


(** ** [remove_think_tags] and [generate_reflective_questions] *)

Module Reflect.
Import Regex Json.

(** The double quote. *)
Definition dq : string := String "034" EmptyString.

(** [.] under [re.DOTALL] *)
Definition any_char (c : ascii) : bool := true.

(** [<think>.*?</think>] *)
Definition think_pattern : re :=
  Seq (lit "<think>") (Seq (StarLazy (Chr any_char)) (lit "</think>")).

(** [\{.*\}] *)
Definition brace_pattern : re :=
  Seq (lit "{") (Seq (Star (Chr any_char)) (lit "}")).

(** [sorted(l, key=len, reverse=True)]: stable, longest first. *)
Fixpoint insert_by_len (c : string) (l : list string) : list string :=
  match l with
  | [] => [c]
  | d :: l' =>
      if (String.length d <? String.length c)%nat then c :: d :: l'
      else d :: insert_by_len c l'
  end.

Definition sorted_by_len_desc (l : list string) : list string :=
  fold_left (fun acc c => insert_by_len c acc) l [].

Definition parse_error : json :=
  JObj [("questions", JArr [JStr "Error: Could not parse AI response"])].

Definition default_questions : json :=
  JArr [JStr "What did you learn from this experience?"].

Definition system_prompt : string :=
    "
      You are an AI assistant specialized in educational psychology and ethical reflection.
      Your task is to generate a series of reflective questions for a student who is considering using an
      LLM (Large Language Model) or similar tool to complete a specific academic assignment.
      The goal of these questions is to prompt the student to pause, think critically about their decision,
      and consider the implications of using the tool versus completing the assignment themselves. The
      questions are intended to be a 'speed bump' before accessing the cheating functionality.
      The questions should be rooted in scientific and psychological principles, including:
      - Consequences analysis (examining potential short-term benefits vs. long-term costs, risks, missed opportunities)
      - Values clarification (connecting the action to personal values like integrity, learning, growth)
      - Motivational Interviewing techniques (exploring ambivalence, reasons for considering the tool, and reasons for doing the work authentically)
      - Cognitive Behavioral Therapy principles (considering thoughts and feelings associated with the decision and its outcomes)
      - Principles of learning and skill development (what the assignment is *meant* to teach, what is lost by bypassing it)
      Make the questions as relevant and specific as possible to the learning objectives and content of the assignment.
      Output JSON format: {"
    +:+ dq
    +:+ "questions"
    +:+ dq
    +:+ ": ["
    +:+ dq
    +:+ "Q1"
    +:+ dq
    +:+ ", "
    +:+ dq
    +:+ "Q2"
    +:+ dq
    +:+ ", ...]}
      ".

Definition user_prompt (class_name : string) (assignment_type : option string)
    (description : string) : string :=
    "
      Generate between 5 and 8 distinct questions to present to a student who is considering using an LLM to
      solve the following homework assignment.  The tone of the questions should be neutral and reflective,
      not accusatory or preachy.  Ensure questions are concise enough to be easily read on a web or mobile interface.

      - CLASS: "
    +:+ class_name
    +:+ "
      - ASSIGNMENT TYPE: "
    +:+ default "General Assignment" assignment_type
    +:+ "
      - DESCRIPTION: "
    +:+ description
    +:+ "
      
      Questions should:
      - Be open-ended and thought-provoking
      - Focus on learning consequences, ethics, and personal growth
      - Avoid accusatory language
      - Be concise (max 15 words each)
      
      Just to reiterate, the only output should be in JSON format: {"
    +:+ dq
    +:+ "questions"
    +:+ dq
    +:+ ": ["
    +:+ dq
    +:+ "Q1"
    +:+ dq
    +:+ ", "
    +:+ dq
    +:+ "Q2"
    +:+ dq
    +:+ ", ...]}
      ".

Section WithCollaborator.
Variable settings : Settings.
(** [self.openai_client.chat.completions.create] *)
Variable create : request -> completion.
(** [json.loads]; [None] stands for [json.JSONDecodeError]. *)
Variable json_loads : string -> option json.

(** The [for candidate in sorted(...)] loop. *)
Fixpoint first_parse (candidates : list string) : option json :=
  match candidates with
  | [] => None
  | candidate :: rest =>
      match json_loads candidate with
      | Some v => Some v
      | None => first_parse rest
      end
  end.

Definition cleaned_text (response_text : string) : string :=
  sub_empty think_pattern response_text.

Definition json_candidates (response_text : string) : list string :=
  findall brace_pattern (cleaned_text response_text).

Definition remove_think_tags (response_text : string) : json :=
  let cleaned := cleaned_text response_text in
  match first_parse (sorted_by_len_desc (json_candidates response_text)) with
  | Some v => v
  | None =>
      match json_loads cleaned with
      | Some v => v
      | None => parse_error
      end
  end.

Definition questions_request (class_name : string) (assignment_type : option string)
    (description : string) : request :=
  {| model := SUMMARY_MODEL_NAME settings;
     messages :=
       [ {| role := "system"; content := system_prompt |};
         {| role := "user";
            content := user_prompt class_name assignment_type description |} ];
     max_tokens := None |}.

(** The body of the [try] block, given [response.choices]; every
    exception raised there is caught and answered with the default
    question. *)
Definition questions_of_choices (choices : list (option string)) : json :=
  match choices with
  | [] => default_questions
  | None :: _ => default_questions
  | Some content :: _ =>
      if negb (PyStr.truthy content) then default_questions
      else
        match remove_think_tags content with
        | JObj d =>
            let question_set := default (JArr []) (dict_get "questions" d) in
            if negb (truthy question_set) then default_questions else question_set
        | _ => (* parsed.get: AttributeError *) default_questions
        end
  end.

(** [assignment_type] is [assignment.type] when the attribute exists. *)
Definition generate_reflective_questions (class_name : string)
    (assignment_type : option string) (description : string) : result json :=
  match create (questions_request class_name assignment_type description) with
  | Raises e => Raises e
  | Returns choices => Returns (questions_of_choices choices)
  end.

End WithCollaborator.

End Reflect.


(** ** [AssignmentSolver._get_youtube_transcript] *)

Module Transcript.

(** The three exception classes the retriever tells apart. *)
Inductive unavailability : Type :=
  | TranscriptsDisabled
  | NoTranscriptFound
  | VideoUnavailable.

(** [type(e).__name__] *)
Definition class_name (u : unavailability) : string :=
  match u with
  | TranscriptsDisabled => "TranscriptsDisabled"
  | NoTranscriptFound => "NoTranscriptFound"
  | VideoUnavailable => "VideoUnavailable"
  end.

(** What [YouTubeTranscriptApi.get_transcript] gives: the caption items,
    each with its [text] entry when it has one, or one of the three
    classified exceptions, or any other exception. *)
Inductive fetched : Type :=
  | Captions (items : list (option string))
  | Unavailable (u : unavailability)
  | Failed (e : exn).

(** [[item['text'] for item in transcript_list]]; [None] when some item has
    no [text] key, which raises [KeyError]. *)
Fixpoint texts (items : list (option string)) : option (list string) :=
  match items with
  | [] => Some []
  | Some t :: rest =>
      match texts rest with
      | Some ts => Some (t :: ts)
      | None => None
      end
  | None :: _ => None
  end.

Definition unavailable_placeholder (u : unavailability) (video_id : string) : string :=
  "[" +:+ class_name u +:+ " for YouTube video ID: " +:+ video_id +:+ "]".

Definition error_placeholder (video_id message : string) : string :=
  "[Error fetching transcript for YouTube video ID: " +:+ video_id +:+ ": " +:+ message +:+ "]".

Section WithCollaborators.
Variable settings : Settings.
Variable create : request -> completion.
Variable get_transcript : string -> fetched.

(** Returns the text for the bundle and the requests sent to the
    generation collaborator. *)
Definition _get_youtube_transcript (video_id : string) : string * list request :=
  match get_transcript video_id with
  | Captions items =>
      match texts items with
      | Some ts =>
          Summarizer._summarize_text settings create (PyStr.join " " ts)
            Summarizer.default_max_words
      | None => (* str(KeyError('text')) *)
          (error_placeholder video_id "'text'", [])
      end
  | Unavailable u => (unavailable_placeholder u video_id, [])
  | Failed e => (error_placeholder video_id (exn_str e), [])
  end.

End WithCollaborators.

End Transcript.

(** ** [AssignmentSolver._read_file_content] *)

Module Interpreter.

(** The extensions read as text and returned as they are. *)
Definition text_extensions : list string :=
  [".txt"; ".md"; ".py"; ".js"; ".json"; ".xml"; ".css"; ".csv"; ".rtf"].

Definition in_list (x : string) (l : list string) : bool :=
  existsb (String.eqb x) l.

Definition nl : string := String "010" EmptyString.

Definition not_found (filepath : string) : string :=
  "[File not found: " +:+ filepath +:+ "]".

Definition empty_file (filename original_url : string) : string :=
  "[Empty file: " +:+ filename +:+ " from " +:+ original_url +:+ "]".

Definition empty_html (filename : string) : string :=
  "[Empty HTML file: " +:+ filename +:+ "]".

Definition no_text (filename html_content : string) : string :=
  "[No text content extracted from HTML: " +:+ filename +:+ ". Raw HTML length: "
  +:+ pretty (PyStr.len html_content) +:+ "]".

Definition pdf_placeholder (filename original_url : string) : string :=
  "[PDF File: " +:+ filename +:+ " from " +:+ original_url
  +:+ " - PDF extraction not implemented]".

Definition word_placeholder (filename original_url : string) : string :=
  "[Word Document: " +:+ filename +:+ " from " +:+ original_url
  +:+ " - Word extraction not implemented]".

Definition unknown_sample (filename content_sample : string) : string :=
  "[Unknown file type content sample from " +:+ filename +:+ "]:" +:+ nl +:+ content_sample.

Definition read_error (filename message : string) : string :=
  "[Error reading/processing file: " +:+ filename +:+ " - " +:+ message +:+ "]".

(** The size of the sample read from a file of unknown type. *)
Definition sample_chars : nat := Z.to_nat 2048.

Section WithServices.
Variable settings : Settings.
Variable create : request -> completion.
Variable soup : Type.
Variable BeautifulSoup : string -> result soup.
Variable main_text : soup -> string.
Variable a_hrefs : soup -> list string.
Variable iframe_srcs : soup -> list string.
Variable urljoin : string -> string -> result string.
(** [bytes.decode('utf-8', errors='replace')], [filepath.name] and
    [filepath.suffix]. *)
Variable decode : list Byte.byte -> string.
Variable path_name : string -> string.
Variable path_suffix : string -> string.

(** [aiofiles.open(filepath, 'r', ...)] followed by [f.read()]. *)
Definition read_text (filepath : string) (fs : Fetcher.file_system) : result string :=
  match fs !! filepath with
  | Some b => Returns (decode b)
  | None => Raises (OSError "No such file or directory")
  end.

(** The body of the [try] block, by file extension. *)
Definition interpret (filepath original_url file_extension : string)
    (fs : Fetcher.file_system) : result (string * list request) :=
  let filename := path_name filepath in
  if String.eqb file_extension ".html" then
    match read_text filepath fs with
    | Raises e => Raises e
    | Returns html_content =>
        if negb (PyStr.truthy (PyStr.strip html_content))
        then Returns (empty_html filename, [])
        else
          let cleaned_text :=
            (Extractor._extract_links_yt_from_html soup BeautifulSoup main_text a_hrefs
               iframe_srcs urljoin html_content original_url).1.1 in
          if negb (PyStr.truthy (PyStr.strip cleaned_text))
          then Returns (no_text filename html_content, [])
          else Returns (Summarizer._summarize_text settings create cleaned_text
                          Summarizer.default_max_words)
    end
  else if in_list file_extension text_extensions then
    match read_text filepath fs with
    | Raises e => Raises e
    | Returns content => Returns (content, [])
    end
  else if String.eqb file_extension ".pdf"
  then Returns (pdf_placeholder filename original_url, [])
  else if in_list file_extension [".doc"; ".docx"]
  then Returns (word_placeholder filename original_url, [])
  else
    match read_text filepath fs with
    | Raises e => Raises e
    | Returns content =>
        Returns (unknown_sample filename (PyStr.str_take sample_chars content), [])
    end.

(** Returns the text for the bundle and the requests sent to the
    generation collaborator. *)
Definition _read_file_content (filepath original_url : string)
    (fs : Fetcher.file_system) : string * list request :=
  match fs !! filepath with
  | None => (not_found filepath, [])
  | Some b =>
      if Fetcher.file_size fs filepath =? 0
      then (empty_file (path_name filepath) original_url, [])
      else
        match interpret filepath original_url (PyStr.lower (path_suffix filepath)) fs with
        | Returns r => r
        | Raises e => (read_error (path_name filepath) (exn_str e), [])
        end
  end.

End WithServices.

End Interpreter.

(** ** The rest of [generate_solution]: prompt, answer, artifact *)

Module Solution.

(** [[a-zA-Z0-9_]] *)
Definition name_char (c : ascii) : bool :=
  VideoId.in_range "a" "z" c || VideoId.in_range "A" "Z" c
  || VideoId.in_range "0" "9" c || Ascii.eqb c "_".

Fixpoint replace_unsafe (s : string) : string :=
  match s with
  | EmptyString => EmptyString
  | String c s' => String (if name_char c then c else "_"%char) (replace_unsafe s')
  end.

(** [re.sub(r'[^a-zA-Z0-9_]', '_', assignment.name[:50])] *)
Definition filename_base (assignment : AssignmentData) : string :=
  replace_unsafe (PyStr.str_take 50 (name assignment)).

Definition prompt_filename (assignment : AssignmentData) : string :=
  "full_prompt_" +:+ filename_base assignment +:+ ".txt".

Definition answer_filename (assignment : AssignmentData) : string :=
  filename_base assignment +:+ "_answer.md".

Definition build_prompt (assignment : AssignmentData) (all_supplementary_content : string)
  : string :=
  "You are an expert academic assistant. Your task is to provide a comprehensive solution for the following university-level assignment.
Please analyze the assignment description and any supplementary content (files, transcripts) carefully and generate a complete response.
Only provide the answer to the question in an appropriate format.  That means a proper MLA essay format for a question that wants an essay response, simple python code if the result is for a python notebook, or others as appropriate to the assignment's requirements. Do not restate my question or offer a follow up question.

--- ASSIGNMENT DETAILS ---
Assignment Name: "
  +:+ name assignment
  +:+ "
Description (cleaned):
"
  +:+ description assignment
  +:+ "
--- END OF ASSIGNMENT DETAILS ---

--- SUPPLEMENTARY CONTENT (Files & Transcripts) ---
"
  +:+ all_supplementary_content
  +:+ "
--- END OF SUPPLEMENTARY CONTENT ---

Please provide your solution below:".

Definition initial_details_text (assignment : AssignmentData) : string :=
  "Processing assignment: '" +:+ name assignment +:+ "'" +:+ Aggregator.nl
  +:+ "Description length: " +:+ pretty (PyStr.len (description assignment)) +:+ Aggregator.nl
  +:+ "Links found: " +:+ pretty (length (links assignment)) +:+ Aggregator.nl
  +:+ "YouTube videos: " +:+ pretty (length (youtube_video_ids assignment)).

Definition solution_request (settings : Settings) (prompt : string) : request :=
  {| model := HW_MODEL_NAME settings;
     messages :=
       [ {| role := "system";
            content := "You are a helpful assistant that completes university homework concisely and accurately, adhering to specified formats like MLA." |};
         {| role := "user"; content := prompt |} ];
     max_tokens := None |}.

Definition no_answer : string := "[No content in AI response]".

Definition api_error (e : exn) : string :=
  "[Error generating solution via API: " +:+ exn_str e +:+ "]".

(** The dictionary [generate_solution] returns. *)
Record artifact : Type := {
  prompt_file : string;
  answer_file : string;
  answer_content : string;
  assignment_details_text : string
}.

Section WithWorld.
Variable World : Type.
Variable settings : Settings.
(** The generation collaborator, and [aiofiles.open(path, 'w')] followed by
    [f.write(text)]. *)
Variable create : request -> Aggregator.coroutine World (list (option string)).
Variable write_text : string -> string -> Aggregator.coroutine World unit.

(** Lines 375 to 428, from the fragments on; the activity reports and the
    log lines are left out. *)
Definition finish_solution (assignment : AssignmentData) (parts : list string) (w : World)
  : artifact * World :=
  let prompt := build_prompt assignment (Aggregator.all_supplementary_content parts) in
  (* an exception while saving the prompt is logged and dropped *)
  let w1 := (write_text (prompt_filename assignment) prompt w).2 in
  let '(content, file, w3) :=
    match create (solution_request settings prompt) w1 with
    | (Raises e, w2) => (api_error e, EmptyString, w2)
    | (Returns [], w2) =>
        (api_error (IndexError "list index out of range"), EmptyString, w2)
    | (Returns (choice :: _), w2) =>
        let answer :=
          match choice with
          | Some text => if PyStr.truthy text then text else no_answer
          | None => no_answer
          end in
        match write_text (answer_filename assignment) answer w2 with
        | (Returns _, w3) => (answer, answer_filename assignment, w3)
        | (Raises e, w3) => (api_error e, EmptyString, w3)
        end
    end in
  ({| prompt_file := prompt_filename assignment;
      answer_file := file;
      answer_content := content;
      assignment_details_text :=
        initial_details_text assignment +:+ Aggregator.nl
        +:+ "Generated prompt length: " +:+ pretty (PyStr.len prompt) +:+ Aggregator.nl
        +:+ "Supplementary content parts: " +:+ pretty (length parts) |}, w3).

Variable _download_file : string -> Aggregator.coroutine World (option string).
Variable _read_file_content : string -> string -> Aggregator.coroutine World string.
Variable _get_youtube_transcript : string -> Aggregator.coroutine World (option string).
Variable path_name : string -> string.
Variable unlink : string -> World -> World.


End WithWorld.

End Solution.

(** ** [getAsgs.py]: the sorting of the assignments *)

Module GetAsgs.

(** An assignment with the state of the user's submission. *)
Record assignment : Type := {
  asg_id : Z;
  asg_name : string;
  due_at : option string;
  workflow_state : string
}.

Record course : Type := {
  course_name : string;
  end_at : option string;
  course_assignments : list assignment
}.

(** What stops the script. *)
Inductive crash : Type :=
  | BadDate (text : string)
  | KeyError (key : string).

(** A [dict] from course name to assignments, in insertion order. *)
Abbreviation dict := (list (string * list assignment)).

(** [d[k] = v] *)
Fixpoint dict_put (k : string) (v : list assignment) (d : dict) : dict :=
  match d with
  | [] => [(k, v)]
  | (k', v') :: d' =>
      if String.eqb k k' then (k, v) :: d' else (k', v') :: dict_put k v d'
  end.

(** [d.get(k)] *)
Fixpoint dict_get (k : string) (d : dict) : option (list assignment) :=
  match d with
  | [] => None
  | (k', v) :: d' => if String.eqb k k' then Some v else dict_get k d'
  end.

(** [d[k].append(x)]; [KeyError] without the key. *)
Fixpoint dict_append (k : string) (x : assignment) (d : dict) : crash + dict :=
  match d with
  | [] => inl (KeyError k)
  | (k', v) :: d' =>
      if String.eqb k k' then inr ((k', v ++ [x]) :: d')
      else
        match dict_append k x d' with
        | inr d'' => inr ((k', v) :: d'')
        | inl e => inl e
        end
  end.

(** The three dictionaries of the script. *)
Record shelves : Type := Shelves {
  completed_assignments : dict;
  pending_assignments : dict;
  no_due_date_assignments : dict
}.

(** [hasattr(x, 'f') and x.f] on a date attribute. *)
Definition present (o : option string) : option string :=
  match o with
  | Some s => if PyStr.truthy s then Some s else None
  | None => None
  end.

Section WithClock.
(** [datetime.now()] and [datetime.strptime(s, "%Y-%m-%dT%H:%M:%SZ")], the
    latter [None] on a [ValueError]; dates are points on one time line. *)
Variable now : Z.
Variable strptime : string -> option Z.

(** One iteration of [for assignment in assignments]. *)
Definition shelve (course_name : string) (st : shelves) (a : assignment) : crash + shelves :=
  if String.eqb (workflow_state a) "submitted" then
    match dict_append course_name a (completed_assignments st) with
    | inr d => inr (Shelves d (pending_assignments st) (no_due_date_assignments st))
    | inl e => inl e
    end
  else
    match present (due_at a) with
    | Some text =>
        match strptime text with
        | None => inl (BadDate text)
        | Some due_date =>
            if due_date <? now then inr st
            else
              match dict_append course_name a (pending_assignments st) with
              | inr d => inr (Shelves (completed_assignments st) d (no_due_date_assignments st))
              | inl e => inl e
              end
        end
    | None =>
        match dict_append course_name a (no_due_date_assignments st) with
        | inr d => inr (Shelves (completed_assignments st) (pending_assignments st) d)
        | inl e => inl e
        end
    end.

Fixpoint shelve_all (course_name : string) (st : shelves) (l : list assignment)
  : crash + shelves :=
  match l with
  | [] => inr st
  | a :: l' =>
      match shelve course_name st a with
      | inr st' => shelve_all course_name st' l'
      | inl e => inl e
      end
  end.

(** One iteration of [for course in courses]. *)
Definition visit (st : shelves) (c : course) : crash + shelves :=
  let fresh :=
    Shelves (dict_put (course_name c) [] (completed_assignments st))
            (dict_put (course_name c) [] (pending_assignments st))
            (dict_put (course_name c) [] (no_due_date_assignments st)) in
  match present (end_at c) with
  | Some text =>
      match strptime text with
      | None => inl (BadDate text)
      | Some course_end_date =>
          if course_end_date <? now then inr st
          else shelve_all (course_name c) fresh (course_assignments c)
      end
  | None => shelve_all (course_name c) fresh (course_assignments c)
  end.

Fixpoint visit_all (st : shelves) (courses : list course) : crash + shelves :=
  match courses with
  | [] => inr st
  | c :: rest =>
      match visit st c with
      | inr st' => visit_all st' rest
      | inl e => inl e
      end
  end.

(** The dictionaries once the loops are over. *)
Definition sort_assignments (courses : list course) : crash + shelves :=
  visit_all (Shelves [] [] []) courses.

(** [asg_list]: the pending assignments of all courses, one after another. *)
Definition asg_list (st : shelves) : list assignment :=
  concat (map snd (pending_assignments st)).

End WithClock.

End GetAsgs.

(** ** [get_assignments]: the assignments of a course *)

Module Canvas.

(** An assignment as the course service lists it; [description] may be
    missing or null. *)
Record raw_assignment : Type := {
  raw_id : Z;
  raw_name : string;
  raw_description : option string
}.

Section WithServices.
Variable settings : Settings.
Variable soup : Type.
Variable BeautifulSoup : string -> result soup.
Variable main_text : soup -> string.
Variable a_hrefs : soup -> list string.
Variable iframe_srcs : soup -> list string.
Variable urljoin : string -> string -> result string.
(** [canvas.get_course(course_id)] followed by
    [list(course.get_assignments())]; either may raise. *)
Variable list_assignments : Z -> result (list raw_assignment).

(** [getattr(assign, 'description', '') or ''] *)
Definition desc_html (assign : raw_assignment) : string :=
  match raw_description assign with
  | Some d => if PyStr.truthy d then d else EmptyString
  | None => EmptyString
  end.

(** The body of [for assign in assignments_raw]. *)
Definition structured (assign : raw_assignment) : AssignmentData :=
  let '(cleaned_desc_text, general_links, yt_ids) :=
    Extractor._extract_links_yt_from_html soup BeautifulSoup main_text a_hrefs
      iframe_srcs urljoin (desc_html assign) (CANVAS_API_URL settings) in
  {| id := raw_id assign;
     name := raw_name assign;
     description := cleaned_desc_text;
     links := general_links;
     youtube_video_ids := yt_ids |}.

Definition get_assignments (course_id : Z) : list AssignmentData :=
  match list_assignments course_id with
  | Returns assignments_raw => map structured assignments_raw
  | Raises _ => []
  end.

End WithServices.

End Canvas.

(** ** Fixtures for the examples *)

Definition demo_settings : Settings :=
  {| OPENAI_API_KEY := "key";
     OPENAI_API_BASE := "https://llm.example/v1";
     CANVAS_API_KEY := "key";
     CANVAS_API_URL := "https://canvas.example";
     SUMMARY_MODEL_NAME := "summary-model";
     HW_MODEL_NAME := "homework-model";
     max_file_size := default_max_file_size;
     download_timeout := default_download_timeout |}.

(** A collaborator that is down, and one that answers with a fixed text. *)
Definition failing_create : request -> completion :=
  fun _ => Raises (APIError "connection refused").

Definition answering_create (answer : option string) : request -> completion :=
  fun _ => Returns [answer].

(** [int(s)] on a plain run of decimal digits. *)
Definition decimal_int (s : string) : option Z :=
  match Json.span_digits s with
  | (String d ds, EmptyString) => Some (Json.digits_value 0 (String d ds))
  | _ => None
  end.

(** A ceiling of four bytes, to keep the examples small. *)
Definition tiny_settings : Settings :=
  {| OPENAI_API_KEY := "key";
     OPENAI_API_BASE := "https://llm.example/v1";
     CANVAS_API_KEY := "key";
     CANVAS_API_URL := "https://canvas.example";
     SUMMARY_MODEL_NAME := "summary-model";
     HW_MODEL_NAME := "homework-model";
     max_file_size := 4;
     download_timeout := default_download_timeout |}.

Definition three_bytes : Fetcher.chunk := [Byte.x61; Byte.x62; Byte.x63].

(** A server that announces nothing and sends six bytes in two chunks. *)
Definition silent_response : Fetcher.response :=
  {| Fetcher.status := 200;
     Fetcher.content_type := Some "application/octet-stream";
     Fetcher.content_disposition := None;
     Fetcher.content_length := None;
     Fetcher.body := Fetcher.SChunk three_bytes (Fetcher.SChunk three_bytes Fetcher.SEnd) |}.

(** A server that announces nine bytes. *)
Definition honest_response : Fetcher.response :=
  {| Fetcher.status := 200;
     Fetcher.content_type := Some "application/octet-stream";
     Fetcher.content_disposition := None;
     Fetcher.content_length := Some "9";
     Fetcher.body := Fetcher.SChunk three_bytes
                       (Fetcher.SChunk three_bytes (Fetcher.SChunk three_bytes Fetcher.SEnd)) |}.

(** A server that sends three bytes and stops. *)
Definition small_response : Fetcher.response :=
  {| Fetcher.status := 200;
     Fetcher.content_type := Some "text/plain";
     Fetcher.content_disposition := None;
     Fetcher.content_length := Some "3";
     Fetcher.body := Fetcher.SChunk three_bytes Fetcher.SEnd |}.

Definition demo_session (r : Fetcher.response) : string -> result Fetcher.response :=
  fun _ => Returns r.

Definition demo_path_name (url : string) : string := "notes.bin".
Definition demo_suffix (filename : string) : string := ".bin".
Definition demo_now : Z := 1700000000.

(** A world that records which item operation ran, in completion order. *)
Definition demo_world : Type := list string.

Definition demo_download (url : string) : Aggregator.coroutine demo_world (option string) :=
  fun w =>
    (Returns (if PyStr.contains "missing" url then None else Some "downloads/1700000000_notes.txt"),
     w ++ ["download " +:+ url]).

Definition demo_read (filepath url : string) : Aggregator.coroutine demo_world string :=
  fun w => (Returns "Chapter two: recursion.", w ++ ["read " +:+ filepath]).

Definition demo_transcript (video_id : string) : Aggregator.coroutine demo_world (option string) :=
  fun w =>
    (Returns (Some ("[TranscriptsDisabled for YouTube video ID: " +:+ video_id +:+ "]")),
     w ++ ["transcript " +:+ video_id]).

Definition demo_name (filepath : string) : string := "1700000000_notes.txt".
Definition demo_unlink (filepath : string) (w : demo_world) : demo_world :=
  w ++ ["unlink " +:+ filepath].

(** Two links, the first of them missing, and one video without captions. *)
Definition demo_assignment : AssignmentData :=
  {| id := 7;
     name := "Essay 1";
     description := "Write about recursion.";
     links := ["https://example.com/missing"; "https://example.com/notes.txt"];
     youtube_video_ids := ["dQw4w9WgXcQ"] |}.

(** The response of scenario C: a reasoning wrapper, then the object with
    the two questions. *)
Definition scenario_c_response : string :=
  "<think>reasoning</think>{" +:+ Reflect.dq +:+ "questions" +:+ Reflect.dq +:+ ":["
  +:+ Reflect.dq +:+ "Q1" +:+ Reflect.dq +:+ "," +:+ Reflect.dq +:+ "Q2" +:+ Reflect.dq +:+ "]}".

(** A response whose [questions] entry is a text, not a list. *)
Definition text_questions_response : string :=
  "{" +:+ Reflect.dq +:+ "questions" +:+ Reflect.dq +:+ ": "
  +:+ Reflect.dq +:+ "soon" +:+ Reflect.dq +:+ "}".

(** A parsed page reduced to what the extractor reads from it. *)
Record demo_soup : Type := {
  demo_text : string;
  demo_hrefs : list string;
  demo_srcs : list string
}.

(** A page whose two anchors and one frame all point at the same video,
    beside an ordinary link. *)
Definition demo_page : demo_soup :=
  {| demo_text := "Watch the lecture";
     demo_hrefs := [ "https://www.youtube.com/watch?v=dQw4w9WgXcQ";
                     "https://example.com/notes.html";
                     "https://youtu.be/dQw4w9WgXcQ" ];
     demo_srcs := [ "https://www.youtube.com/embed/dQw4w9WgXcQ" ] |}.

Definition demo_parse (html : string) : result demo_soup := Returns demo_page.

Definition demo_urljoin (base url : string) : result string := Returns url.

(** A transcript service with captions for one video only. *)
Definition demo_get_transcript (video_id : string) : Transcript.fetched :=
  if String.eqb video_id "dQw4w9WgXcQ"
  then Transcript.Captions [Some "never gonna"; Some "give you up"]
  else Transcript.Unavailable Transcript.TranscriptsDisabled.

(** A download directory with one text file, one document and one empty file. *)
Definition demo_files : gmap string (list Byte.byte) :=
  {[ "downloads/1_notes.TXT" := three_bytes;
     "downloads/1_paper.pdf" := three_bytes;
     "downloads/1_blob.xyz" := three_bytes;
     "downloads/1_empty.txt" := [] ]}.

Definition demo_decode (b : list Byte.byte) : string := String.string_of_list_byte b.

(** The part of a path behind the last dot of the fixtures above. *)
Definition demo_extension (filepath : string) : string :=
  if PyStr.contains ".TXT" filepath then ".TXT"
  else if PyStr.contains ".txt" filepath then ".txt"
  else if PyStr.contains ".pdf" filepath then ".pdf"
  else ".xyz".

(** A server whose connection breaks after the first three bytes. *)
Definition broken_response : Fetcher.response :=
  {| Fetcher.status := 200;
     Fetcher.content_type := Some "text/plain";
     Fetcher.content_disposition := None;
     Fetcher.content_length := None;
     Fetcher.body := Fetcher.SChunk three_bytes (Fetcher.SError (ClientError "connection reset")) |}.

(** A collaborator that answers, and a disk on which the answer file
    cannot be written. *)
Definition demo_solution_create (r : request)
  : Aggregator.coroutine demo_world (list (option string)) :=
  fun w => (Returns [Some "Recursion is when a function calls itself."], w ++ ["create"]).

Definition demo_write_text (path text : string) : Aggregator.coroutine demo_world unit :=
  fun w =>
    if PyStr.contains "_answer" path then (Raises (OSError "disk full"), w)
    else (Returns tt, w ++ ["write " +:+ path]).

(** Two dates the clock of the examples can read, one behind [demo_now] and
    one ahead of it; every other text is no date. *)
Definition demo_strptime (text : string) : option Z :=
  if String.eqb text "2020-01-01T00:00:00Z" then Some 1577836800
  else if String.eqb text "2030-01-01T00:00:00Z" then Some 1893456000
  else None.

Definition essay_done : GetAsgs.assignment :=
  {| GetAsgs.asg_id := 1; GetAsgs.asg_name := "Essay 1";
     GetAsgs.due_at := Some "2020-01-01T00:00:00Z"; GetAsgs.workflow_state := "submitted" |}.
Definition essay_open : GetAsgs.assignment :=
  {| GetAsgs.asg_id := 2; GetAsgs.asg_name := "Essay 2";
     GetAsgs.due_at := Some "2030-01-01T00:00:00Z"; GetAsgs.workflow_state := "unsubmitted" |}.
Definition essay_missed : GetAsgs.assignment :=
  {| GetAsgs.asg_id := 3; GetAsgs.asg_name := "Quiz";
     GetAsgs.due_at := Some "2020-01-01T00:00:00Z"; GetAsgs.workflow_state := "unsubmitted" |}.
Definition essay_undated : GetAsgs.assignment :=
  {| GetAsgs.asg_id := 4; GetAsgs.asg_name := "Survey";
     GetAsgs.due_at := None; GetAsgs.workflow_state := "unsubmitted" |}.

(** A running course with one assignment of each kind, and a course that
    ended. *)
Definition demo_courses : list GetAsgs.course :=
  [ {| GetAsgs.course_name := "CS 101"; GetAsgs.end_at := Some "2030-01-01T00:00:00Z";
       GetAsgs.course_assignments := [essay_done; essay_open; essay_missed; essay_undated] |};
    {| GetAsgs.course_name := "CS 001"; GetAsgs.end_at := Some "2020-01-01T00:00:00Z";
       GetAsgs.course_assignments := [essay_open] |} ].

Definition demo_shelves : GetAsgs.shelves :=
  GetAsgs.Shelves [("CS 101", [essay_done])] [("CS 101", [essay_open])]
                  [("CS 101", [essay_undated])].


(** A course with an assignment that has a page and one that has no
    description; every other course cannot be fetched. *)
Definition essay_raw : Canvas.raw_assignment :=
  {| Canvas.raw_id := 7; Canvas.raw_name := "Essay 1";
     Canvas.raw_description := Some "<a href=...>" |}.
Definition survey_raw : Canvas.raw_assignment :=
  {| Canvas.raw_id := 8; Canvas.raw_name := "Survey"; Canvas.raw_description := None |}.

Definition demo_list_assignments (course_id : Z) : result (list Canvas.raw_assignment) :=
  if course_id =? 101 then Returns [essay_raw; survey_raw]
  else Raises (APIError "Not Found").

(** * The vocabulary of the properties *)

(** [s1] is what is left of [s] after some prefix. *)
Definition str_suffix (s1 s : string) : Prop := exists p, s = p +:+ s1.

(** Every character of [s] passes [p]. *)
Fixpoint str_forallb (p : ascii -> bool) (s : string) : bool :=
  match s with
  | EmptyString => true
  | String c s' => p c && str_forallb p s'
  end.



(** The identifiers some anchor or frame of the page resolves to. *)
Definition resolved_in {soup : Type} (a_hrefs iframe_srcs : soup -> list string)
    (sp : soup) (v : string) : Prop :=
  (exists href, href ∈ a_hrefs sp /\ Extractor.skipped_href href = false /\
                VideoId._extract_youtube_video_id href = Some v) \/
  (exists src, src ∈ iframe_srcs sp /\ VideoId._extract_youtube_video_id src = Some v).

(** A matcher only ever hands a suffix of its input to its continuation. *)
Definition hands_suffix {R : Type}
    (body : string -> (string -> option R) -> option R) : Prop :=
  forall s k v, body s k = Some v -> exists s1, str_suffix s1 s /\ k s1 = Some v.

(** The host of a URL as the claim reads it: what stands between [://] and
    the next [/], [?] or [#]. *)
Fixpoint after_scheme (url : string) : string :=
  match url with
  | EmptyString => EmptyString
  | String c rest =>
      if String.prefix "://" url then String.substring 3 (String.length url - 3) url
      else after_scheme rest
  end.

Fixpoint until_delimiter (s : string) : string :=
  match s with
  | EmptyString => EmptyString
  | String c rest =>
      if Ascii.eqb c "/" || Ascii.eqb c "?" || Ascii.eqb c "#" then EmptyString
      else String c (until_delimiter rest)
  end.

Definition url_host (url : string) : string := until_delimiter (after_scheme url).

Fixpoint ends_with (p s : string) : bool :=
  String.eqb p s ||
  match s with
  | EmptyString => false
  | String _ s' => ends_with p s'
  end.

(** A host is recognized when it is one of the video domains or a
    subdomain of one. *)
Definition recognized_host (host : string) : bool :=
  existsb (fun d => String.eqb host d || ends_with ("." +:+ d) host) VideoId.domains.

(** What holds of the slots once the completions listed in [finished] have
    been stored. *)
Definition slots_inv {World A : Type} (tasks : list (Aggregator.coroutine World A))
    (finished : list nat)
    (slots : list (option (result A))) : Prop :=
  length slots = length tasks /\
  (forall i r, slots !! i = Some (Some r) ->
               exists t w, tasks !! i = Some t /\ (t w).1 = r) /\
  (forall i, i ∈ finished -> (i < length tasks)%nat ->
             exists r, slots !! i = Some (Some r)).

(** No candidate parses and the cleaned text does not parse either. *)
Definition unparseable (json_loads : string -> option Json.json)
    (response_text : string) : Prop :=
  Forall (fun c => json_loads c = None) (Reflect.json_candidates response_text) /\
  json_loads (Reflect.cleaned_text response_text) = None.

(** The extensions [_read_file_content] has a branch for. *)
Definition known_extension (file_extension : string) : bool :=
  String.eqb file_extension ".html"
  || Interpreter.in_list file_extension Interpreter.text_extensions
  || String.eqb file_extension ".pdf"
  || Interpreter.in_list file_extension [".doc"; ".docx"].

(** A stream that delivers the chunks [cs] and goes on as [tail]. *)
Fixpoint chunks_then (cs : list Fetcher.chunk) (tail : Fetcher.stream) : Fetcher.stream :=
  match cs with
  | [] => tail
  | c :: cs' => Fetcher.SChunk c (chunks_then cs' tail)
  end.


(** The link an anchor contributes, if any: none when the anchor is
    skipped, resolves to a video, or cannot be joined to the base. *)
Definition link_of (urljoin : string -> string -> result string)
    (base_url_for_links href : string) : option string :=
  if Extractor.skipped_href href then None
  else
    match VideoId._extract_youtube_video_id href with
    | Some _ => None
    | None =>
        match urljoin base_url_for_links href with
        | Returns u => Some u
        | Raises _ => None
        end
    end.


(** What stands behind the last closing brace of a text, if it has one. *)
Fixpoint after_last_brace (s : string) : option string :=
  match s with
  | EmptyString => None
  | String c s' =>
      match after_last_brace s' with
      | Some r => Some r
      | None => if Ascii.eqb "}" c then Some s' else None
      end
  end.

(** The sorting of [getAsgs.py], told by what it keeps. *)
Section Sorting.
Variable now : Z.
Variable strptime : string -> option Z.

(** The date is read and is not before [now]. *)
Definition not_before_now (text : string) : bool :=
  match strptime text with
  | Some date => negb (date <? now)
  | None => false
  end.

(** The course has no end date, or one that is not before [now]. *)
Definition still_running (c : GetAsgs.course) : bool :=
  match GetAsgs.present (GetAsgs.end_at c) with
  | Some text => not_before_now text
  | None => true
  end.

Definition is_submitted (a : GetAsgs.assignment) : bool :=
  String.eqb (GetAsgs.workflow_state a) "submitted".

(** Not submitted, and due at a date that is not before [now]. *)
Definition is_pending (a : GetAsgs.assignment) : bool :=
  negb (is_submitted a) &&
  match GetAsgs.present (GetAsgs.due_at a) with
  | Some text => not_before_now text
  | None => false
  end.

(** Not submitted, and with no due date. *)
Definition is_undated (a : GetAsgs.assignment) : bool :=
  negb (is_submitted a) &&
  match GetAsgs.present (GetAsgs.due_at a) with
  | Some _ => false
  | None => true
  end.

(** The entry of a course in one of the dictionaries. *)
Definition shelf_of (keep : GetAsgs.assignment -> bool) (c : GetAsgs.course)
  : string * list GetAsgs.assignment :=
  (GetAsgs.course_name c, List.filter keep (GetAsgs.course_assignments c)).

(** Every assignment of the dictionary is pending. *)
Definition all_pending (d : GetAsgs.dict) : Prop :=
  Forall (fun kv => Forall (fun a => is_pending a = true) kv.2) d.

End Sorting.

(** * Properties *)

(** ** Strings *)


Lemma rstrip_nonspace (c : ascii) (r : string) :
  PyStr.is_space c = false -> PyStr.rstrip (String c r) <> EmptyString.
Proof.
  intros E. simpl. destruct (PyStr.rstrip r); [by rewrite E|done].
Qed.



Lemma truthy_true (s : string) : PyStr.truthy s = true <-> s <> EmptyString.
Proof. destruct s; simpl; split; congruence. Qed.

Lemma truthy_false (s : string) : PyStr.truthy s = false <-> s = EmptyString.
Proof. destruct s; simpl; split; congruence. Qed.

Lemma strip_nonempty_text (s : string) :
  PyStr.strip s <> EmptyString -> s <> EmptyString.
Proof. intros H ->. by apply H. Qed.


Lemma append_nonempty_r (a b : string) : b <> EmptyString -> a +:+ b <> EmptyString.
Proof. destruct a; simpl; [done|discriminate]. Qed.


(** ** The Summarizer *)

(** The guard that opens [_summarize_text]. *)
Lemma summarize_guard (text : string) :
  PyStr.strip text <> EmptyString ->
  negb (PyStr.truthy text) || negb (PyStr.truthy (PyStr.strip text)) = false.
Proof.
  intros H.
  rewrite (proj2 (truthy_true text) (strip_nonempty_text _ H)).
  by rewrite (proj2 (truthy_true _) H).
Qed.







(** ** The Content Extractor *)

Lemma first_match_truthy (ps : list Regex.pattern) (url v : string) :
  VideoId.first_match ps url = Some v -> PyStr.truthy v = true.
Proof.
  induction ps as [|p ps IH]; simpl; [done|].
  destruct (Regex.search p url) as [g|]; [|exact IH].
  destruct (PyStr.truthy g) eqn:E; [|exact IH].
  by intros [= <-].
Qed.

Lemma extract_truthy (url v : string) :
  VideoId._extract_youtube_video_id url = Some v -> PyStr.truthy v = true.
Proof.
  unfold VideoId._extract_youtube_video_id.
  repeat (match goal with |- context [if ?b then _ else _] => destruct b end; [done|]).
  apply first_match_truthy.
Qed.

Section ExtractorFacts.
Variable soup : Type.
Variable BeautifulSoup : string -> result soup.
Variable main_text : soup -> string.
Variable a_hrefs : soup -> list string.
Variable iframe_srcs : soup -> list string.
Variable urljoin : string -> string -> result string.

Lemma anchor_step_ids (base : string) (st : Extractor.acc) (href v : string) :
  v ∈ Extractor.youtube_video_ids (Extractor.anchor_step urljoin base st href) <->
  v ∈ Extractor.youtube_video_ids st \/
  (Extractor.skipped_href href = false /\ VideoId._extract_youtube_video_id href = Some v).
Proof.
  unfold Extractor.anchor_step.
  destruct (Extractor.skipped_href href) eqn:Hs; [naive_solver|].
  destruct (VideoId._extract_youtube_video_id href) as [g|] eqn:Hx.
  - rewrite (extract_truthy _ _ Hx). simpl. set_solver.
  - destruct (urljoin base href); simpl; naive_solver.
Qed.

Lemma iframe_step_ids (st : Extractor.acc) (src v : string) :
  v ∈ Extractor.youtube_video_ids (Extractor.iframe_step st src) <->
  v ∈ Extractor.youtube_video_ids st \/ VideoId._extract_youtube_video_id src = Some v.
Proof.
  unfold Extractor.iframe_step.
  destruct (PyStr.truthy src) eqn:Ht.
  - destruct (VideoId._extract_youtube_video_id src) as [g|] eqn:Hx.
    + rewrite (extract_truthy _ _ Hx). simpl. set_solver.
    + naive_solver.
  - apply truthy_false in Ht. subst src. naive_solver.
Qed.

Lemma anchor_loop_ids (base : string) (hrefs : list string) (st : Extractor.acc) (v : string) :
  v ∈ Extractor.youtube_video_ids (fold_left (Extractor.anchor_step urljoin base) hrefs st) <->
  v ∈ Extractor.youtube_video_ids st \/
  (exists href, href ∈ hrefs /\ Extractor.skipped_href href = false /\
                VideoId._extract_youtube_video_id href = Some v).
Proof.
  revert st. induction hrefs as [|h hrefs IH]; intros st; simpl.
  - set_solver.
  - rewrite IH, anchor_step_ids. set_solver.
Qed.

Lemma iframe_loop_ids (srcs : list string) (st : Extractor.acc) (v : string) :
  v ∈ Extractor.youtube_video_ids (fold_left Extractor.iframe_step srcs st) <->
  v ∈ Extractor.youtube_video_ids st \/
  (exists src, src ∈ srcs /\ VideoId._extract_youtube_video_id src = Some v).
Proof.
  revert st. induction srcs as [|h srcs IH]; intros st; simpl.
  - set_solver.
  - rewrite IH, iframe_step_ids. set_solver.
Qed.

(** C10: the video-identifier list returned by the extraction has no
    duplicate; on a page that parses, it holds exactly the identifiers that
    some anchor or embedded frame resolves to, each of them once. *)
Theorem extracted_video_ids_no_duplicates (html_content base_url_for_links : string) :
  let ids :=
    (Extractor._extract_links_yt_from_html soup BeautifulSoup main_text a_hrefs
       iframe_srcs urljoin html_content base_url_for_links).2 in
  NoDup ids /\
  (forall sp, PyStr.strip html_content <> EmptyString ->
              BeautifulSoup html_content = Returns sp ->
              forall v, v ∈ ids <-> resolved_in a_hrefs iframe_srcs sp v).
Proof.
  unfold Extractor._extract_links_yt_from_html. split.
  - destruct (_ || _); [apply NoDup_nil_2|].
    destruct (BeautifulSoup html_content); simpl; [apply NoDup_elements|apply NoDup_nil_2].
  - intros sp Hne Hsp v. rewrite (summarize_guard _ Hne), Hsp. simpl.
    rewrite elem_of_elements, iframe_loop_ids, anchor_loop_ids. simpl.
    unfold resolved_in. set_solver.
Qed.

End ExtractorFacts.

Lemma extracted_video_ids_no_duplicates_witness :
  NoDup (Extractor._extract_links_yt_from_html demo_soup demo_parse demo_text demo_hrefs
           demo_srcs demo_urljoin "<a href=...>" "https://canvas.example").2.
Proof.
  exact (proj1 (extracted_video_ids_no_duplicates demo_soup demo_parse demo_text
                  demo_hrefs demo_srcs demo_urljoin "<a href=...>" "https://canvas.example")).
Defined.

Example demo_page_video_ids :
  Extractor._extract_links_yt_from_html demo_soup demo_parse demo_text demo_hrefs
    demo_srcs demo_urljoin "<a href=...>" "https://canvas.example"
  = ("Watch the lecture", ["https://example.com/notes.html"], ["dQw4w9WgXcQ"]).
Proof. vm_compute. reflexivity. Qed.

(** ** The Bounded Fetcher *)

Section FetcherFacts.
Import Fetcher.
Variable settings : Settings.
Variable session_get : string -> result response.
Variable now : Z.
Variable py_int : string -> option Z.
Variable url_path_name : string -> string.
Variable path_suffix : string -> string.

Let max_size := max_file_size settings.
Let download := _download_file settings session_get now py_int url_path_name path_suffix.
Let path_of := download_path now url_path_name path_suffix.

Lemma file_size_write (path : string) (c : chunk) (fs : file_system) :
  file_size (f_write path c fs) path = file_size fs path + Z.of_nat (length c).
Proof.
  unfold file_size, f_write. rewrite lookup_insert_eq.
  destruct (fs !! path); simpl; rewrite ?length_app; lia.
Qed.

Lemma file_size_remove (path : string) (fs : file_system) :
  file_size (try_remove path fs) path = 0 \/ try_remove path fs = fs.
Proof.
  unfold try_remove, os_remove, file_size.
  destruct (fs !! path) eqn:E; [left; by rewrite lookup_delete_eq|by right].
Qed.

Lemma remove_existing (path : string) (fs : file_system) :
  is_Some (fs !! path) -> try_remove path fs !! path = None.
Proof.
  intros [b E]. unfold try_remove, os_remove. rewrite E. apply lookup_delete_eq.
Qed.

(** The loop invariant: the file holds [downloaded_size] bytes, and that is
    within the ceiling. *)
Lemma stream_loop_bounded (path : string) (s : stream) :
  0 <= max_size ->
  forall (downloaded_size : Z) (fs : file_system),
    file_size fs path = downloaded_size -> downloaded_size <= max_size ->
    Forall (fun st => file_size st path <= max_size)
      (stream_loop max_size path s downloaded_size fs).2 /\
    file_size (stream_loop max_size path s downloaded_size fs).1.2 path <= max_size.
Proof.
  intros Hmax. induction s as [|c rest IH|e]; intros size fs Hsize Hle; simpl.
  - split; [constructor|lia].
  - destruct (max_size <? size + Z.of_nat (length c)) eqn:Hcmp; simpl.
    + destruct (file_size_remove path fs) as [E|E]; rewrite E;
        (split; [repeat constructor|]); lia.
    + apply Z.ltb_ge in Hcmp.
      specialize (IH (size + Z.of_nat (length c)) (f_write path c fs)).
      destruct (stream_loop _ _ rest _ _) as [[e fs'] seen]. simpl in *.
      destruct IH as [IH1 IH2]; [rewrite file_size_write; lia|lia|].
      split; [|exact IH2]. constructor; [|exact IH1].
      rewrite file_size_write. lia.
  - split; [constructor|lia].
Qed.

(** Once the cumulative size passes the ceiling the loop stops, and the
    file it was writing is gone. *)
Lemma stream_loop_overflow (path : string) (s : stream) :
  forall (downloaded_size : Z) (fs : file_system),
    (exists k, (0 < k <= length (stream_chunks s))%nat /\
               max_size < downloaded_size + total_size (take k (stream_chunks s))) ->
    is_Some (fs !! path) ->
    (stream_loop max_size path s downloaded_size fs).1.1 = ExceededSize /\
    (stream_loop max_size path s downloaded_size fs).1.2 !! path = None.
Proof.
  induction s as [|c rest IH|e]; intros size fs (k & Hk & Hover) Hfile; simpl in *;
    try lia.
  destruct (max_size <? size + Z.of_nat (length c)) eqn:Hcmp; simpl.
  - split; [done|]. by apply remove_existing.
  - apply Z.ltb_ge in Hcmp.
    specialize (IH (size + Z.of_nat (length c)) (f_write path c fs)).
    destruct (stream_loop _ _ rest _ _) as [[e fs'] seen]. simpl in *.
    apply IH.
    + destruct k as [|[|k']]; simpl in Hover; [lia| |].
      * rewrite ?take_0 in Hover. simpl in Hover. lia.
      * exists (S k'). split; [lia|]. simpl. lia.
    + unfold f_write. rewrite lookup_insert_eq. eauto.
Qed.

Lemma stream_to_file_seen (path : string) (r : response) (fs : file_system) :
  0 <= max_size ->
  Forall (fun st => file_size st path <= max_size)
    (fs_seen (stream_to_file settings path r fs)) /\
  file_size (fs_after (stream_to_file settings path r fs)) path <= max_size.
Proof.
  intros Hmax. unfold stream_to_file.
  assert (H0 : file_size (open_wb path fs) path = 0).
  { unfold file_size, open_wb. by rewrite lookup_insert_eq. }
  pose proof (stream_loop_bounded path (body r) Hmax 0 (open_wb path fs) H0 Hmax) as H.
  unfold max_size in *.
  destruct (stream_loop (max_file_size settings) path (body r) 0 (open_wb path fs))
    as [[e fs'] seen].
  simpl in H. destruct H as [H1 H2].
  destruct e; simpl; (split; [constructor; [lia|done]|done]).
Qed.

(** A loop that runs to the end of the stream leaves the file in place. *)
Lemma stream_loop_completed (path : string) (s : stream) :
  forall (downloaded_size n : Z) (fs : file_system),
    is_Some (fs !! path) ->
    (stream_loop max_size path s downloaded_size fs).1.1 = Completed n ->
    is_Some ((stream_loop max_size path s downloaded_size fs).1.2 !! path).
Proof.
  induction s as [|c rest IH|e]; intros size n fs Hfile; simpl; [done| |done].
  destruct (max_size <? size + Z.of_nat (length c)); [done|].
  specialize (IH (size + Z.of_nat (length c)) n (f_write path c fs)).
  destruct (stream_loop _ _ rest _ _) as [[e fs'] seen]. simpl in *.
  apply IH. unfold f_write. rewrite lookup_insert_eq. eauto.
Qed.

Lemma stream_to_file_returned (path : string) (r : response) (fs : file_system) (p : string) :
  returned (stream_to_file settings path r fs) = Some p ->
  p = path /\ is_Some (fs_after (stream_to_file settings path r fs) !! path).
Proof.
  unfold stream_to_file.
  pose proof (stream_loop_completed path (body r) 0) as H. unfold max_size in H.
  destruct (stream_loop (max_file_size settings) path (body r) 0 (open_wb path fs))
    as [[e fs'] seen] eqn:E.
  destruct e as [n| |e]; simpl; try congruence.
  intros [= <-]. split; [done|].
  specialize (H n (open_wb path fs)). rewrite E in H. apply H; [|done].
  unfold open_wb. rewrite lookup_insert_eq. eauto.
Qed.

(** C3: when the response declares a content length over the ceiling, the
    fetch returns failure and the file system is untouched, the file never
    having been opened; when the length check lets the download start and
    the cumulative size of the stream passes the ceiling at some chunk, the
    fetch returns failure and no file is left at the download path. *)
Theorem download_over_ceiling_fails (url : string) (fs : file_system) (r : response) :
  session_get url = Returns r ->
  (forall cl n, content_length r = Some cl -> cl <> EmptyString ->
                py_int cl = Some n -> max_size < n ->
                download url fs = Outcome None fs []) /\
  (not_fetchable url = false -> status r < 400 ->
   declared_within py_int max_size (content_length r) ->
   overflows max_size (body r) ->
   returned (download url fs) = None /\
   fs_after (download url fs) !! path_of url r = None).
Proof.
  intros Hget. unfold download, path_of, _download_file. rewrite Hget.
  split.
  - intros cl n Hcl Hne Hint Hover. unfold max_size in Hover.
    destruct (not_fetchable url); [done|].
    destruct (400 <=? status r); [done|].
    rewrite Hcl, (proj2 (truthy_true cl) Hne), Hint.
    by rewrite (proj2 (Z.ltb_lt _ _) Hover).
  - intros Hfetch Hstatus Hdecl Hover. rewrite Hfetch.
    rewrite (proj2 (Z.leb_gt _ _) Hstatus).
    assert (Hstream :
      returned (stream_to_file settings (download_path now url_path_name path_suffix url r) r fs)
        = None /\
      fs_after (stream_to_file settings (download_path now url_path_name path_suffix url r) r fs)
        !! download_path now url_path_name path_suffix url r = None).
    { unfold stream_to_file.
      set (path := download_path now url_path_name path_suffix url r).
      assert (Hloop :
        (stream_loop (max_file_size settings) path (body r) 0 (open_wb path fs)).1.1
          = ExceededSize /\
        (stream_loop (max_file_size settings) path (body r) 0 (open_wb path fs)).1.2
          !! path = None).
      { apply (stream_loop_overflow path (body r) 0 (open_wb path fs)).
        - destruct Hover as (k & Hk & Hlt). exists k. split; [done|].
          unfold max_size in Hlt. lia.
        - unfold open_wb. rewrite lookup_insert_eq. eauto. }
      destruct (stream_loop (max_file_size settings) path (body r) 0 (open_wb path fs))
        as [[e fs'] seen].
      simpl in Hloop. destruct Hloop as [-> Hgone]. done. }
    unfold declared_within in Hdecl.
    destruct (content_length r) as [cl|]; [|exact Hstream].
    destruct Hdecl as [->|(n & Hint & Hle)]; [exact Hstream|].
    destruct (PyStr.truthy cl); [|exact Hstream].
    unfold max_size in Hle.
    rewrite Hint. by rewrite (proj2 (Z.ltb_ge _ _) Hle).
Qed.

(** C9: with a ceiling that is not negative, at every iteration of the
    streaming loop the file being written holds at most [max_file_size]
    bytes, and the file a successful download returns is there and holds at
    most [max_file_size] bytes. *)
Theorem download_within_ceiling (url : string) (fs : file_system) :
  0 <= max_size ->
  (forall r, session_get url = Returns r ->
     Forall (fun st => file_size st (path_of url r) <= max_size)
       (fs_seen (download url fs))) /\
  (forall p, returned (download url fs) = Some p ->
     is_Some (fs_after (download url fs) !! p) /\
     file_size (fs_after (download url fs)) p <= max_size).
Proof.
  intros Hmax. unfold download, path_of, _download_file.
  destruct (not_fetchable url); [split; [constructor|discriminate]|].
  destruct (session_get url) as [r|e]; [|split; [constructor|discriminate]].
  destruct (400 <=? status r); [split; [constructor|discriminate]|].
  set (path := download_path now url_path_name path_suffix url r).
  assert (Hstream :
    (forall r0, Returns r = Returns r0 ->
       Forall (fun st => file_size st (download_path now url_path_name path_suffix url r0)
                         <= max_size)
         (fs_seen (stream_to_file settings path r fs))) /\
    (forall p, returned (stream_to_file settings path r fs) = Some p ->
       is_Some (fs_after (stream_to_file settings path r fs) !! p) /\
       file_size (fs_after (stream_to_file settings path r fs)) p <= max_size)).
  { destruct (stream_to_file_seen path r fs Hmax) as [H1 H2]. split.
    - intros r0 [= <-]. exact H1.
    - intros p Hp. apply stream_to_file_returned in Hp as [-> Hp]. by split. }
  destruct (content_length r) as [cl|]; [|exact Hstream].
  destruct (PyStr.truthy cl); [|exact Hstream].
  destruct (py_int cl) as [n|]; [|split; [constructor|discriminate]].
  destruct (max_file_size settings <? n); [split; [constructor|discriminate]|].
  exact Hstream.
Qed.

End FetcherFacts.

Lemma download_over_ceiling_fails_witness :
  Fetcher.returned
    (Fetcher._download_file tiny_settings (demo_session silent_response) demo_now
       decimal_int demo_path_name demo_suffix "https://example.com/notes.bin" ∅) = None /\
  Fetcher.fs_after
    (Fetcher._download_file tiny_settings (demo_session silent_response) demo_now
       decimal_int demo_path_name demo_suffix "https://example.com/notes.bin" ∅)
    !! Fetcher.download_path demo_now demo_path_name demo_suffix
         "https://example.com/notes.bin" silent_response = None.
Proof.
  refine (proj2 (download_over_ceiling_fails tiny_settings (demo_session silent_response)
                   demo_now decimal_int demo_path_name demo_suffix
                   "https://example.com/notes.bin" ∅ silent_response eq_refl) _ _ _ _).
  - vm_compute. reflexivity.
  - vm_compute. reflexivity.
  - exact I.
  - exists 2%nat. split; [simpl; lia|]. vm_compute. reflexivity.
Defined.

(** The declared-length branch of C3 on a server that announces nine bytes
    against a ceiling of four. *)
Example declared_length_refused :
  Fetcher._download_file tiny_settings (demo_session honest_response) demo_now
    decimal_int demo_path_name demo_suffix "https://example.com/notes.bin" ∅
  = Fetcher.Outcome None ∅ [].
Proof. vm_compute. reflexivity. Qed.

Lemma download_within_ceiling_witness :
  Forall (fun st => Fetcher.file_size st
                      (Fetcher.download_path demo_now demo_path_name demo_suffix
                         "https://example.com/notes.bin" small_response) <= 4)
    (Fetcher.fs_seen
       (Fetcher._download_file tiny_settings (demo_session small_response) demo_now
          decimal_int demo_path_name demo_suffix "https://example.com/notes.bin" ∅)).
Proof.
  refine (proj1 (download_within_ceiling tiny_settings (demo_session small_response)
                   demo_now decimal_int demo_path_name demo_suffix
                   "https://example.com/notes.bin" ∅ _) small_response eq_refl).
  vm_compute. discriminate.
Defined.

Example small_download_succeeds :
  Fetcher.returned
    (Fetcher._download_file tiny_settings (demo_session small_response) demo_now
       decimal_int demo_path_name demo_suffix "https://example.com/notes.bin" ∅)
  = Some "downloads/1700000000_notes.bin".
Proof. vm_compute. reflexivity. Qed.

(** ** The regular-expression matcher *)

Lemma append_cons (c : ascii) (a b : string) : String c a +:+ b = String c (a +:+ b).
Proof. reflexivity. Qed.

Lemma append_nil_l (b : string) : EmptyString +:+ b = b.
Proof. reflexivity. Qed.

Lemma append_nil_r (a : string) : a +:+ EmptyString = a.
Proof. induction a as [|c a IH]; [done|]. by rewrite append_cons, IH. Qed.

Lemma append_assoc (a b c : string) : (a +:+ b) +:+ c = a +:+ (b +:+ c).
Proof. induction a as [|x a IH]; [done|]. by rewrite !append_cons, IH. Qed.

Lemma append_length (a b : string) :
  String.length (a +:+ b) = (String.length a + String.length b)%nat.
Proof. induction a as [|x a IH]; [done|]. rewrite append_cons. simpl. by rewrite IH. Qed.

Lemma str_suffix_refl (s : string) : str_suffix s s.
Proof. by exists EmptyString. Qed.

Lemma str_suffix_cons (c : ascii) (s : string) : str_suffix s (String c s).
Proof. by exists (String c EmptyString). Qed.

Lemma str_suffix_trans (a b c : string) : str_suffix a b -> str_suffix b c -> str_suffix a c.
Proof. intros [p ->] [q ->]. exists (q +:+ p). by rewrite append_assoc. Qed.

Lemma str_forallb_suffix (p : ascii -> bool) (s1 s : string) :
  str_suffix s1 s -> str_forallb p s = true -> str_forallb p s1 = true.
Proof.
  intros [q ->]. induction q as [|c q IH]; [done|].
  rewrite append_cons. simpl. intros [_ H]%andb_true_iff. by apply IH.
Qed.

Section RegexFacts.
Import Regex.
Context {R : Type}.

Lemma star_loop_inv (body : string -> (string -> option R) -> option R)
    (k : string -> option R) :
  hands_suffix body ->
  forall fuel s v, star_loop body k fuel s = Some v ->
                   exists s1, str_suffix s1 s /\ k s1 = Some v.
Proof.
  intros Hbody. induction fuel as [|fuel IH]; intros s v; simpl.
  - intros H. exists s. split; [apply str_suffix_refl|done].
  - destruct (body s _) as [x|] eqn:E; simpl.
    + intros [= ->]. apply Hbody in E as (s1 & Hs1 & E).
      destruct (String.length s1 <? String.length s)%nat; [|done].
      apply IH in E as (s2 & Hs2 & E). exists s2. split; [|done].
      by eapply str_suffix_trans.
    + intros H. exists s. split; [apply str_suffix_refl|done].
Qed.

Lemma lazy_loop_inv (body : string -> (string -> option R) -> option R)
    (k : string -> option R) :
  hands_suffix body ->
  forall fuel s v, lazy_loop body k fuel s = Some v ->
                   exists s1, str_suffix s1 s /\ k s1 = Some v.
Proof.
  intros Hbody. induction fuel as [|fuel IH]; intros s v; simpl.
  - intros H. exists s. split; [apply str_suffix_refl|done].
  - destruct (k s) as [x|] eqn:Ek; simpl.
    + intros [= ->]. exists s. split; [apply str_suffix_refl|done].
    + intros E. apply Hbody in E as (s1 & Hs1 & E).
      destruct (String.length s1 <? String.length s)%nat; [|done].
      apply IH in E as (s2 & Hs2 & E). exists s2. split; [|done].
      by eapply str_suffix_trans.
Qed.

Lemma rmatch_inv (r : re) : hands_suffix (rmatch (R:=R) r).
Proof.
  induction r as [|p|r1 IH1 r2 IH2|r1 IH1 r2 IH2|r IH|r IH]; intros s k v; simpl.
  - intros H. exists s. split; [apply str_suffix_refl|done].
  - destruct s as [|c s]; [done|]. destruct (p c); [|done].
    intros H. exists s. split; [apply str_suffix_cons|done].
  - intros (s1 & Hs1 & H)%IH1. apply IH2 in H as (s2 & Hs2 & H).
    exists s2. split; [by eapply str_suffix_trans|done].
  - destruct (rmatch r1 s k) as [x|] eqn:E; simpl.
    + intros [= ->]. by apply IH1.
    + apply IH2.
  - by apply star_loop_inv.
  - by apply lazy_loop_inv.
Qed.

(** A continuation that fails on every suffix makes the match fail. *)
Lemma rmatch_none (r : re) (s : string) (k : string -> option R) :
  (forall s1, str_suffix s1 s -> k s1 = None) -> rmatch r s k = None.
Proof.
  intros Hk. destruct (rmatch r s k) as [v|] eqn:E; [|done].
  apply rmatch_inv in E as (s1 & Hs1 & E). rewrite (Hk s1 Hs1) in E. done.
Qed.

Lemma rmatch_lit (p s : string) (k : string -> option R) :
  rmatch (lit p) (p +:+ s) k = k s.
Proof.
  induction p as [|c p IH]; [done|].
  rewrite append_cons. simpl. by rewrite Ascii.eqb_refl.
Qed.

Lemma rmatch_rep_chr (p : ascii -> bool) (s1 s2 : string) (k : string -> option R) :
  str_forallb p s1 = true ->
  rmatch (rep (String.length s1) (Chr p)) (s1 +:+ s2) k = k s2.
Proof.
  induction s1 as [|c s1 IH]; [done|].
  rewrite append_cons. simpl. intros [-> H]%andb_true_iff. by apply IH.
Qed.

(** A star whose body cannot match stops at once. *)
Lemma star_loop_body_fails (body : string -> (string -> option R) -> option R)
    (k : string -> option R) (fuel : nat) (s : string) :
  (forall k', body s k' = None) -> star_loop body k fuel s = k s.
Proof. intros H. destruct fuel; simpl; [done|]. by rewrite H. Qed.

End RegexFacts.

Lemma consumed_all (s : string) : Regex.consumed s EmptyString = s.
Proof.
  unfold Regex.consumed. simpl. rewrite Nat.sub_0_r.
  induction s as [|c s IH]; [done|]. simpl. by rewrite IH.
Qed.

Lemma consumed_length (s s2 : string) :
  str_suffix s2 s ->
  exists p, s = p +:+ s2 /\ Regex.consumed s s2 = p.
Proof.
  intros [p ->]. exists p. split; [done|]. unfold Regex.consumed.
  rewrite append_length. replace (_ + _ - _)%nat with (String.length p) by lia.
  induction p as [|c p IH]; simpl.
  - by destruct s2.
  - by rewrite IH.
Qed.

Lemma search_unfold (p : Regex.pattern) (s : string) :
  Regex.search p s =
  Regex.orelse (Regex.match_here p s)
    match s with
    | EmptyString => None
    | String _ s' => Regex.search p s'
    end.
Proof. by destruct s. Qed.

(** ** The Video-ID Resolver *)

Lemma str_forallb_cons (p : ascii -> bool) (c : ascii) (s : string) :
  str_forallb p (String c s) = p c && str_forallb p s.
Proof. reflexivity. Qed.

Lemma rmatch_lit_cons {R} (a c : ascii) (p s : string) (k : string -> option R) :
  Regex.rmatch (Regex.lit (String a p)) (String c s) k
  = if Ascii.eqb a c then Regex.rmatch (Regex.lit p) s k else None.
Proof. reflexivity. Qed.

Lemma id_char_not_amp (c : ascii) :
  VideoId.id_char c = true -> Ascii.eqb "&" c = false /\ VideoId.not_amp c = true.
Proof. destruct c as [[] [] [] [] [] [] [] []]; vm_compute; intros; split; congruence. Qed.

Lemma id_chars_no_amp (s : string) :
  str_forallb VideoId.id_char s = true ->
  str_forallb (fun c => negb (Ascii.eqb "&" c)) s = true.
Proof.
  induction s as [|c s IH]; [done|]. rewrite !str_forallb_cons.
  intros [Hc Hs]%andb_true_iff.
  apply id_char_not_amp in Hc as [-> _]. by apply IH.
Qed.

(** [[^&]*&] cannot match in a text with no [&]. *)
Lemma amp_segment_fails {R} (s : string) (k : string -> option R) :
  str_forallb (fun c => negb (Ascii.eqb "&" c)) s = true ->
  Regex.rmatch (Regex.Seq (Regex.Star (Regex.Chr VideoId.not_amp)) (Regex.lit "&")) s k = None.
Proof.
  intros Hs. simpl. change (Regex.star_loop _ _ _ _) with
    (Regex.rmatch (Regex.Star (Regex.Chr VideoId.not_amp)) s
       (fun s1 => Regex.rmatch (Regex.lit "&") s1 k)).
  apply rmatch_none. intros s1 Hs1.
  pose proof (str_forallb_suffix _ _ _ Hs1 Hs) as H1.
  destruct s1 as [|c s1]; [done|].
  rewrite str_forallb_cons in H1. apply andb_true_iff in H1 as [Hc _].
  rewrite rmatch_lit_cons. by destruct (Ascii.eqb "&" c).
Qed.

(** [watch\?(?:[^&]*&)*v=] followed by the group, on [watch?v=ID]. *)
Lemma watch_v_matches (ident : string) (k : string -> option string) :
  str_forallb VideoId.id_char ident = true ->
  Regex.rmatch VideoId.watch_v ("watch?v=" +:+ ident) k = k ident.
Proof.
  intros Hid. unfold VideoId.watch_v.
  change ("watch?v=" +:+ ident) with ("watch?" +:+ ("v=" +:+ ident)).
  change (Regex.rmatch (Regex.Seq ?a ?b) ?s ?k0)
    with (Regex.rmatch a s (fun s1 => Regex.rmatch b s1 k0)).
  rewrite rmatch_lit.
  change (Regex.rmatch (Regex.Seq (Regex.Star ?a) ?b) ?s ?k0)
    with (Regex.star_loop (Regex.rmatch a) (fun s1 => Regex.rmatch b s1 k0)
            (String.length s) s).
  rewrite star_loop_body_fails.
  - apply rmatch_lit.
  - intros k'. apply amp_segment_fails.
    simpl. by apply id_chars_no_amp.
Qed.

Lemma id11_matches (ident : string) (k : string -> option string) :
  String.length ident = 11%nat ->
  str_forallb VideoId.id_char ident = true ->
  Regex.rmatch VideoId.id11 ident k = k EmptyString.
Proof.
  intros Hlen Hid. unfold VideoId.id11. rewrite <- Hlen.
  rewrite <- (append_nil_r ident) at 2. by apply rmatch_rep_chr.
Qed.

Lemma match_here_watch (ident : string) :
  String.length ident = 11%nat ->
  str_forallb VideoId.id_char ident = true ->
  Regex.match_here
    (Regex.Pattern
       (Regex.Seq (Regex.lit "youtube.com/")
          (Regex.alts [VideoId.watch_v; Regex.lit "embed/"; Regex.lit "v/";
                       Regex.lit "shorts/"; Regex.lit "live/"]))
       VideoId.id11)
    ("youtube.com/watch?v=" +:+ ident) = Some ident.
Proof.
  intros Hlen Hid. unfold Regex.match_here. cbn [Regex.lead Regex.group1].
  change ("youtube.com/watch?v=" +:+ ident) with ("youtube.com/" +:+ ("watch?v=" +:+ ident)).
  change (Regex.rmatch (Regex.Seq ?a ?b) ?s ?k0)
    with (Regex.rmatch a s (fun s1 => Regex.rmatch b s1 k0)).
  rewrite rmatch_lit.
  change (Regex.alts (?a :: ?b)) with (Regex.Alt a (Regex.alts b)).
  change (Regex.rmatch (Regex.Alt ?a ?b) ?s ?k0)
    with (Regex.orelse (Regex.rmatch a s k0) (Regex.rmatch b s k0)).
  rewrite (watch_v_matches ident _ Hid).
  rewrite (id11_matches ident _ Hlen Hid).
  by rewrite consumed_all.
Qed.

Lemma match_here_first_char (a c : ascii) (l s : string) (r g : Regex.re) :
  Ascii.eqb a c = false ->
  Regex.match_here (Regex.Pattern (Regex.Seq (Regex.lit (String a l)) r) g) (String c s) = None.
Proof.
  intros H. unfold Regex.match_here. cbn [Regex.lead Regex.group1].
  change (Regex.rmatch (Regex.Seq ?x ?y) ?t ?k0)
    with (Regex.rmatch x t (fun s1 => Regex.rmatch y s1 k0)).
  by rewrite rmatch_lit_cons, H.
Qed.

(** The search walks over a prefix in which the first character of the
    pattern does not occur. *)
Lemma search_skip_prefix (a : ascii) (l : string) (r g : Regex.re) (pre s : string) :
  str_forallb (fun c => negb (Ascii.eqb a c)) pre = true ->
  Regex.search (Regex.Pattern (Regex.Seq (Regex.lit (String a l)) r) g) (pre +:+ s)
  = Regex.search (Regex.Pattern (Regex.Seq (Regex.lit (String a l)) r) g) s.
Proof.
  induction pre as [|c pre IH]; [done|].
  rewrite str_forallb_cons, append_cons. intros [Hc Hpre]%andb_true_iff.
  rewrite search_unfold, match_here_first_char by by destruct (Ascii.eqb a c).
  by apply IH.
Qed.

Lemma prefix_cons (a c : ascii) (p r : string) :
  String.prefix (String a p) (String c r)
  = if ascii_dec a c then String.prefix p r else false.
Proof. reflexivity. Qed.

Lemma prefix_app (p pre s : string) :
  String.prefix p pre = true -> String.prefix p (pre +:+ s) = true.
Proof.
  revert pre. induction p as [|a p IH]; intros pre.
  { intros _. destruct pre; [by destruct s|by rewrite append_cons]. }
  destruct pre as [|b pre]; [done|]. rewrite append_cons, !prefix_cons.
  destruct (ascii_dec a b); [apply IH|done].
Qed.

Lemma prefix_self_app (p s : string) : String.prefix p (p +:+ s) = true.
Proof.
  induction p as [|a p IH]; [by destruct s|]. rewrite append_cons, prefix_cons.
  by destruct (ascii_dec a a).
Qed.

Lemma contains_prefix (p s : string) : String.prefix p s = true -> PyStr.contains p s = true.
Proof. intros H. destruct s; simpl in *; by rewrite H. Qed.

Lemma contains_app_r (p a s : string) :
  PyStr.contains p s = true -> PyStr.contains p (a +:+ s) = true.
Proof.
  intros H. induction a as [|c a IH]; [done|].
  rewrite append_cons. simpl. rewrite IH. apply orb_true_r.
Qed.

Lemma lower_app (a b : string) : PyStr.lower (a +:+ b) = PyStr.lower a +:+ PyStr.lower b.
Proof. induction a as [|c a IH]; [done|]. rewrite append_cons. simpl. by rewrite IH. Qed.

Lemma strip_head_nonspace (c : ascii) (r : string) :
  PyStr.is_space c = false -> PyStr.truthy (PyStr.strip (String c r)) = true.
Proof.
  intros H. apply truthy_true. unfold PyStr.strip. simpl PyStr.lstrip. rewrite H.
  by apply rstrip_nonspace.
Qed.

Lemma http_head (url : string) :
  PyStr.startswith "http://" url || PyStr.startswith "https://" url = true ->
  exists r, url = String "h" r.
Proof.
  unfold PyStr.startswith. destruct url as [|c r]; [done|].
  rewrite !prefix_cons.
  destruct (ascii_dec "h" c) as [<-|]; [by exists r|done].
Qed.

Lemma first_match_cons (p : Regex.pattern) (ps : list Regex.pattern) (url : string) :
  VideoId.first_match (p :: ps) url =
  match Regex.search p url with
  | Some g => if PyStr.truthy g then Some g else VideoId.first_match ps url
  | None => VideoId.first_match ps url
  end.
Proof. reflexivity. Qed.

(** A watch-page URL: any [http] or [https] prefix in which no [y] occurs,
    then [youtube.com/watch?v=] and the identifier. *)
Lemma extract_watch_url (pre ident : string) :
  PyStr.startswith "http://" pre || PyStr.startswith "https://" pre = true ->
  str_forallb (fun c => negb (Ascii.eqb "y" c)) pre = true ->
  String.length ident = 11%nat ->
  str_forallb VideoId.id_char ident = true ->
  VideoId._extract_youtube_video_id (pre +:+ "youtube.com/watch?v=" +:+ ident) = Some ident.
Proof.
  intros Hscheme Hpre Hlen Hid. unfold VideoId._extract_youtube_video_id.
  destruct (http_head _ Hscheme) as [r Hr].
  assert (H1 : PyStr.truthy (PyStr.strip (pre +:+ "youtube.com/watch?v=" +:+ ident)) = true).
  { rewrite Hr, append_cons. by apply strip_head_nonspace. }
  assert (H2 : PyStr.startswith "http://" (pre +:+ "youtube.com/watch?v=" +:+ ident)
               || PyStr.startswith "https://" (pre +:+ "youtube.com/watch?v=" +:+ ident)
               = true).
  { unfold PyStr.startswith in *. apply orb_true_iff in Hscheme as [H|H].
    - by rewrite (prefix_app _ _ _ H).
    - rewrite (prefix_app _ _ _ H). apply orb_true_r. }
  assert (H3 : existsb
                 (fun domain => PyStr.contains domain
                    (PyStr.lower (pre +:+ "youtube.com/watch?v=" +:+ ident)))
                 VideoId.domains = true).
  { unfold VideoId.domains. cbn [existsb]. rewrite !lower_app.
    change (PyStr.lower "youtube.com/watch?v=")
      with ("youtube.com" +:+ "/watch?v=").
    rewrite append_assoc, contains_app_r; [done|].
    apply contains_prefix, prefix_self_app. }
  rewrite H1, H2, H3. cbn [negb].
  unfold VideoId.patterns. rewrite first_match_cons.
  change (Regex.lit "youtube.com/") with (Regex.lit (String "y" "outube.com/")).
  rewrite search_skip_prefix by done.
  change (Regex.lit (String "y" "outube.com/")) with (Regex.lit "youtube.com/").
  rewrite search_unfold, (match_here_watch ident Hlen Hid). cbn [Regex.orelse].
  destruct ident; [done|reflexivity].
Qed.

Lemma rmatch_rep_chr_inv {R} (p : ascii -> bool) (n : nat) :
  forall (s : string) (k : string -> option R) (v : R),
    Regex.rmatch (Regex.rep n (Regex.Chr p)) s k = Some v ->
    exists a s2, s = a +:+ s2 /\ String.length a = n /\
                 str_forallb p a = true /\ k s2 = Some v.
Proof.
  induction n as [|n IH]; intros s k v; simpl.
  - intros H. by exists EmptyString, s.
  - destruct s as [|c s]; [done|]. destruct (p c) eqn:Hc; [|done].
    intros (a & s2 & -> & Hlen & Ha & Hk)%IH.
    exists (String c a), s2. rewrite str_forallb_cons, Hc, Ha. simpl. by rewrite Hlen.
Qed.

Lemma append_inv_head (a b s2 : string) : a +:+ s2 = b +:+ s2 -> a = b.
Proof.
  revert b. induction a as [|c a IH]; intros b H.
  - destruct b as [|d b]; [done|]. exfalso.
    apply (f_equal String.length) in H.
    rewrite append_nil_l, append_cons in H. simpl in H.
    rewrite append_length in H. lia.
  - destruct b as [|d b].
    + exfalso. apply (f_equal String.length) in H.
      rewrite append_nil_l, append_cons in H. simpl in H.
      rewrite append_length in H. lia.
    + rewrite !append_cons in H. injection H as -> H. f_equal. by apply IH.
Qed.

(** Whatever a pattern of the resolver captures is eleven identifier
    characters. *)
Lemma match_here_id11 (l : Regex.re) (s v : string) :
  Regex.match_here (Regex.Pattern l VideoId.id11) s = Some v ->
  String.length v = 11%nat /\ str_forallb VideoId.id_char v = true.
Proof.
  unfold Regex.match_here. cbn [Regex.lead Regex.group1].
  intros (s1 & _ & H)%rmatch_inv.
  apply rmatch_rep_chr_inv in H as (a & s2 & -> & Hlen & Ha & H).
  destruct (consumed_length (a +:+ s2) s2) as (q & Hq & Hc); [by exists a|].
  rewrite Hc in H. injection H as <-. apply append_inv_head in Hq. by subst q.
Qed.

Lemma search_id11 (l : Regex.re) (s v : string) :
  Regex.search (Regex.Pattern l VideoId.id11) s = Some v ->
  String.length v = 11%nat /\ str_forallb VideoId.id_char v = true.
Proof.
  induction s as [|c s IH]; rewrite search_unfold;
    destruct (Regex.match_here _ _) as [g|] eqn:E; simpl; try done.
  - intros [= <-]. by eapply match_here_id11.
  - intros [= <-]. by eapply match_here_id11.
Qed.

Lemma first_match_id11 (ps : list Regex.pattern) (url v : string) :
  Forall (fun p => Regex.group1 p = VideoId.id11) ps ->
  VideoId.first_match ps url = Some v ->
  String.length v = 11%nat /\ str_forallb VideoId.id_char v = true.
Proof.
  induction 1 as [|[l g] ps Hg Hps IH]; [done|].
  rewrite first_match_cons. simpl in Hg. subst g.
  destruct (Regex.search _ url) as [g|] eqn:E; [|exact IH].
  destruct (PyStr.truthy g); [|exact IH].
  intros [= <-]. by eapply search_id11.
Qed.

Lemma extract_id_shape (url v : string) :
  VideoId._extract_youtube_video_id url = Some v ->
  String.length v = 11%nat /\ str_forallb VideoId.id_char v = true.
Proof.
  unfold VideoId._extract_youtube_video_id.
  repeat (match goal with |- context [if ?b then _ else _] => destruct b end; [done|]).
  apply first_match_id11. unfold VideoId.patterns. by repeat constructor.
Qed.

(** C6, as stated, fails on the host test: the host of this URL is
    [example.com], outside the recognized domains, and an identifier is
    returned all the same. *)
Lemma video_id_from_unrecognized_host :
  let url := "https://example.com/youtube.com/embed/abcdefghijk" in
  url_host url = "example.com" /\
  recognized_host (url_host url) = false /\
  VideoId._extract_youtube_video_id url = Some "abcdefghijk".
Proof. vm_compute. repeat split. Qed.

(** C6 (amended): the resolver is a function of the URL alone; it returns an
    identifier only when the URL starts with [http://] or [https://] and
    one of [youtube.com], [youtu.be], [googleusercontent.com] occurs
    somewhere in the lower-cased URL, and the identifier is then eleven
    characters of [[a-zA-Z0-9_-]]; for a watch-page URL
    [http(s)://[www.|m.]youtube.com/watch?v=ID] with an eleven-character
    identifier it returns exactly [ID]. *)
Theorem video_id_resolver_behaviour :
  (forall url1 url2, url1 = url2 ->
     VideoId._extract_youtube_video_id url1 = VideoId._extract_youtube_video_id url2) /\
  (forall url v, VideoId._extract_youtube_video_id url = Some v ->
     PyStr.startswith "http://" url || PyStr.startswith "https://" url = true /\
     (exists d, d ∈ VideoId.domains /\ PyStr.contains d (PyStr.lower url) = true) /\
     String.length v = 11%nat /\ str_forallb VideoId.id_char v = true) /\
  (forall scheme sub ident,
     scheme ∈ ["http://"; "https://"] -> sub ∈ [""; "www."; "m."] ->
     String.length ident = 11%nat -> str_forallb VideoId.id_char ident = true ->
     VideoId._extract_youtube_video_id (scheme +:+ sub +:+ "youtube.com/watch?v=" +:+ ident)
     = Some ident).
Proof.
  split; [by intros url1 url2 ->|]. split.
  - intros url v H. pose proof (extract_id_shape url v H) as Hshape.
    unfold VideoId._extract_youtube_video_id in H.
    destruct (negb (PyStr.truthy _)); [done|].
    destruct (PyStr.startswith "http://" url || PyStr.startswith "https://" url);
      [|done].
    destruct (existsb _ _) eqn:Hd; [|done].
    split; [done|]. split; [|done].
    apply existsb_exists in Hd as (d & Hin & Hd). exists d.
    split; [by apply list_elem_of_In|done].
  - intros scheme sub ident Hscheme Hsub Hlen Hid.
    assert (Hs : scheme = "http://" \/ scheme = "https://") by set_solver.
    assert (Hh : sub = EmptyString \/ sub = "www." \/ sub = "m.") by set_solver.
    rewrite <- append_assoc.
    apply extract_watch_url; [| |done|done];
      destruct Hs as [->| ->]; destruct Hh as [->|[->| ->]];
      vm_compute; reflexivity.
Qed.

Lemma video_id_resolver_behaviour_witness :
  VideoId._extract_youtube_video_id
    ("https://" +:+ "www." +:+ "youtube.com/watch?v=" +:+ "dQw4w9WgXcQ")
  = Some "dQw4w9WgXcQ".
Proof.
  apply (proj2 (proj2 video_id_resolver_behaviour) "https://" "www." "dQw4w9WgXcQ").
  - set_solver.
  - set_solver.
  - reflexivity.
  - vm_compute. reflexivity.
Defined.

(** ** The Aggregator *)

Section AggregatorFacts.
Import Aggregator.
Variable World : Type.

Lemma complete_inv {A} (tasks : list (coroutine World A)) (finished : list nat)
    (st : list (option (result A)) * World) (i : nat) :
  slots_inv tasks finished st.1 ->
  slots_inv tasks (finished ++ [i]) (complete World tasks st i).1.
Proof.
  intros (Hlen & Hval & Hdone). unfold complete.
  destruct (tasks !! i) as [t|] eqn:Ht.
  - destruct (t st.2) as [r w'] eqn:Hrun. simpl.
    assert (Hi : (i < length st.1)%nat).
    { rewrite Hlen. by eapply lookup_lt_Some. }
    split; [by rewrite length_insert|]. split.
    + intros j r' Hj. destruct (decide (i = j)) as [<-|Hne].
      * rewrite list_lookup_insert_eq in Hj by done. injection Hj as <-.
        exists t, st.2. by rewrite Hrun.
      * rewrite list_lookup_insert_ne in Hj by done. by apply Hval.
    + intros j [Hj|Hj]%elem_of_app Hlt.
      * destruct (decide (i = j)) as [<-|Hne].
        -- exists r. by rewrite list_lookup_insert_eq.
        -- rewrite list_lookup_insert_ne by done. by apply Hdone.
      * apply list_elem_of_singleton in Hj as ->.
        exists r. by rewrite list_lookup_insert_eq.
  - split; [done|]. split; [done|].
    intros j [Hj|Hj]%elem_of_app Hlt; [by apply Hdone|].
    apply list_elem_of_singleton in Hj as ->.
    apply lookup_ge_None in Ht. unfold coroutine in *. lia.
Qed.

Lemma complete_all_inv {A} (tasks : list (coroutine World A)) (schedule : list nat) :
  forall (finished : list nat) (st : list (option (result A)) * World),
    slots_inv tasks finished st.1 ->
    slots_inv tasks (finished ++ schedule) (fold_left (complete World tasks) schedule st).1.
Proof.
  induction schedule as [|i schedule IH]; intros finished st Hinv; simpl.
  - by rewrite app_nil_r.
  - rewrite (assoc_L (++) finished [i] schedule : finished ++ i :: schedule = _).
    apply IH. by apply complete_inv.
Qed.

(** Whatever the completion order, [gather] returns one outcome per task,
    at the task's own position. *)
Lemma gather_in_task_order {A} (tasks : list (coroutine World A))
    (schedule : list nat) (w : World) :
  schedule ≡ₚ seq 0 (length tasks) ->
  exists results w',
    gather World tasks schedule w = (Some results, w') /\
    length results = length tasks /\
    (forall i t, tasks !! i = Some t -> exists wi, results !! i = Some (t wi).1).
Proof.
  intros Hperm. unfold gather.
  pose proof (complete_all_inv tasks schedule []
                (replicate (length tasks) None, w)) as Hinv.
  destruct (fold_left _ schedule _) as [slots w'] eqn:Hfold. simpl in Hinv.
  destruct Hinv as (Hlen & Hval & Hdone).
  { split; [by rewrite length_replicate|]. split.
    - intros i r Hi. apply lookup_replicate in Hi as [? _]. done.
    - intros i Hi. by apply elem_of_nil in Hi. }
  assert (Hfull : forall i, (i < length tasks)%nat -> exists r, slots !! i = Some (Some r)).
  { intros i Hi. apply Hdone; [|done]. rewrite Hperm. apply elem_of_seq. lia. }
  destruct (mapM_is_Some_2 (fun slot : option (result A) => slot) slots) as [results Hres].
  { apply Forall_lookup. intros i x Hx.
    destruct (Hfull i) as [r Hr]; [rewrite <- Hlen; by eapply lookup_lt_Some|].
    rewrite Hr in Hx. injection Hx as <-. by eexists. }
  exists results, w'. rewrite Hres. split; [done|].
  pose proof (mapM_Some_1 _ _ _ Hres) as Hall.
  split; [by rewrite <- (Forall2_length _ _ _ Hall)|].
  intros i t Ht.
  destruct (Hfull i) as [r Hr]; [by eapply lookup_lt_Some|].
  destruct (Forall2_lookup_l _ _ _ _ _ Hall Hr) as (y & Hy & Heq).
  injection Heq as <-.
  destruct (Hval i r Hr) as (t' & wi & Ht' & Hrun).
  rewrite Ht in Ht'. injection Ht' as <-.
  exists wi. by rewrite Hrun.
Qed.

Variable _download_file : string -> coroutine World (option string).
Variable _read_file_content : string -> string -> coroutine World string.
Variable _get_youtube_transcript : string -> coroutine World (option string).
Variable path_name : string -> string.
Variable unlink : string -> World -> World.

Let single_link := process_single_link World _download_file _read_file_content path_name unlink.
Let parts_of :=
  supplementary_content_parts World _download_file _read_file_content
    _get_youtube_transcript path_name unlink.

(** The tuple an item operation returns carries the URL it was given. *)
Lemma process_single_link_url (url : string) (index : nat) (w : World)
    (filename : option string) (content original_url : string) :
  (single_link url index w).1 = Returns (filename, content, original_url) ->
  original_url = url.
Proof.
  unfold single_link, process_single_link.
  destruct (_download_file url w) as [[[filepath|]|e] w1]; simpl; try congruence.
  destruct (_read_file_content filepath url w1) as [[c|e] w2]; simpl; congruence.
Qed.

(** The bundle, position by position. *)
Lemma supplementary_parts_spec (assignment : AssignmentData)
    (link_schedule video_schedule : list nat) (w : World) :
  link_schedule ≡ₚ seq 0 (length (links assignment)) ->
  video_schedule ≡ₚ seq 0 (length (youtube_video_ids assignment)) ->
  exists parts w',
    parts_of assignment link_schedule video_schedule w = (Some parts, w') /\
    length parts = (length (links assignment) + length (youtube_video_ids assignment))%nat /\
    (forall i link, links assignment !! i = Some link ->
       exists wi, parts !! i = Some (link_part i link (single_link link i wi).1)) /\
    (forall j video_id, youtube_video_ids assignment !! j = Some video_id ->
       exists wj, parts !! (length (links assignment) + j)%nat
                  = Some (video_part video_id (_get_youtube_transcript video_id wj).1)).
Proof.
  intros Hl Hv. unfold parts_of, supplementary_content_parts.
  set (link_tasks := imap (fun i link => process_single_link World _download_file
                             _read_file_content path_name unlink link i)
                       (links assignment)).
  set (transcript_tasks := map _get_youtube_transcript (youtube_video_ids assignment)).
  (* the link stage *)
  assert (Hlinks : exists lparts w1,
    match links assignment with
    | [] => (Some [], w)
    | _ :: _ =>
        match gather World link_tasks link_schedule w with
        | (Some link_results, w') =>
            (Some (imap (fun i res => link_part i (links assignment !!! i) res)
                     link_results), w')
        | (None, w') => (None, w')
        end
    end = (Some lparts, w1) /\
    length lparts = length (links assignment) /\
    (forall i link, links assignment !! i = Some link ->
       exists wi, lparts !! i = Some (link_part i link (single_link link i wi).1))).
  { destruct (gather_in_task_order link_tasks link_schedule w)
      as (results & w1 & Hg & Hlen & Hres).
    { unfold link_tasks. by rewrite length_imap. }
    unfold link_tasks in Hlen. rewrite length_imap in Hlen.
    destruct (links assignment) as [|l0 ls] eqn:El.
    - exists [], w. split; [done|]. split; [done|]. intros i link Hi. done.
    - rewrite Hg. eexists _, w1. split; [done|].
      split; [by rewrite length_imap|].
      intros i link Hi.
      destruct (Hres i (single_link link i)) as [wi Hwi].
      { unfold link_tasks. rewrite list_lookup_imap, Hi. done. }
      exists wi. rewrite list_lookup_imap, Hwi. simpl.
      by rewrite (list_lookup_total_correct _ _ _ Hi). }
  destruct Hlinks as (lparts & w1 & -> & Hllen & Hlpos).
  destruct (gather_in_task_order transcript_tasks video_schedule w1)
    as (results & w2 & Hg & Hlen & Hres).
  { unfold transcript_tasks. by rewrite length_map. }
  unfold transcript_tasks in Hlen. rewrite length_map in Hlen.
  destruct (youtube_video_ids assignment) as [|v0 vs] eqn:Ev.
  - exists lparts, w1. split; [done|]. split; [simpl; lia|]. split; [done|].
    intros j video_id Hj. done.
  - rewrite Hg. eexists _, w2. split; [done|].
    split; [rewrite length_app, length_imap; lia|]. split.
    + intros i link Hi. destruct (Hlpos i link Hi) as [wi Hwi].
      exists wi. rewrite lookup_app_l; [done|]. by eapply lookup_lt_Some.
    + intros j video_id Hj.
      destruct (Hres j (_get_youtube_transcript video_id)) as [wj Hwj].
      { unfold transcript_tasks. by rewrite list_lookup_fmap, Hj. }
      exists wj. rewrite <- Hllen, lookup_app_r by lia.
      replace (length lparts + j - length lparts)%nat with j by lia.
      rewrite list_lookup_imap, Hwj. simpl.
      by rewrite (list_lookup_total_correct _ _ _ Hj).
Qed.


(** C2: for every completion order of the item operations, the fragment at
    position [i] is the one built from [links[i]] and an outcome of the item
    operation on [links[i]], which carries that URL, and the fragment at
    position [len(links) + j] is the one built from [youtube_video_ids[j]]
    and an outcome of the transcript operation on it. *)
Theorem supplementary_parts_order (assignment : AssignmentData)
    (link_schedule video_schedule : list nat) (w : World) :
  link_schedule ≡ₚ seq 0 (length (links assignment)) ->
  video_schedule ≡ₚ seq 0 (length (youtube_video_ids assignment)) ->
  exists parts w',
    parts_of assignment link_schedule video_schedule w = (Some parts, w') /\
    (forall i link, links assignment !! i = Some link ->
       exists wi,
         parts !! i = Some (link_part i link (single_link link i wi).1) /\
         (forall filename content original_url,
            (single_link link i wi).1 = Returns (filename, content, original_url) ->
            original_url = link)) /\
    (forall j video_id, youtube_video_ids assignment !! j = Some video_id ->
       exists wj, parts !! (length (links assignment) + j)%nat
                  = Some (video_part video_id (_get_youtube_transcript video_id wj).1)).
Proof.
  intros Hl Hv.
  destruct (supplementary_parts_spec assignment link_schedule video_schedule w Hl Hv)
    as (parts & w' & Hrun & _ & Hlinks & Hvideos).
  exists parts, w'. split; [done|]. split; [|done].
  intros i link Hi. destruct (Hlinks i link Hi) as [wi Hwi].
  exists wi. split; [done|]. intros f c u. apply process_single_link_url.
Qed.

End AggregatorFacts.


Lemma supplementary_parts_order_witness :
  exists parts w',
    Aggregator.supplementary_content_parts demo_world demo_download demo_read
      demo_transcript demo_name demo_unlink demo_assignment [1; 0]%nat [0]%nat []
    = (Some parts, w') /\
    (forall i link, links demo_assignment !! i = Some link ->
       exists wi,
         parts !! i
         = Some (Aggregator.link_part i link
                   (Aggregator.process_single_link demo_world demo_download demo_read
                      demo_name demo_unlink link i wi).1) /\
         (forall filename content original_url,
            (Aggregator.process_single_link demo_world demo_download demo_read
               demo_name demo_unlink link i wi).1
            = Returns (filename, content, original_url) ->
            original_url = link)) /\
    (forall j video_id, youtube_video_ids demo_assignment !! j = Some video_id ->
       exists wj, parts !! (length (links demo_assignment) + j)%nat
                  = Some (Aggregator.video_part video_id (demo_transcript video_id wj).1)).
Proof.
  apply (supplementary_parts_order demo_world demo_download demo_read demo_transcript
           demo_name demo_unlink demo_assignment [1; 0]%nat [0]%nat []).
  - apply perm_swap.
  - reflexivity.
Defined.

(** The bundle of the demo assignment when the second link completes
    first: a download-failure placeholder, the text of the second link, and
    the disabled-transcript placeholder, in input order. *)
Example demo_bundle_reversed_completion :
  (Aggregator.supplementary_content_parts demo_world demo_download demo_read
     demo_transcript demo_name demo_unlink demo_assignment [1; 0]%nat [0]%nat []).1
  = Some
      [ "--- Content from URL: https://example.com/missing ---" +:+ Aggregator.nl
        +:+ "[Download failed for: https://example.com/missing]" +:+ Aggregator.nl
        +:+ "--- End Content from URL: https://example.com/missing ---";
        "--- Content from File: 1700000000_notes.txt (from https://example.com/notes.txt) ---"
        +:+ Aggregator.nl +:+ "Chapter two: recursion." +:+ Aggregator.nl
        +:+ "--- End Content from File: 1700000000_notes.txt (from https://example.com/notes.txt) ---";
        "--- YouTube Transcript (Video ID: dQw4w9WgXcQ) ---" +:+ Aggregator.nl
        +:+ "[TranscriptsDisabled for YouTube video ID: dQw4w9WgXcQ]" +:+ Aggregator.nl
        +:+ "--- End Transcript (Video ID: dQw4w9WgXcQ) ---" ].
Proof. vm_compute. reflexivity. Qed.

(** The completion order shows in the world, not in the bundle. *)
Example demo_bundle_order_independent :
  (Aggregator.supplementary_content_parts demo_world demo_download demo_read
     demo_transcript demo_name demo_unlink demo_assignment [1; 0]%nat [0]%nat []).1
  = (Aggregator.supplementary_content_parts demo_world demo_download demo_read
       demo_transcript demo_name demo_unlink demo_assignment [0; 1]%nat [0]%nat []).1
  /\
  (Aggregator.supplementary_content_parts demo_world demo_download demo_read
     demo_transcript demo_name demo_unlink demo_assignment [1; 0]%nat [0]%nat []).2
  <> (Aggregator.supplementary_content_parts demo_world demo_download demo_read
        demo_transcript demo_name demo_unlink demo_assignment [0; 1]%nat [0]%nat []).2.
Proof. split; vm_compute; [reflexivity|discriminate]. Qed.

(** A task with no link and no video renders as the marker. *)
Example empty_bundle_marker :
  Aggregator.all_supplementary_content [] = "[No supplementary content processed.]".
Proof. reflexivity. Qed.

(** ** Reflective questions *)

Section ReflectFacts.
Import Reflect Json.
Variable settings : Settings.
Variable json_loads : string -> option json.

Lemma first_parse_none (candidates : list string) :
  Forall (fun c => json_loads c = None) candidates ->
  first_parse json_loads candidates = None.
Proof. induction 1 as [|c cs Hc _ IH]; simpl; [done|]. by rewrite Hc. Qed.

Lemma insert_by_len_elem (c x : string) (l : list string) :
  x ∈ insert_by_len c l -> x = c \/ x ∈ l.
Proof.
  induction l as [|d l IH]; simpl.
  - intros ->%list_elem_of_singleton. by left.
  - destruct (String.length d <? String.length c)%nat; set_solver.
Qed.

Lemma sorted_by_len_desc_elem (x : string) (l : list string) :
  x ∈ sorted_by_len_desc l -> x ∈ l.
Proof.
  unfold sorted_by_len_desc.
  assert (H : forall acc, x ∈ fold_left (fun acc c => insert_by_len c acc) l acc ->
                          x ∈ acc \/ x ∈ l).
  { induction l as [|c l IH]; intros acc; simpl; [by left|].
    intros [Hx|Hx]%IH; [|set_solver].
    apply insert_by_len_elem in Hx. set_solver. }
  intros [Hx|Hx]%H; [by apply elem_of_nil in Hx|done].
Qed.

Lemma remove_think_tags_unparseable (response_text : string) :
  unparseable json_loads response_text ->
  remove_think_tags json_loads response_text = parse_error.
Proof.
  intros [Hc Hall]. unfold remove_think_tags.
  rewrite first_parse_none, Hall; [done|].
  apply Forall_forall. intros c Hin%sorted_by_len_desc_elem.
  by eapply Forall_forall in Hc.
Qed.

(** Whatever the collaborator returns, the [try] block yields a list
    that is not empty or some other truthy value. *)
Lemma questions_of_choices_truthy (choices : list (option string)) :
  truthy (questions_of_choices json_loads choices) = true.
Proof.
  unfold questions_of_choices.
  destruct choices as [|[content|] rest]; try done.
  destruct (PyStr.truthy content); [|done]. simpl.
  destruct (remove_think_tags json_loads content); try done.
  destruct (truthy (default (JArr []) (dict_get "questions" members))) eqn:E; [|done].
  simpl. exact E.
Qed.

(** C4: the collaborator call stands before the [try] block, so an
    exception it raises reaches the caller of
    [generate_reflective_questions]; when the call returns, the operation
    returns too, and what it returns is not empty. *)
Theorem reflective_questions_raise_through (create : request -> completion)
    (class_name : string) (assignment_type : option string) (description : string) :
  match create (questions_request settings class_name assignment_type description) with
  | Raises e =>
      generate_reflective_questions settings create json_loads
        class_name assignment_type description = Raises e
  | Returns _ =>
      exists questions,
        generate_reflective_questions settings create json_loads
          class_name assignment_type description = Returns questions /\
        truthy questions = true
  end.
Proof.
  unfold generate_reflective_questions.
  destruct (create _) as [choices|e]; [|done].
  eexists. split; [done|]. apply questions_of_choices_truthy.
Qed.

End ReflectFacts.

(** The failing input of C4 on the reference fixtures. *)
Example reflective_questions_collaborator_down :
  Reflect.generate_reflective_questions demo_settings failing_create Json.loads
    "CS 101" None "Write about recursion."
  = Raises (APIError "connection refused").
Proof. reflexivity. Qed.

(** What is returned is whatever stands under [questions], a list or not. *)
Example reflective_questions_not_a_list :
  Reflect.generate_reflective_questions demo_settings
    (answering_create (Some text_questions_response)) Json.loads
    "CS 101" None "Write about recursion."
  = Returns (Json.JStr "soon").
Proof. vm_compute. reflexivity. Qed.

(** C7, as stated, fails on its second half: a response with no brace at
    all yields the parse-error entry of [remove_think_tags], not the default
    question, while a response that is a bare number yields the default
    question; no single fallback serves both. *)
Lemma unparseable_response_not_default :
  Reflect.json_candidates "I cannot answer that." = [] /\
  Reflect.generate_reflective_questions demo_settings
    (answering_create (Some "I cannot answer that.")) Json.loads
    "CS 101" None "Write about recursion."
  = Returns (Json.JArr [Json.JStr "Error: Could not parse AI response"]) /\
  Reflect.json_candidates "42" = [] /\
  Reflect.generate_reflective_questions demo_settings
    (answering_create (Some "42")) Json.loads
    "CS 101" None "Write about recursion."
  = Returns (Json.JArr [Json.JStr "What did you learn from this experience?"]) /\
  Json.JArr [Json.JStr "Error: Could not parse AI response"] <> Reflect.default_questions.
Proof. vm_compute. repeat split. discriminate. Qed.

(** C7 (amended): the response of scenario C yields exactly the list of
    [Q1] and [Q2]; a response that is not empty, none of whose
    brace-delimited candidates parses and whose cleaned text does not parse
    either, yields the single entry [Error: Could not parse AI response];
    an absent or empty response, and one whose parse is not an object,
    yield the single default question. *)
Theorem lenient_parse_behaviour (settings : Settings)
    (class_name : string) (assignment_type : option string) (description : string) :
  Reflect.generate_reflective_questions settings
    (answering_create (Some scenario_c_response)) Json.loads
    class_name assignment_type description
  = Returns (Json.JArr [Json.JStr "Q1"; Json.JStr "Q2"]) /\
  (forall json_loads content,
     content <> EmptyString -> unparseable json_loads content ->
     Reflect.generate_reflective_questions settings
       (answering_create (Some content)) json_loads
       class_name assignment_type description
     = Returns (Json.JArr [Json.JStr "Error: Could not parse AI response"])) /\
  (forall json_loads answer,
     answer = None \/ answer = Some EmptyString ->
     Reflect.generate_reflective_questions settings
       (answering_create answer) json_loads class_name assignment_type description
     = Returns Reflect.default_questions) /\
  (forall json_loads content,
     match Reflect.remove_think_tags json_loads content with
     | Json.JObj _ => False
     | _ => True
     end ->
     Reflect.generate_reflective_questions settings
       (answering_create (Some content)) json_loads
       class_name assignment_type description
     = Returns Reflect.default_questions).
Proof.
  split; [vm_compute; reflexivity|]. split; [|split].
  - intros json_loads content Hne Hun.
    unfold Reflect.generate_reflective_questions, answering_create,
      Reflect.questions_of_choices.
    rewrite (proj2 (truthy_true content) Hne). cbn [negb].
    by rewrite (remove_think_tags_unparseable json_loads content Hun).
  - intros json_loads answer [-> | ->]; reflexivity.
  - intros json_loads content Hparsed.
    unfold Reflect.generate_reflective_questions, answering_create,
      Reflect.questions_of_choices.
    destruct (PyStr.truthy content); [|done]. cbn [negb].
    by destruct (Reflect.remove_think_tags json_loads content).
Qed.

Lemma lenient_parse_behaviour_witness :
  Reflect.generate_reflective_questions demo_settings
    (answering_create (Some "I cannot answer that.")) Json.loads
    "CS 101" None "Write about recursion."
  = Returns (Json.JArr [Json.JStr "Error: Could not parse AI response"]).
Proof.
  apply (proj1 (proj2 (lenient_parse_behaviour demo_settings "CS 101" None
                         "Write about recursion."))).
  - discriminate.
  - split; vm_compute; [constructor|reflexivity].
Defined.

(** * Further properties *)

(** ** The Summarizer, on every input *)

Lemma append_nonempty_l (a b : string) : a <> EmptyString -> a +:+ b <> EmptyString.
Proof. destruct a; [done|]. intros _. rewrite append_cons. discriminate. Qed.


Lemma truncate_words_nonempty (text : string) (max_words : Z) :
  text <> EmptyString -> Summarizer.truncate_words text max_words <> EmptyString.
Proof.
  intros H. unfold Summarizer.truncate_words.
  destruct (max_words <? _); [|done]. by apply append_nonempty_r.
Qed.

Lemma summarize_result_nonempty (settings : Settings) (create : request -> completion)
    (text : string) (max_words : Z) :
  (Summarizer._summarize_text settings create text max_words).1 <> EmptyString.
Proof.
  unfold Summarizer._summarize_text.
  destruct (PyStr.truthy text) eqn:Ht; [|done]. apply truthy_true in Ht.
  destruct (PyStr.truthy (PyStr.strip text)) eqn:Hs; [|done]. cbn [negb orb].
  destruct (_ <=? max_words); [done|].
  destruct (create _) as [[|[summary|] rest]|e]; cbn [fst].
  - by apply truncate_words_nonempty.
  - destruct (PyStr.truthy summary); cbn [negb orb fst]; [|done].
    destruct (PyStr.truthy (PyStr.strip summary)) eqn:E; cbn [negb fst]; [|done].
    by apply truthy_true.
  - done.
  - by apply truncate_words_nonempty.
Qed.

Lemma summarize_requests_le_one (settings : Settings) (create : request -> completion)
    (text : string) (max_words : Z) :
  (length (Summarizer._summarize_text settings create text max_words).2 <= 1)%nat.
Proof.
  unfold Summarizer._summarize_text.
  destruct (_ || _); [simpl; lia|]. destruct (_ <=? _); [simpl; lia|].
  destruct (create _) as [[|[summary|] rest]|e]; simpl; try lia.
  destruct (_ || _); simpl; lia.
Qed.

(** X1: whatever the text, the word budget and the answer of the
    collaborator, the summarizer never returns the empty string. *)
Theorem summarize_never_empty (settings : Settings) (create : request -> completion)
    (text : string) (max_words : Z) :
  (Summarizer._summarize_text settings create text max_words).1 <> EmptyString.
Proof. apply summarize_result_nonempty. Qed.


Lemma substring_length_le (n : nat) (s : string) :
  (String.length (String.substring 0 n s) <= n)%nat.
Proof.
  revert s. induction n as [|n IH]; intros [|c s]; simpl; try lia.
  specialize (IH s). lia.
Qed.

Lemma substring_of_empty (n : nat) : String.substring 0 n EmptyString = EmptyString.
Proof. by destruct n. Qed.

(** X3: the request carries at most the first 10000 characters of the
    text: the prompt for a text is at most 10000 characters longer than the
    prompt for the empty text. *)
Theorem summary_prompt_bounded (text : string) (max_words : Z) :
  Z.of_nat (String.length (Summarizer.summary_prompt text max_words))
  <= Z.of_nat (String.length (Summarizer.summary_prompt EmptyString max_words)) + 10000.
Proof.
  unfold Summarizer.summary_prompt, PyStr.str_take.
  rewrite !append_length, substring_of_empty.
  change (String.length (String ?a (String ?b ?s))) with (S (S (String.length s))).
  pose proof (substring_length_le (Z.to_nat 10000) text) as H.
  change (String.length EmptyString) with 0%nat.
  lia.
Qed.

(** ** The Transcript Retriever *)

(** X4: the retriever always hands back a text that is not empty, so the
    fragment of a video always carries that text and never the
    no-transcript fallback of [generate_solution]. *)
Theorem transcript_always_text (settings : Settings) (create : request -> completion)
    (get_transcript : string -> Transcript.fetched) (video_id : string) :
  let text := (Transcript._get_youtube_transcript settings create get_transcript video_id).1 in
  text <> EmptyString /\
  Aggregator.video_part video_id (Returns (Some text)) =
    "--- YouTube Transcript (Video ID: " +:+ video_id +:+ ") ---" +:+ Aggregator.nl
    +:+ text +:+ Aggregator.nl
    +:+ "--- End Transcript (Video ID: " +:+ video_id +:+ ") ---".
Proof.
  intros text.
  assert (Hne : text <> EmptyString).
  { subst text. unfold Transcript._get_youtube_transcript.
    destruct (get_transcript video_id) as [items|u|e]; [|done|done].
    destruct (Transcript.texts items); [|done]. apply summarize_result_nonempty. }
  split; [done|]. unfold Aggregator.video_part.
  by rewrite (proj2 (truthy_true text) Hne).
Qed.

(** X5: a video without any caption item is answered with the no-content
    marker, and nothing is sent to the generation collaborator. *)
Theorem transcript_without_captions (settings : Settings) (create : request -> completion)
    (get_transcript : string -> Transcript.fetched) (video_id : string) :
  get_transcript video_id = Transcript.Captions [] ->
  Transcript._get_youtube_transcript settings create get_transcript video_id
  = ("[No content to summarize]", []).
Proof. intros H. unfold Transcript._get_youtube_transcript. by rewrite H. Qed.

Lemma transcript_without_captions_witness :
  Transcript._get_youtube_transcript demo_settings failing_create
    (fun _ => Transcript.Captions []) "dQw4w9WgXcQ"
  = ("[No content to summarize]", []).
Proof.
  by apply (transcript_without_captions demo_settings failing_create
              (fun _ => Transcript.Captions []) "dQw4w9WgXcQ").
Defined.

(** X6: the placeholder of a classified unavailability is never the
    placeholder of an unclassified failure, and the three classes give three
    different placeholders for a video. *)
Theorem transcript_placeholders_distinct (u u' : Transcript.unavailability)
    (video_id video_id' message : string) :
  Transcript.unavailable_placeholder u video_id
    <> Transcript.error_placeholder video_id' message /\
  (Transcript.unavailable_placeholder u video_id
     = Transcript.unavailable_placeholder u' video_id -> u = u').
Proof.
  split.
  - destruct u; discriminate.
  - destruct u, u'; try done; discriminate.
Qed.

(** ** The File Interpreter *)

Lemma contains_cons (p : string) (c : ascii) (s : string) :
  PyStr.contains p (String c s) = String.prefix p (String c s) || PyStr.contains p s.
Proof. reflexivity. Qed.

Lemma contains_app_l (p a b : string) :
  PyStr.contains p a = true -> PyStr.contains p (a +:+ b) = true.
Proof.
  induction a as [|c a IH].
  - destruct p; [|done]. intros _. by destruct b.
  - rewrite append_cons, !contains_cons.
    intros [H|H]%orb_true_iff.
    + change (String c (a +:+ b)) with (String c a +:+ b).
      by rewrite (prefix_app _ _ _ H).
    + rewrite (IH H). apply orb_true_r.
Qed.

Lemma contains_app_mid (p a b : string) : PyStr.contains p (a +:+ p +:+ b) = true.
Proof. apply contains_app_r, contains_prefix, prefix_self_app. Qed.

Section InterpreterFacts.
Import Interpreter.
Variable settings : Settings.
Variable create : request -> completion.
Variable soup : Type.
Variable BeautifulSoup : string -> result soup.
Variable main_text : soup -> string.
Variable a_hrefs : soup -> list string.
Variable iframe_srcs : soup -> list string.
Variable urljoin : string -> string -> result string.
Variable decode : list Byte.byte -> string.
Variable path_name : string -> string.
Variable path_suffix : string -> string.

Let read := _read_file_content settings create soup BeautifulSoup main_text a_hrefs
              iframe_srcs urljoin decode path_name path_suffix.

Lemma read_nonempty_file (filepath original_url : string) (fs : Fetcher.file_system)
    (b : list Byte.byte) :
  fs !! filepath = Some b -> b <> [] ->
  read filepath original_url fs =
  match interpret settings create soup BeautifulSoup main_text a_hrefs iframe_srcs
          urljoin decode path_name filepath original_url
          (PyStr.lower (path_suffix filepath)) fs with
  | Returns r => r
  | Raises e => (read_error (path_name filepath) (exn_str e), [])
  end.
Proof.
  intros Hb Hne. unfold read, _read_file_content, Fetcher.file_size. rewrite Hb.
  destruct b as [|x b]; [done|]. done.
Qed.

(** X7: a missing file and a file of zero bytes are answered with their
    placeholders whatever the extension, without any read and without any
    request to the generation collaborator. *)
Theorem read_missing_or_empty (filepath original_url : string) (fs : Fetcher.file_system) :
  (fs !! filepath = None ->
   read filepath original_url fs = ("[File not found: " +:+ filepath +:+ "]", [])) /\
  (fs !! filepath = Some [] ->
   read filepath original_url fs =
   ("[Empty file: " +:+ path_name filepath +:+ " from " +:+ original_url +:+ "]", [])).
Proof.
  unfold read, _read_file_content, Fetcher.file_size.
  split; intros ->; reflexivity.
Qed.

(** X8: a file with one of the plain-text extensions, in any letter case,
    is returned as it decodes, whole and unsummarized: no request is sent
    however long the text is. *)
Theorem read_plain_text_verbatim (filepath original_url : string)
    (fs : Fetcher.file_system) (b : list Byte.byte) :
  fs !! filepath = Some b -> b <> [] ->
  In (PyStr.lower (path_suffix filepath)) text_extensions ->
  read filepath original_url fs = (decode b, []).
Proof.
  intros Hb Hne Hext. rewrite (read_nonempty_file _ _ _ b Hb Hne).
  unfold interpret, read_text. rewrite Hb.
  unfold text_extensions in Hext. simpl in Hext.
  repeat (destruct Hext as [<-|Hext]; [reflexivity|]). done.
Qed.

(** X9: of a file whose extension has no branch of its own, at most the
    first 2048 characters are returned, behind the unknown-type label. *)
Theorem read_unknown_type_sample (filepath original_url : string)
    (fs : Fetcher.file_system) (b : list Byte.byte) :
  fs !! filepath = Some b -> b <> [] ->
  known_extension (PyStr.lower (path_suffix filepath)) = false ->
  exists content_sample,
    read filepath original_url fs =
      ("[Unknown file type content sample from " +:+ path_name filepath +:+ "]:"
       +:+ Aggregator.nl +:+ content_sample, []) /\
    String.prefix content_sample (decode b) = true /\
    Z.of_nat (String.length content_sample) <= 2048.
Proof.
  intros Hb Hne Hext. rewrite (read_nonempty_file _ _ _ b Hb Hne).
  unfold known_extension in Hext.
  apply orb_false_iff in Hext as [Hext Hdoc].
  apply orb_false_iff in Hext as [Hext Hpdf].
  apply orb_false_iff in Hext as [Hhtml Htext].
  unfold interpret, read_text. rewrite Hhtml, Htext, Hpdf, Hdoc, Hb.
  exists (PyStr.str_take sample_chars (decode b)). split; [done|]. split.
  - unfold PyStr.str_take. generalize sample_chars. generalize (decode b).
    intros s n. revert s. induction n as [|n IH]; intros [|c s]; simpl; try done.
    destruct (ascii_dec c c); [apply IH|done].
  - pose proof (substring_length_le sample_chars (decode b)) as H.
    unfold PyStr.str_take, sample_chars in *. lia.
Qed.

(** X10: what is neither markup nor plain text is kept on disk: for every
    other extension the text returned for a file that is not empty carries
    one of the marks that make [process_single_link] skip the deletion. *)
Theorem read_binary_kept (filepath original_url : string)
    (fs : Fetcher.file_system) (b : list Byte.byte) :
  fs !! filepath = Some b -> b <> [] ->
  String.eqb (PyStr.lower (path_suffix filepath)) ".html" = false ->
  in_list (PyStr.lower (path_suffix filepath)) text_extensions = false ->
  Aggregator.keeps_file (read filepath original_url fs).1 = true.
Proof.
  intros Hb Hne Hhtml Htext. rewrite (read_nonempty_file _ _ _ b Hb Hne).
  unfold interpret, read_text. rewrite Hhtml, Htext, Hb.
  unfold Aggregator.keeps_file.
  destruct (String.eqb _ ".pdf"); cbn [fst].
  { assert (H : PyStr.contains "not implemented]"
                  (pdf_placeholder (path_name filepath) original_url) = true).
    { unfold pdf_placeholder. do 4 apply contains_app_r. reflexivity. }
    rewrite H. by rewrite !orb_true_r. }
  destruct (in_list _ [".doc"; ".docx"]); cbn [fst].
  { assert (H : PyStr.contains "not implemented]"
                  (word_placeholder (path_name filepath) original_url) = true).
    { unfold word_placeholder. do 4 apply contains_app_r. reflexivity. }
    rewrite H. by rewrite !orb_true_r. }
  assert (H : PyStr.contains "Unknown file type"
                (unknown_sample (path_name filepath)
                   (PyStr.str_take sample_chars (decode b))) = true).
  { unfold unknown_sample. apply contains_app_l. reflexivity. }
  rewrite H. by rewrite !orb_true_r.
Qed.

(** X11: only markup is ever summarized: reading a file sends at most one
    request to the generation collaborator, and none unless the extension
    is [.html]. *)
Theorem read_requests_only_for_markup (filepath original_url : string)
    (fs : Fetcher.file_system) :
  (length (read filepath original_url fs).2 <= 1)%nat /\
  (String.eqb (PyStr.lower (path_suffix filepath)) ".html" = false ->
   (read filepath original_url fs).2 = []).
Proof.
  unfold read, _read_file_content.
  destruct (fs !! filepath) as [b|] eqn:Hb; [|split; [simpl; lia|done]].
  destruct (Fetcher.file_size fs filepath =? 0); [split; [simpl; lia|done]|].
  unfold interpret, read_text. rewrite Hb.
  destruct (String.eqb _ ".html").
  - split; [|done].
    destruct (negb (PyStr.truthy (PyStr.strip (decode b)))); [simpl; lia|].
    destruct (negb (PyStr.truthy (PyStr.strip _))); [simpl; lia|].
    apply summarize_requests_le_one.
  - assert (H : forall r : string * list request,
                r.2 = [] -> (length r.2 <= 1)%nat /\ (false = false -> r.2 = [])).
    { intros r ->. split; [simpl; lia|done]. }
    apply H.
    destruct (in_list _ text_extensions); [done|].
    destruct (String.eqb _ ".pdf"); [done|].
    by destruct (in_list _ [".doc"; ".docx"]).
Qed.

End InterpreterFacts.

Lemma read_missing_or_empty_witness :
  Interpreter._read_file_content demo_settings failing_create demo_soup demo_parse
    demo_text demo_hrefs demo_srcs demo_urljoin demo_decode demo_path_name demo_extension
    "downloads/1_empty.txt" "https://example.com/empty.txt" demo_files
  = ("[Empty file: notes.bin from https://example.com/empty.txt]", []).
Proof.
  apply (proj2 (read_missing_or_empty demo_settings failing_create demo_soup demo_parse
                  demo_text demo_hrefs demo_srcs demo_urljoin demo_decode demo_path_name
                  demo_extension "downloads/1_empty.txt" "https://example.com/empty.txt"
                  demo_files)).
  vm_compute. reflexivity.
Defined.

Lemma read_plain_text_verbatim_witness :
  Interpreter._read_file_content demo_settings failing_create demo_soup demo_parse
    demo_text demo_hrefs demo_srcs demo_urljoin demo_decode demo_path_name demo_extension
    "downloads/1_notes.TXT" "https://example.com/notes.TXT" demo_files
  = ("abc", []).
Proof.
  apply (read_plain_text_verbatim demo_settings failing_create demo_soup demo_parse
           demo_text demo_hrefs demo_srcs demo_urljoin demo_decode demo_path_name
           demo_extension "downloads/1_notes.TXT" "https://example.com/notes.TXT"
           demo_files three_bytes).
  - vm_compute. reflexivity.
  - discriminate.
  - vm_compute. by left.
Defined.

Lemma read_unknown_type_sample_witness :
  exists content_sample,
    Interpreter._read_file_content demo_settings failing_create demo_soup demo_parse
      demo_text demo_hrefs demo_srcs demo_urljoin demo_decode demo_path_name demo_extension
      "downloads/1_blob.xyz" "https://example.com/blob.xyz" demo_files
    = ("[Unknown file type content sample from " +:+ demo_path_name "downloads/1_blob.xyz"
       +:+ "]:" +:+ Aggregator.nl +:+ content_sample, []) /\
    String.prefix content_sample (demo_decode three_bytes) = true /\
    Z.of_nat (String.length content_sample) <= 2048.
Proof.
  apply (read_unknown_type_sample demo_settings failing_create demo_soup demo_parse
           demo_text demo_hrefs demo_srcs demo_urljoin demo_decode demo_path_name
           demo_extension "downloads/1_blob.xyz" "https://example.com/blob.xyz"
           demo_files three_bytes).
  - vm_compute. reflexivity.
  - discriminate.
  - vm_compute. reflexivity.
Defined.

Lemma read_binary_kept_witness :
  Aggregator.keeps_file
    (Interpreter._read_file_content demo_settings failing_create demo_soup demo_parse
       demo_text demo_hrefs demo_srcs demo_urljoin demo_decode demo_path_name
       demo_extension "downloads/1_paper.pdf" "https://example.com/paper.pdf"
       demo_files).1 = true.
Proof.
  apply (read_binary_kept demo_settings failing_create demo_soup demo_parse
           demo_text demo_hrefs demo_srcs demo_urljoin demo_decode demo_path_name
           demo_extension "downloads/1_paper.pdf" "https://example.com/paper.pdf"
           demo_files three_bytes).
  - vm_compute. reflexivity.
  - discriminate.
  - vm_compute. reflexivity.
  - vm_compute. reflexivity.
Defined.

(** ** The Bounded Fetcher: what a download leaves behind *)




Lemma sanitize_length (filename : string) :
  String.length (Fetcher.sanitize filename) = String.length filename.
Proof. induction filename as [|c s IH]; [done|]. simpl. by rewrite IH. Qed.



Section FetcherMoreFacts.
Import Fetcher.
Variable settings : Settings.
Variable session_get : string -> result response.
Variable now : Z.
Variable py_int : string -> option Z.
Variable url_path_name : string -> string.
Variable path_suffix : string -> string.

Let max_size := max_file_size settings.
Let download := _download_file settings session_get now py_int url_path_name path_suffix.
Let path_of := download_path now url_path_name path_suffix.


Lemma stream_loop_frame (path q : string) (s : stream) :
  q <> path ->
  forall (downloaded_size : Z) (fs : file_system),
    (stream_loop max_size path s downloaded_size fs).1.2 !! q = fs !! q.
Proof.
  intros Hq. induction s as [|c rest IH|e]; intros size fs; simpl; [done| |done].
  destruct (max_size <? size + Z.of_nat (length c)); simpl.
  - unfold try_remove, os_remove. destruct (fs !! path); [|done].
    by apply lookup_delete_ne.
  - specialize (IH (size + Z.of_nat (length c)) (f_write path c fs)).
    destruct (stream_loop _ _ rest _ _) as [[e fs'] seen]. simpl in *.
    rewrite IH. unfold f_write. by apply lookup_insert_ne.
Qed.

Lemma stream_to_file_frame (path q : string) (r : response) (fs : file_system) :
  q <> path -> fs_after (stream_to_file settings path r fs) !! q = fs !! q.
Proof.
  intros Hq. unfold stream_to_file.
  pose proof (stream_loop_frame path q (body r) Hq 0 (open_wb path fs)) as H.
  unfold max_size in H.
  destruct (stream_loop (max_file_size settings) path (body r) 0 (open_wb path fs))
    as [[e fs'] seen].
  simpl in H. unfold open_wb in H. rewrite lookup_insert_ne in H by done.
  by destruct e.
Qed.

(** X13: a download touches one file at most: every path other than the
    one the download writes to holds after the call what it held before,
    whatever the outcome. *)
Theorem download_leaves_other_files (url q : string) (fs : file_system) :
  (forall r, session_get url = Returns r -> q <> path_of url r) ->
  fs_after (download url fs) !! q = fs !! q.
Proof.
  intros Hq. unfold download, _download_file.
  destruct (not_fetchable url); [done|].
  destruct (session_get url) as [r|e]; [|done].
  specialize (Hq r eq_refl). unfold path_of in Hq.
  destruct (400 <=? status r); [done|].
  destruct (content_length r) as [cl|]; [|by apply stream_to_file_frame].
  destruct (PyStr.truthy cl); [|by apply stream_to_file_frame].
  destruct (py_int cl) as [n|]; [|done].
  destruct (max_file_size settings <? n); [done|].
  by apply stream_to_file_frame.
Qed.

(** The loop over a stream that ends well stores its chunks, in order. *)
Lemma stream_loop_stores (path : string) (s : stream) :
  forall (downloaded_size n : Z) (fs : file_system) (old : list Byte.byte),
    fs !! path = Some old ->
    (stream_loop max_size path s downloaded_size fs).1.1 = Completed n ->
    (stream_loop max_size path s downloaded_size fs).1.2 !! path
      = Some (old ++ concat (stream_chunks s)) /\
    n = downloaded_size + total_size (stream_chunks s).
Proof.
  induction s as [|c rest IH|e]; intros size n fs old Hold; simpl; [| |done].
  - intros [= <-]. rewrite app_nil_r. split; [done|lia].
  - destruct (max_size <? size + Z.of_nat (length c)); [done|].
    specialize (IH (size + Z.of_nat (length c)) n (f_write path c fs) (old ++ c)).
    destruct (stream_loop _ _ rest _ _) as [[e fs'] seen]. simpl in *.
    intros He. destruct IH as [IH1 IH2]; [|done|].
    { unfold f_write. rewrite lookup_insert_eq, Hold. done. }
    rewrite IH1, <- (assoc_L (++)). split; [done|]. lia.
Qed.

Lemma stream_to_file_stores (path : string) (r : response) (fs : file_system) (p : string) :
  returned (stream_to_file settings path r fs) = Some p ->
  p = path /\
  fs_after (stream_to_file settings path r fs) !! path
    = Some (concat (stream_chunks (body r))).
Proof.
  unfold stream_to_file.
  pose proof (stream_loop_stores path (body r) 0) as H. unfold max_size in H.
  destruct (stream_loop (max_file_size settings) path (body r) 0 (open_wb path fs))
    as [[e fs'] seen] eqn:E.
  destruct e as [n| |e]; simpl; try congruence.
  intros [= <-]. split; [done|].
  specialize (H n (open_wb path fs) []). rewrite E in H.
  destruct H as [H _]; [|done|done].
  unfold open_wb. by rewrite lookup_insert_eq.
Qed.

(** X14: a download that returns a path has stored, at that path, exactly
    the bytes of the response body, chunk after chunk; the path is the one
    derived from the URL and the response, whose status was below 400. *)
Theorem download_stores_body (url p : string) (fs : file_system) :
  returned (download url fs) = Some p ->
  exists r,
    session_get url = Returns r /\ status r < 400 /\ p = path_of url r /\
    fs_after (download url fs) !! p = Some (concat (stream_chunks (body r))).
Proof.
  unfold download, path_of, _download_file.
  destruct (not_fetchable url); [done|].
  destruct (session_get url) as [r|e]; [|done].
  destruct (400 <=? status r) eqn:Hs; [done|]. apply Z.leb_gt in Hs.
  assert (Hstream : forall q,
    returned (stream_to_file settings (download_path now url_path_name path_suffix url r)
                r fs) = Some q ->
    exists r0, Returns r = Returns r0 /\ status r0 < 400 /\
      q = download_path now url_path_name path_suffix url r0 /\
      fs_after (stream_to_file settings
                  (download_path now url_path_name path_suffix url r) r fs) !! q
      = Some (concat (stream_chunks (body r0)))).
  { intros q [-> Hq]%stream_to_file_stores. by exists r. }
  destruct (content_length r) as [cl|]; [|apply Hstream].
  destruct (PyStr.truthy cl); [|apply Hstream].
  destruct (py_int cl) as [n|]; [|done].
  destruct (max_file_size settings <? n); [done|apply Hstream].
Qed.

(** The loop over chunks within the ceiling, then a failure. *)
Lemma stream_loop_broken (path : string) (cs : list chunk) (e : exn) :
  forall (downloaded_size : Z) (fs : file_system) (old : list Byte.byte),
    fs !! path = Some old ->
    downloaded_size + total_size cs <= max_size ->
    (stream_loop max_size path (chunks_then cs (SError e)) downloaded_size fs).1.1
      = Failed e /\
    (stream_loop max_size path (chunks_then cs (SError e)) downloaded_size fs).1.2 !! path
      = Some (old ++ concat cs).
Proof.
  induction cs as [|c cs IH]; intros size fs old Hold Hle; simpl.
  - by rewrite app_nil_r.
  - simpl in Hle.
    assert (Hpos : 0 <= total_size cs).
    { clear. induction cs as [|c cs IH]; simpl; lia. }
    rewrite (proj2 (Z.ltb_ge _ _)) by lia.
    specialize (IH (size + Z.of_nat (length c)) (f_write path c fs) (old ++ c)).
    destruct (stream_loop _ _ (chunks_then cs (SError e)) _ _) as [[x fs'] seen].
    simpl in *. destruct IH as [IH1 IH2]; [|lia|].
    { unfold f_write. by rewrite lookup_insert_eq, Hold. }
    by rewrite IH1, IH2, <- (assoc_L (++)).
Qed.

(** X15: when the connection fails in mid-stream, before the ceiling is
    passed, the download returns nothing and the file stays where it is,
    holding the bytes received so far: only the over-size exit removes it. *)
Theorem download_broken_stream_leaves_partial (url : string) (fs : file_system)
    (r : response) (cs : list chunk) (e : exn) :
  not_fetchable url = false ->
  session_get url = Returns r ->
  status r < 400 ->
  declared_within py_int max_size (content_length r) ->
  body r = chunks_then cs (SError e) ->
  total_size cs <= max_size ->
  returned (download url fs) = None /\
  fs_after (download url fs) !! path_of url r = Some (concat cs).
Proof.
  intros Hfetch Hget Hstatus Hdecl Hbody Hle.
  unfold download, path_of, _download_file. rewrite Hfetch, Hget.
  rewrite (proj2 (Z.leb_gt _ _) Hstatus).
  assert (Hstream :
    returned (stream_to_file settings (download_path now url_path_name path_suffix url r) r fs)
      = None /\
    fs_after (stream_to_file settings (download_path now url_path_name path_suffix url r) r fs)
      !! download_path now url_path_name path_suffix url r = Some (concat cs)).
  { unfold stream_to_file. rewrite Hbody.
    set (path := download_path now url_path_name path_suffix url r).
    pose proof (stream_loop_broken path cs e 0 (open_wb path fs) []) as H.
    unfold max_size in *.
    destruct (stream_loop (max_file_size settings) path (chunks_then cs (SError e)) 0
                (open_wb path fs)) as [[x fs'] seen].
    simpl in H. destruct H as [-> H]; [|lia|done].
    unfold open_wb. by rewrite lookup_insert_eq. }
  unfold declared_within in Hdecl.
  destruct (content_length r) as [cl|]; [|exact Hstream].
  destruct Hdecl as [->|(n & Hint & Hn)]; [exact Hstream|].
  destruct (PyStr.truthy cl); [|exact Hstream].
  unfold max_size in Hn. rewrite Hint. by rewrite (proj2 (Z.ltb_ge _ _) Hn).
Qed.

(** X16: what the resolver takes for a video is never fetched, and neither
    is a [data:] or [mailto:] URL, a URL the session fails on, or a response
    with a status of 400 or more: in each case nothing is returned and the
    file system is as it was. *)
Theorem download_refused_untouched (url : string) (fs : file_system) :
  (is_Some (VideoId._extract_youtube_video_id url)
   \/ PyStr.startswith "data:" url = true \/ PyStr.startswith "mailto:" url = true
   \/ (exists e, session_get url = Raises e)
   \/ (exists r, session_get url = Returns r /\ 400 <= status r)) ->
  download url fs = Outcome None fs [].
Proof.
  unfold download, _download_file, not_fetchable.
  intros [[v Hv]|[H|[H|[[e H]|(r & H & Hs)]]]].
  - rewrite Hv. cbn [opt_truthy]. by rewrite (extract_truthy _ _ Hv).
  - rewrite H. by rewrite orb_true_r.
  - rewrite H. by rewrite orb_true_r.
  - destruct (_ || _); [done|]. by rewrite H.
  - destruct (_ || _); [done|]. rewrite H.
    by rewrite (proj2 (Z.leb_le _ _) Hs).
Qed.

End FetcherMoreFacts.

Lemma download_leaves_other_files_witness :
  Fetcher.fs_after
    (Fetcher._download_file tiny_settings (demo_session small_response) demo_now
       decimal_int demo_path_name demo_suffix "https://example.com/notes.bin" demo_files)
    !! "downloads/1_paper.pdf"
  = demo_files !! "downloads/1_paper.pdf".
Proof.
  apply (download_leaves_other_files tiny_settings (demo_session small_response) demo_now
           decimal_int demo_path_name demo_suffix "https://example.com/notes.bin"
           "downloads/1_paper.pdf" demo_files).
  intros r [= <-]. vm_compute. discriminate.
Defined.

Lemma download_stores_body_witness :
  exists r,
    demo_session small_response "https://example.com/notes.bin" = Returns r /\
    Fetcher.status r < 400 /\
    "downloads/1700000000_notes.bin"
      = Fetcher.download_path demo_now demo_path_name demo_suffix
          "https://example.com/notes.bin" r /\
    Fetcher.fs_after
      (Fetcher._download_file tiny_settings (demo_session small_response) demo_now
         decimal_int demo_path_name demo_suffix "https://example.com/notes.bin" ∅)
      !! "downloads/1700000000_notes.bin"
    = Some (concat (Fetcher.stream_chunks (Fetcher.body r))).
Proof.
  apply (download_stores_body tiny_settings (demo_session small_response) demo_now
           decimal_int demo_path_name demo_suffix "https://example.com/notes.bin"
           "downloads/1700000000_notes.bin" ∅).
  vm_compute. reflexivity.
Defined.

Lemma download_broken_stream_leaves_partial_witness :
  Fetcher.returned
    (Fetcher._download_file tiny_settings (demo_session broken_response) demo_now
       decimal_int demo_path_name demo_suffix "https://example.com/notes.bin" ∅) = None /\
  Fetcher.fs_after
    (Fetcher._download_file tiny_settings (demo_session broken_response) demo_now
       decimal_int demo_path_name demo_suffix "https://example.com/notes.bin" ∅)
    !! Fetcher.download_path demo_now demo_path_name demo_suffix
         "https://example.com/notes.bin" broken_response
  = Some (concat [three_bytes]).
Proof.
  apply (download_broken_stream_leaves_partial tiny_settings (demo_session broken_response)
           demo_now decimal_int demo_path_name demo_suffix "https://example.com/notes.bin"
           ∅ broken_response [three_bytes] (ClientError "connection reset")).
  - vm_compute. reflexivity.
  - reflexivity.
  - vm_compute. reflexivity.
  - exact I.
  - reflexivity.
  - vm_compute. discriminate.
Defined.

Lemma download_refused_untouched_witness :
  Fetcher._download_file tiny_settings (demo_session small_response) demo_now
    decimal_int demo_path_name demo_suffix "https://youtu.be/dQw4w9WgXcQ" demo_files
  = Fetcher.Outcome None demo_files [].
Proof.
  apply (download_refused_untouched tiny_settings (demo_session small_response) demo_now
           decimal_int demo_path_name demo_suffix "https://youtu.be/dQw4w9WgXcQ" demo_files).
  left. vm_compute. by eexists.
Defined.

(** ** The Content Extractor: links and text *)

Section ExtractorMoreFacts.
Variable soup : Type.
Variable BeautifulSoup : string -> result soup.
Variable main_text : soup -> string.
Variable a_hrefs : soup -> list string.
Variable iframe_srcs : soup -> list string.
Variable urljoin : string -> string -> result string.

Lemma anchor_step_links (base : string) (st : Extractor.acc) (href : string) :
  Extractor.general_links (Extractor.anchor_step urljoin base st href)
  = Extractor.general_links st ++ option_list (link_of urljoin base href).
Proof.
  unfold Extractor.anchor_step, link_of.
  destruct (Extractor.skipped_href href); [by rewrite app_nil_r|].
  destruct (VideoId._extract_youtube_video_id href) as [g|] eqn:Hx.
  - rewrite (extract_truthy _ _ Hx). simpl. by rewrite app_nil_r.
  - destruct (urljoin base href); simpl; [done|by rewrite app_nil_r].
Qed.

Lemma anchor_loop_links (base : string) (hrefs : list string) (st : Extractor.acc) :
  Extractor.general_links (fold_left (Extractor.anchor_step urljoin base) hrefs st)
  = Extractor.general_links st ++ omap (link_of urljoin base) hrefs.
Proof.
  revert st. induction hrefs as [|h hrefs IH]; intros st; simpl.
  - by rewrite app_nil_r.
  - rewrite IH, anchor_step_links, <- (assoc_L (++)). f_equal.
    by destruct (link_of urljoin base h).
Qed.

Lemma iframe_loop_links (srcs : list string) (st : Extractor.acc) :
  Extractor.general_links (fold_left Extractor.iframe_step srcs st)
  = Extractor.general_links st.
Proof.
  revert st. induction srcs as [|h srcs IH]; intros st; simpl; [done|].
  rewrite IH. unfold Extractor.iframe_step.
  destruct (PyStr.truthy h); [|done].
  destruct (VideoId._extract_youtube_video_id h); [|done].
  by destruct (PyStr.truthy _).
Qed.

(** X17: on a page that parses, the link list holds, in document order and
    with repetitions, the joined URL of exactly those anchors that are not
    skipped and resolve to no video; embedded frames add no link, and an
    anchor counted as a video is never a link as well. *)
Theorem extracted_links_in_order (html_content base_url_for_links : string) (sp : soup) :
  PyStr.strip html_content <> EmptyString ->
  BeautifulSoup html_content = Returns sp ->
  (Extractor._extract_links_yt_from_html soup BeautifulSoup main_text a_hrefs
     iframe_srcs urljoin html_content base_url_for_links).1.2
  = omap (link_of urljoin base_url_for_links) (a_hrefs sp).
Proof.
  intros Hne Hsp. unfold Extractor._extract_links_yt_from_html.
  rewrite (summarize_guard _ Hne), Hsp. simpl.
  by rewrite iframe_loop_links, anchor_loop_links.
Qed.

End ExtractorMoreFacts.

Lemma extracted_links_in_order_witness :
  (Extractor._extract_links_yt_from_html demo_soup demo_parse demo_text demo_hrefs
     demo_srcs demo_urljoin "<a href=...>" "https://canvas.example").1.2
  = omap (link_of demo_urljoin "https://canvas.example") (demo_hrefs demo_page).
Proof.
  apply (extracted_links_in_order demo_soup demo_parse demo_text demo_hrefs demo_srcs
           demo_urljoin "<a href=...>" "https://canvas.example" demo_page).
  - vm_compute. discriminate.
  - reflexivity.
Defined.

(** *** The cleaned text *)












(** ** The Video-ID Resolver: the other URL shapes *)

Lemma rmatch_alt {R} (a b : Regex.re) (s : string) (k : string -> option R) :
  Regex.rmatch (Regex.Alt a b) s k
  = Regex.orelse (Regex.rmatch a s k) (Regex.rmatch b s k).
Proof. reflexivity. Qed.

Lemma rmatch_seq {R} (a b : Regex.re) (s : string) (k : string -> option R) :
  Regex.rmatch (Regex.Seq a b) s k
  = Regex.rmatch a s (fun s1 => Regex.rmatch b s1 k).
Proof. reflexivity. Qed.

Lemma rmatch_lit_mismatch {R} (a c : ascii) (p q s : string) (k : string -> option R) :
  Ascii.eqb a c = false ->
  Regex.rmatch (Regex.lit (String a p)) (String c q +:+ s) k = None.
Proof. intros H. by rewrite append_cons, rmatch_lit_cons, H. Qed.

Lemma watch_v_mismatch {R} (c : ascii) (q s : string) (k : string -> option R) :
  Ascii.eqb "w" c = false ->
  Regex.rmatch VideoId.watch_v (String c q +:+ s) k = None.
Proof.
  intros H. unfold VideoId.watch_v. rewrite rmatch_seq.
  by apply rmatch_lit_mismatch.
Qed.

(** [embed/], [v/], [shorts/] and [live/] under the first pattern. *)
Lemma match_here_path (kind ident : string) :
  In kind ["embed/"; "v/"; "shorts/"; "live/"] ->
  String.length ident = 11%nat ->
  str_forallb VideoId.id_char ident = true ->
  Regex.match_here
    (Regex.Pattern
       (Regex.Seq (Regex.lit "youtube.com/")
          (Regex.alts [VideoId.watch_v; Regex.lit "embed/"; Regex.lit "v/";
                       Regex.lit "shorts/"; Regex.lit "live/"]))
       VideoId.id11)
    ("youtube.com/" +:+ kind +:+ ident) = Some ident.
Proof.
  intros Hkind Hlen Hid. unfold Regex.match_here. cbn [Regex.lead Regex.group1].
  rewrite rmatch_seq, rmatch_lit.
  change (Regex.alts [?a; ?b; ?c; ?d; ?e])
    with (Regex.Alt a (Regex.Alt b (Regex.Alt c (Regex.Alt d e)))).
  simpl in Hkind.
  destruct Hkind as [<-|[<-|[<-|[<-|[]]]]];
    rewrite !rmatch_alt, watch_v_mismatch by reflexivity;
    repeat (rewrite rmatch_lit_mismatch by reflexivity);
    rewrite rmatch_lit; cbn [Regex.orelse];
    rewrite (id11_matches ident _ Hlen Hid); by rewrite consumed_all.
Qed.

(** What the resolver does with any text behind [youtube.com/] that the
    first pattern captures an identifier from. *)
Lemma extract_first_pattern (pre tail ident : string) :
  PyStr.startswith "http://" pre || PyStr.startswith "https://" pre = true ->
  str_forallb (fun c => negb (Ascii.eqb "y" c)) pre = true ->
  ident <> EmptyString ->
  Regex.match_here
    (Regex.Pattern
       (Regex.Seq (Regex.lit "youtube.com/")
          (Regex.alts [VideoId.watch_v; Regex.lit "embed/"; Regex.lit "v/";
                       Regex.lit "shorts/"; Regex.lit "live/"]))
       VideoId.id11)
    ("youtube.com/" +:+ tail) = Some ident ->
  VideoId._extract_youtube_video_id (pre +:+ "youtube.com/" +:+ tail) = Some ident.
Proof.
  intros Hscheme Hpre Hne Hmatch. unfold VideoId._extract_youtube_video_id.
  destruct (http_head _ Hscheme) as [r Hr].
  assert (H1 : PyStr.truthy (PyStr.strip (pre +:+ "youtube.com/" +:+ tail)) = true).
  { rewrite Hr, append_cons. by apply strip_head_nonspace. }
  assert (H2 : PyStr.startswith "http://" (pre +:+ "youtube.com/" +:+ tail)
               || PyStr.startswith "https://" (pre +:+ "youtube.com/" +:+ tail)
               = true).
  { unfold PyStr.startswith in *. apply orb_true_iff in Hscheme as [H|H].
    - by rewrite (prefix_app _ _ _ H).
    - rewrite (prefix_app _ _ _ H). apply orb_true_r. }
  assert (H3 : existsb
                 (fun domain => PyStr.contains domain
                    (PyStr.lower (pre +:+ "youtube.com/" +:+ tail)))
                 VideoId.domains = true).
  { unfold VideoId.domains. cbn [existsb]. rewrite !lower_app.
    change (PyStr.lower "youtube.com/") with ("youtube.com" +:+ "/").
    rewrite append_assoc, contains_app_r; [done|].
    apply contains_prefix, prefix_self_app. }
  rewrite H1, H2, H3. cbn [negb].
  unfold VideoId.patterns. rewrite first_match_cons.
  change (Regex.lit "youtube.com/") with (Regex.lit (String "y" "outube.com/")).
  rewrite search_skip_prefix by done.
  change (Regex.lit (String "y" "outube.com/")) with (Regex.lit "youtube.com/").
  rewrite search_unfold, Hmatch. cbn [Regex.orelse].
  by rewrite (proj2 (truthy_true ident) Hne).
Qed.

(** X19: an embed, [v/], shorts or live URL
    [http(s)://[www.|m.]youtube.com/KIND/ID] with an eleven-character
    identifier resolves to exactly [ID]. *)
Theorem resolver_path_urls (scheme sub kind ident : string) :
  scheme ∈ ["http://"; "https://"] -> sub ∈ [""; "www."; "m."] ->
  kind ∈ ["embed/"; "v/"; "shorts/"; "live/"] ->
  String.length ident = 11%nat -> str_forallb VideoId.id_char ident = true ->
  VideoId._extract_youtube_video_id (scheme +:+ sub +:+ "youtube.com/" +:+ kind +:+ ident)
  = Some ident.
Proof.
  intros Hscheme Hsub Hkind Hlen Hid.
  assert (Hs : scheme = "http://" \/ scheme = "https://") by set_solver.
  assert (Hh : sub = EmptyString \/ sub = "www." \/ sub = "m.") by set_solver.
  rewrite <- append_assoc.
  apply extract_first_pattern.
  - destruct Hs as [->| ->]; destruct Hh as [->|[->| ->]]; vm_compute; reflexivity.
  - destruct Hs as [->| ->]; destruct Hh as [->|[->| ->]]; vm_compute; reflexivity.
  - intros ->. done.
  - apply match_here_path; [by apply list_elem_of_In|done|done].
Qed.

Lemma resolver_path_urls_witness :
  VideoId._extract_youtube_video_id
    ("https://" +:+ "www." +:+ "youtube.com/" +:+ "embed/" +:+ "dQw4w9WgXcQ")
  = Some "dQw4w9WgXcQ".
Proof.
  apply (resolver_path_urls "https://" "www." "embed/" "dQw4w9WgXcQ").
  - set_solver.
  - set_solver.
  - set_solver.
  - reflexivity.
  - vm_compute. reflexivity.
Defined.

(** *** Short links *)

Lemma prefix_longer (p s : string) :
  (String.length s < String.length p)%nat -> String.prefix p s = false.
Proof.
  revert s. induction p as [|a p IH]; intros s; simpl; [lia|].
  destruct s as [|c s]; [done|]. simpl. intros H.
  destruct (ascii_dec a c); [apply IH; lia|done].
Qed.

Lemma contains_longer (p s : string) :
  (String.length s < String.length p)%nat -> PyStr.contains p s = false.
Proof.
  induction s as [|c s IH]; intros H.
  - change (PyStr.contains p EmptyString) with (String.prefix p EmptyString || false).
    by rewrite prefix_longer.
  - rewrite contains_cons, prefix_longer by done. apply IH. simpl in H. lia.
Qed.

Lemma contains_false_cons (p : string) (c : ascii) (s : string) :
  String.prefix p (String c s) = false -> PyStr.contains p s = false ->
  PyStr.contains p (String c s) = false.
Proof. intros H1 H2. by rewrite contains_cons, H1, H2. Qed.

Lemma rmatch_lit_needs_prefix {R} (p s : string) (k : string -> option R) :
  String.prefix p s = false -> Regex.rmatch (Regex.lit p) s k = None.
Proof.
  revert s. induction p as [|a p IH]; intros s; [by destruct s|].
  destruct s as [|c s]; [done|]. rewrite prefix_cons, rmatch_lit_cons.
  destruct (ascii_dec a c) as [<-|Hne].
  - rewrite Ascii.eqb_refl. apply IH.
  - intros _. by rewrite (proj2 (Ascii.eqb_neq a c) Hne).
Qed.

(** A pattern that opens with a literal finds nothing in a text where the
    literal does not occur. *)
Lemma search_needs_literal (p : string) (r g : Regex.re) (s : string) :
  PyStr.contains p s = false ->
  Regex.search (Regex.Pattern (Regex.Seq (Regex.lit p) r) g) s = None.
Proof.
  assert (Hhere : forall s, String.prefix p s = false ->
            Regex.match_here (Regex.Pattern (Regex.Seq (Regex.lit p) r) g) s = None).
  { intros s0 H. unfold Regex.match_here. cbn [Regex.lead Regex.group1].
    rewrite rmatch_seq. by apply rmatch_lit_needs_prefix. }
  induction s as [|c s IH]; intros H; rewrite search_unfold.
  - rewrite Hhere; [done|]. simpl in H. by apply orb_false_iff in H as [H _].
  - rewrite contains_cons in H. apply orb_false_iff in H as [H1 H2].
    rewrite Hhere by done. cbn [Regex.orelse]. by apply IH.
Qed.

Lemma match_here_lit_first_char (a c : ascii) (l s : string) (g : Regex.re) :
  Ascii.eqb a c = false ->
  Regex.match_here (Regex.Pattern (Regex.lit (String a l)) g) (String c s) = None.
Proof.
  intros H. unfold Regex.match_here. cbn [Regex.lead Regex.group1].
  by rewrite rmatch_lit_cons, H.
Qed.

Lemma search_skip_prefix_lit (a : ascii) (l : string) (g : Regex.re) (pre s : string) :
  str_forallb (fun c => negb (Ascii.eqb a c)) pre = true ->
  Regex.search (Regex.Pattern (Regex.lit (String a l)) g) (pre +:+ s)
  = Regex.search (Regex.Pattern (Regex.lit (String a l)) g) s.
Proof.
  induction pre as [|c pre IH]; [done|].
  rewrite str_forallb_cons, append_cons. intros [Hc Hpre]%andb_true_iff.
  rewrite search_unfold, match_here_lit_first_char by by destruct (Ascii.eqb a c).
  by apply IH.
Qed.

(** X20: a short link [http(s)://youtu.be/ID] with an eleven-character
    identifier resolves to exactly [ID]: the first pattern finds nothing in
    it and the second captures the identifier. *)
Theorem resolver_short_links (scheme ident : string) :
  scheme ∈ ["http://"; "https://"] ->
  String.length ident = 11%nat -> str_forallb VideoId.id_char ident = true ->
  VideoId._extract_youtube_video_id (scheme +:+ "youtu.be/" +:+ ident) = Some ident.
Proof.
  intros Hscheme Hlen Hid.
  assert (Hs : scheme = "http://" \/ scheme = "https://") by set_solver.
  unfold VideoId._extract_youtube_video_id.
  assert (H1 : PyStr.truthy (PyStr.strip (scheme +:+ "youtu.be/" +:+ ident)) = true).
  { destruct Hs as [->| ->]; rewrite append_cons; by apply strip_head_nonspace. }
  assert (H2 : PyStr.startswith "http://" (scheme +:+ "youtu.be/" +:+ ident)
               || PyStr.startswith "https://" (scheme +:+ "youtu.be/" +:+ ident) = true).
  { unfold PyStr.startswith. destruct Hs as [->| ->].
    - by rewrite prefix_self_app.
    - rewrite (prefix_self_app "https://"). apply orb_true_r. }
  assert (H3 : existsb
                 (fun domain => PyStr.contains domain
                    (PyStr.lower (scheme +:+ "youtu.be/" +:+ ident)))
                 VideoId.domains = true).
  { unfold VideoId.domains. cbn [existsb]. rewrite !lower_app.
    change (PyStr.lower "youtu.be/") with ("youtu.be" +:+ "/").
    rewrite append_assoc, (contains_app_r "youtu.be"); [by rewrite orb_true_r|].
    apply contains_prefix, prefix_self_app. }
  rewrite H1, H2, H3. cbn [negb].
  unfold VideoId.patterns. rewrite first_match_cons.
  rewrite search_needs_literal.
  - rewrite first_match_cons.
    change (Regex.lit "youtu.be/") with (Regex.lit (String "y" "outu.be/")).
    rewrite search_skip_prefix_lit by (destruct Hs as [->| ->]; reflexivity).
    change (Regex.lit (String "y" "outu.be/")) with (Regex.lit "youtu.be/").
    rewrite search_unfold. unfold Regex.match_here. cbn [Regex.lead Regex.group1].
    rewrite rmatch_lit, (id11_matches ident _ Hlen Hid), consumed_all.
    cbn [Regex.orelse]. destruct ident; [done|reflexivity].
  - destruct Hs as [->| ->]; cbv [String.append];
      repeat (apply contains_false_cons; [vm_compute; reflexivity|]);
      apply contains_longer; rewrite Hlen; simpl; lia.
Qed.

Lemma resolver_short_links_witness :
  VideoId._extract_youtube_video_id ("https://" +:+ "youtu.be/" +:+ "dQw4w9WgXcQ")
  = Some "dQw4w9WgXcQ".
Proof.
  apply (resolver_short_links "https://" "dQw4w9WgXcQ").
  - set_solver.
  - reflexivity.
  - vm_compute. reflexivity.
Defined.

(** ** The lenient parse: candidates and wrappers *)

Lemma after_last_brace_tail (c : ascii) (s : string) :
  after_last_brace (String c s) = None -> after_last_brace s = None.
Proof. cbn [after_last_brace]. by destruct (after_last_brace s). Qed.

Lemma after_last_brace_final (s r : string) :
  after_last_brace s = Some r -> after_last_brace r = None.
Proof.
  induction s as [|c s IH]; [done|]. cbn [after_last_brace].
  destruct (after_last_brace s) as [r'|] eqn:E.
  - intros [= ?]. subst. by apply IH.
  - destruct (Ascii.eqb "}" c); [|done]. intros [= ?]. by subst.
Qed.

(** The greedy [.*] followed by the closing brace stops behind the last
    closing brace. *)
Lemma greedy_to_last_brace (s : string) :
  forall fuel, (String.length s <= fuel)%nat ->
  Regex.star_loop (Regex.rmatch (Regex.Chr Reflect.any_char))
    (fun x => Regex.rmatch (Regex.lit "}") x (fun rest => Some rest)) fuel s
  = after_last_brace s.
Proof.
  induction s as [|c s IH]; intros fuel Hfuel.
  - by destruct fuel.
  - destruct fuel as [|fuel]; [simpl in Hfuel; lia|].
    cbn [Regex.star_loop Regex.rmatch Reflect.any_char].
    replace (String.length s <? String.length (String c s))%nat with true
      by (symmetry; apply Nat.ltb_lt; simpl; lia).
    rewrite IH by (simpl in Hfuel; lia).
    rewrite rmatch_lit_cons. cbn [after_last_brace Regex.lit Regex.rmatch].
    by destruct (after_last_brace s).
Qed.

Lemma match_prefix_brace (c : ascii) (s : string) :
  Regex.match_prefix Reflect.brace_pattern (String c s)
  = if Ascii.eqb "{" c then after_last_brace s else None.
Proof.
  unfold Regex.match_prefix, Reflect.brace_pattern.
  rewrite rmatch_seq, rmatch_lit_cons.
  destruct (Ascii.eqb "{" c); [|done].
  cbn [Regex.lit]. change (Regex.rmatch Regex.Eps ?x ?k) with (k x). cbn beta.
  rewrite rmatch_seq.
  change (Regex.rmatch (Regex.Star ?r) ?x ?k)
    with (Regex.star_loop (Regex.rmatch r) k (String.length x) x).
  by apply greedy_to_last_brace.
Qed.

Lemma findall_brace_none (s : string) :
  after_last_brace s = None ->
  forall skip, Regex.findall_go Reflect.brace_pattern skip s = [].
Proof.
  induction s as [|c s IH]; intros Hs skip; [done|].
  pose proof (after_last_brace_tail _ _ Hs) as Ht.
  cbn [Regex.findall_go]. destruct skip as [|n]; [|by apply IH].
  rewrite match_prefix_brace, Ht.
  destruct (Ascii.eqb "{" c); by apply IH.
Qed.

Lemma str_suffix_shorter (rest : string) (c : ascii) (s : string) :
  str_suffix rest (String c s) -> (String.length rest <= String.length s)%nat ->
  str_suffix rest s.
Proof.
  intros [[|d p] H] Hlen.
  - rewrite append_nil_l in H. subst rest. simpl in Hlen. lia.
  - rewrite append_cons in H. injection H as _ ->. by exists p.
Qed.

Lemma str_suffix_same_length (rest s : string) :
  str_suffix rest s -> String.length rest = String.length s -> rest = s.
Proof.
  intros [[|d p] ->]; [done|]. rewrite append_cons. simpl.
  rewrite append_length. lia.
Qed.

Lemma str_suffix_length (rest s : string) :
  str_suffix rest s -> (String.length rest <= String.length s)%nat.
Proof. intros [p ->]. rewrite append_length. lia. Qed.

(** Behind a match there is nothing left to find. *)
Lemma findall_brace_skip (rest s : string) :
  after_last_brace rest = None ->
  forall skip, str_suffix rest s ->
    (String.length rest + skip = String.length s)%nat ->
    Regex.findall_go Reflect.brace_pattern skip s = [].
Proof.
  intros Hrest. induction s as [|c s IH]; intros skip Hsuf Hlen; [done|].
  destruct skip as [|n].
  - rewrite Nat.add_0_r in Hlen.
    rewrite <- (str_suffix_same_length _ _ Hsuf Hlen). by apply findall_brace_none.
  - cbn [Regex.findall_go]. apply IH.
    + apply (str_suffix_shorter _ c); [done|]. simpl in Hlen. lia.
    + simpl in Hlen. lia.
Qed.

Lemma findall_brace_le_one (s : string) :
  (length (Regex.findall_go Reflect.brace_pattern 0 s) <= 1)%nat.
Proof.
  induction s as [|c s IH]; [simpl; lia|].
  cbn [Regex.findall_go].
  destruct (Regex.match_prefix Reflect.brace_pattern (String c s)) as [rest|] eqn:E;
    [|exact IH].
  assert (Hsuf : str_suffix rest (String c s)).
  { unfold Regex.match_prefix in E. apply rmatch_inv in E as (s1 & Hs1 & [= ->]). done. }
  assert (Hrest : after_last_brace rest = None).
  { rewrite match_prefix_brace in E. destruct (Ascii.eqb "{" c); [|done].
    by eapply after_last_brace_final. }
  pose proof (str_suffix_length _ _ Hsuf) as Hlen.
  destruct (String.length (String c s) - String.length rest)%nat as [|n] eqn:En;
    [exact IH|].
  rewrite (findall_brace_skip rest s Hrest n); [simpl; lia| |].
  - apply (str_suffix_shorter _ c); [done|]. simpl in *. lia.
  - simpl in *. lia.
Qed.

(** X21: [remove_think_tags] never has more than one brace-delimited
    candidate to try, since the greedy pattern runs from the first opening
    brace to the last closing one; sorting the candidates by length
    therefore changes nothing. *)
Theorem at_most_one_candidate (response_text : string) :
  (length (Reflect.json_candidates response_text) <= 1)%nat /\
  Reflect.sorted_by_len_desc (Reflect.json_candidates response_text)
  = Reflect.json_candidates response_text.
Proof.
  unfold Reflect.json_candidates, Regex.findall.
  pose proof (findall_brace_le_one (Reflect.cleaned_text response_text)) as H.
  split; [exact H|].
  destruct (Regex.findall_go _ _ _) as [|x [|y l]]; [done|done|simpl in H; lia].
Qed.

Lemma match_prefix_think_needs (s : string) :
  String.prefix "<think>" s = false \/ PyStr.contains "</think>" s = false ->
  Regex.match_prefix Reflect.think_pattern s = None.
Proof.
  unfold Regex.match_prefix, Reflect.think_pattern. rewrite rmatch_seq.
  intros [H|H]; [by apply rmatch_lit_needs_prefix|].
  destruct (Regex.rmatch _ s _) as [v|] eqn:E; [|done]. exfalso.
  apply rmatch_inv in E as (s1 & Hs1 & E). rewrite rmatch_seq in E.
  apply rmatch_inv in E as (s2 & Hs2 & E).
  assert (Hpre : String.prefix "</think>" s2 = true).
  { destruct (String.prefix "</think>" s2) eqn:P; [done|].
    by rewrite rmatch_lit_needs_prefix in E. }
  destruct (str_suffix_trans _ _ _ Hs2 Hs1) as [p ->].
  rewrite contains_app_r in H; [done|]. by apply contains_prefix.
Qed.

Lemma contains_tail (p : string) (c : ascii) (s : string) :
  PyStr.contains p (String c s) = false -> PyStr.contains p s = false.
Proof. rewrite contains_cons. by intros [_ H]%orb_false_iff. Qed.

Lemma sub_think_unchanged (s : string) :
  PyStr.contains "<think>" s = false \/ PyStr.contains "</think>" s = false ->
  Regex.sub_go Reflect.think_pattern 0 s = s.
Proof.
  induction s as [|c s IH]; [done|]. intros H.
  cbn [Regex.sub_go]. rewrite match_prefix_think_needs.
  - f_equal. apply IH. destruct H as [H|H]; [left|right]; by eapply contains_tail.
  - destruct H as [H|H]; [left|by right].
    rewrite contains_cons in H. by apply orb_false_iff in H as [H _].
Qed.

(** X22: a response in which the opening or the closing reasoning tag does
    not occur passes the cleaning unchanged: nothing is removed unless a
    wrapper is complete. *)
Theorem cleaning_without_wrapper (response_text : string) :
  PyStr.contains "<think>" response_text = false
  \/ PyStr.contains "</think>" response_text = false ->
  Reflect.cleaned_text response_text = response_text.
Proof. apply sub_think_unchanged. Qed.

Lemma cleaning_without_wrapper_witness :
  Reflect.cleaned_text text_questions_response = text_questions_response.
Proof.
  apply (cleaning_without_wrapper text_questions_response).
  left. vm_compute. reflexivity.
Defined.

(** ** [generate_solution]: the prompt, the answer and the files *)

Lemma replace_unsafe_safe (s : string) :
  str_forallb Solution.name_char (Solution.replace_unsafe s) = true.
Proof.
  induction s as [|c s IH]; [done|].
  cbn [Solution.replace_unsafe]. rewrite str_forallb_cons, IH, andb_true_r.
  by destruct (Solution.name_char c) eqn:E.
Qed.

Lemma replace_unsafe_length (s : string) :
  String.length (Solution.replace_unsafe s) = String.length s.
Proof. induction s as [|c s IH]; [done|]. simpl. by rewrite IH. Qed.

(** X23: the file names [generate_solution] writes to are built from at
    most fifty characters of the assignment name, each a letter, a digit or
    an underscore, so the name of an assignment never chooses a directory. *)
Theorem solution_filename_base_safe (assignment : AssignmentData) :
  str_forallb Solution.name_char (Solution.filename_base assignment) = true /\
  (String.length (Solution.filename_base assignment) <= 50)%nat.
Proof.
  unfold Solution.filename_base. split; [apply replace_unsafe_safe|].
  rewrite replace_unsafe_length. apply substring_length_le.
Qed.

Section SolutionFacts.
Variable World : Type.
Variable settings : Settings.
Variable create : request -> Aggregator.coroutine World (list (option string)).
Variable write_text : string -> string -> Aggregator.coroutine World unit.

Let finish := Solution.finish_solution World settings create write_text.

Lemma api_error_truthy (e : exn) : PyStr.truthy (Solution.api_error e) = true.
Proof. reflexivity. Qed.

(** X24: whatever the collaborator and the disk do, the answer text of the
    artifact is never empty, and the artifact names an answer file only when
    it carries an answer: either [answer_file] is the answer file of the
    assignment, or it is empty and the answer text is the error placeholder
    of some exception. *)
Theorem solution_answer_or_error (assignment : AssignmentData) (parts : list string)
    (w : World) :
  PyStr.truthy (Solution.answer_content (finish assignment parts w).1) = true /\
  (Solution.answer_file (finish assignment parts w).1 = Solution.answer_filename assignment
   \/ Solution.answer_file (finish assignment parts w).1 = EmptyString /\
      exists e, Solution.answer_content (finish assignment parts w).1
                = Solution.api_error e).
Proof.
  unfold finish, Solution.finish_solution.
  destruct (create _ _) as [[[|choice rest]|e] w2]; cbn -[Solution.api_error].
  - split; [done|]. right. split; [done|]. by eexists.
  - destruct (write_text _ _ w2) as [[u|e] w3]; cbn -[Solution.api_error].
    + split; [|by left].
      destruct choice as [text|]; [|done]. by destruct (PyStr.truthy text) eqn:E.
    + split; [done|]. right. split; [done|]. by eexists.
  - split; [done|]. right. split; [done|]. by eexists.
Qed.

(** X25: the saving of the answer stands inside the [try] of the
    collaborator call: when the collaborator answers but the answer file
    cannot be written, the artifact carries the error placeholder of the
    write failure in place of the answer received, and no answer file. *)
Theorem solution_save_failure_discards_answer (assignment : AssignmentData)
    (parts : list string) (w w2 w3 : World) (choice : option string)
    (rest : list (option string)) (e : exn) :
  let prompt := Solution.build_prompt assignment (Aggregator.all_supplementary_content parts) in
  let w1 := (write_text (Solution.prompt_filename assignment) prompt w).2 in
  let answer := match choice with
                | Some text => if PyStr.truthy text then text else Solution.no_answer
                | None => Solution.no_answer
                end in
  create (Solution.solution_request settings prompt) w1 = (Returns (choice :: rest), w2) ->
  write_text (Solution.answer_filename assignment) answer w2 = (Raises e, w3) ->
  Solution.answer_content (finish assignment parts w).1 = Solution.api_error e /\
  Solution.answer_file (finish assignment parts w).1 = EmptyString.
Proof.
  intros prompt w1 answer Hc Hw. unfold finish, Solution.finish_solution.
  fold prompt. fold w1. rewrite Hc. fold answer. by rewrite Hw.
Qed.




Variable _download_file : string -> Aggregator.coroutine World (option string).
Variable _read_file_content : string -> string -> Aggregator.coroutine World string.
Variable _get_youtube_transcript : string -> Aggregator.coroutine World (option string).
Variable path_name : string -> string.
Variable unlink : string -> World -> World.


End SolutionFacts.

Lemma solution_save_failure_discards_answer_witness :
  Solution.answer_content
    (Solution.finish_solution demo_world demo_settings demo_solution_create
       demo_write_text demo_assignment ["[No supplementary content processed.]"] []).1
  = Solution.api_error (OSError "disk full") /\
  Solution.answer_file
    (Solution.finish_solution demo_world demo_settings demo_solution_create
       demo_write_text demo_assignment ["[No supplementary content processed.]"] []).1
  = EmptyString.
Proof.
  apply (solution_save_failure_discards_answer demo_world demo_settings
           demo_solution_create demo_write_text demo_assignment
           ["[No supplementary content processed.]"] []
           ["write full_prompt_Essay_1.txt"; "create"]
           ["write full_prompt_Essay_1.txt"; "create"]
           (Some "Recursion is when a function calls itself.") [] (OSError "disk full")).
  - vm_compute. reflexivity.
  - vm_compute. reflexivity.
Defined.


(** ** [getAsgs.py]: the three dictionaries *)

Section SortingFacts.
Import GetAsgs.
Variable now : Z.
Variable strptime : string -> option Z.

Let running := still_running now strptime.
Let pending := is_pending now strptime.

Lemma dict_put_fresh (k : string) (v : list assignment) (d : dict) :
  k ∉ map fst d -> dict_put k v d = d ++ [(k, v)].
Proof.
  induction d as [|[k' v'] d IH]; [done|]. intros Hk.
  apply not_elem_of_cons in Hk as [Hne Hk]. simpl in Hne.
  cbn [dict_put]. destruct (String.eqb k k') eqn:E.
  - by apply String.eqb_eq in E.
  - by rewrite IH.
Qed.

Lemma dict_append_last (k : string) (x : assignment) (v : list assignment) (d : dict) :
  k ∉ map fst d -> dict_append k x (d ++ [(k, v)]) = inr (d ++ [(k, v ++ [x])]).
Proof.
  induction d as [|[k' v'] d IH].
  - intros _. cbn [app dict_append]. by rewrite String.eqb_refl.
  - intros Hk. apply not_elem_of_cons in Hk as [Hne Hk]. simpl in Hne.
    cbn [app dict_append]. destruct (String.eqb k k') eqn:E.
    + by apply String.eqb_eq in E.
    + by rewrite IH.
Qed.

Lemma shelve_all_fresh (k : string) (c p n : dict) (l : list assignment) :
  k ∉ map fst c -> k ∉ map fst p -> k ∉ map fst n ->
  forall (cl pl nl : list assignment) (st : shelves),
  shelve_all now strptime k
    (Shelves (c ++ [(k, cl)]) (p ++ [(k, pl)]) (n ++ [(k, nl)])) l = inr st ->
  st = Shelves (c ++ [(k, cl ++ List.filter is_submitted l)])
               (p ++ [(k, pl ++ List.filter pending l)])
               (n ++ [(k, nl ++ List.filter is_undated l)]).
Proof.
  intros Hc Hp Hn. induction l as [|a l IH]; intros cl pl nl st.
  - cbn [shelve_all List.filter]. rewrite !app_nil_r. by intros [= <-].
  - cbn [shelve_all List.filter]. unfold shelve, pending, is_pending, is_undated.
    fold (is_submitted a).
    cbn [completed_assignments pending_assignments no_due_date_assignments].
    destruct (is_submitted a) eqn:Es; cbn [negb andb].
    + rewrite dict_append_last by done. intros H. apply IH in H.
      by rewrite <- !app_assoc in H.
    + destruct (present (due_at a)) as [text|] eqn:Ed.
      * unfold not_before_now. destruct (strptime text) as [due_date|]; [|done].
        destruct (due_date <? now); cbn [negb].
        -- apply IH.
        -- rewrite dict_append_last by done. intros H. apply IH in H.
           by rewrite <- !app_assoc in H.
      * rewrite dict_append_last by done. intros H. apply IH in H.
        by rewrite <- !app_assoc in H.
Qed.

(** The loop over the courses, from any dictionaries that do not know the
    running courses yet. *)
Lemma visit_all_spec (courses : list course) :
  forall st0 st,
  visit_all now strptime st0 courses = inr st ->
  NoDup (map course_name (List.filter running courses)) ->
  (forall c, c ∈ List.filter running courses ->
     (course_name c ∉ map fst (completed_assignments st0)) /\
     (course_name c ∉ map fst (pending_assignments st0)) /\
     (course_name c ∉ map fst (no_due_date_assignments st0))) ->
  completed_assignments st
  = completed_assignments st0 ++ map (shelf_of is_submitted) (List.filter running courses) /\
  pending_assignments st
  = pending_assignments st0 ++ map (shelf_of pending) (List.filter running courses) /\
  no_due_date_assignments st
  = no_due_date_assignments st0 ++ map (shelf_of is_undated) (List.filter running courses).
Proof.
  induction courses as [|c courses IH]; intros st0 st.
  - cbn [visit_all List.filter map]. intros [= <-] _ _. by rewrite !app_nil_r.
  - cbn [visit_all List.filter]. unfold visit.
    assert (Hgo : running c = true ->
      forall st1, shelve_all now strptime (course_name c)
        (Shelves (dict_put (course_name c) [] (completed_assignments st0))
                 (dict_put (course_name c) [] (pending_assignments st0))
                 (dict_put (course_name c) [] (no_due_date_assignments st0)))
        (course_assignments c) = inr st1 ->
      visit_all now strptime st1 courses = inr st ->
      NoDup (map course_name (c :: List.filter running courses)) ->
      (forall c', c' ∈ c :: List.filter running courses ->
         (course_name c' ∉ map fst (completed_assignments st0)) /\
         (course_name c' ∉ map fst (pending_assignments st0)) /\
         (course_name c' ∉ map fst (no_due_date_assignments st0))) ->
      completed_assignments st
      = completed_assignments st0
        ++ map (shelf_of is_submitted) (c :: List.filter running courses) /\
      pending_assignments st
      = pending_assignments st0 ++ map (shelf_of pending) (c :: List.filter running courses) /\
      no_due_date_assignments st
      = no_due_date_assignments st0
        ++ map (shelf_of is_undated) (c :: List.filter running courses)).
    { intros _ st1 Hs Hv Hnd Hfresh.
      destruct (Hfresh c) as (Hc & Hp & Hn); [by left|].
      rewrite !dict_put_fresh in Hs by done.
      apply (shelve_all_fresh _ _ _ _ _ Hc Hp Hn [] [] []) in Hs.
      cbn [app] in Hs. subst st1.
      cbn [map] in Hnd. apply NoDup_cons in Hnd as [Hnotin Hnd].
      apply IH in Hv; [| done |].
      - cbn [completed_assignments pending_assignments no_due_date_assignments] in Hv.
        destruct Hv as (-> & -> & ->). cbn [map]. unfold shelf_of.
        by rewrite <- !app_assoc.
      - intros c' Hc'.
        cbn [completed_assignments pending_assignments no_due_date_assignments].
        destruct (Hfresh c') as (Hc1 & Hp1 & Hn1); [by right|].
        assert (Hne : course_name c' <> course_name c).
        { intros Heq. apply Hnotin. rewrite <- Heq.
          apply list_elem_of_In, in_map_iff. exists c'. split; [done|].
          by apply list_elem_of_In. }
        rewrite !map_app. cbn [map fst].
        rewrite !not_elem_of_app, !not_elem_of_cons.
        repeat split; try done; apply not_elem_of_nil. }
    destruct (running c) eqn:Er; revert Er;
      unfold running, still_running, not_before_now;
      (destruct (present (end_at c)) as [text|];
         [destruct (strptime text) as [course_end_date|];
            [destruct (course_end_date <? now); cbn [negb]|] |]);
      intros Er; try discriminate Er.
    + destruct (shelve_all _ _ _ _ _) as [e|st1] eqn:Hs; [done|]. by apply Hgo.
    + destruct (shelve_all _ _ _ _ _) as [e|st1] eqn:Hs; [done|]. by apply Hgo.
    + apply IH.
    + done.
Qed.

(** X27: when the script comes to its end and no two running courses share
    a name, the three dictionaries hold one entry per running course, in the
    order of the courses: its submitted assignments, its unsubmitted ones
    due not before now, and its unsubmitted ones with no due date, each in
    the order of the course.  A course that ended has no entry and an
    unsubmitted assignment past its due date is in none of them. *)
Theorem sorted_into_three_shelves (courses : list course) (st : shelves) :
  sort_assignments now strptime courses = inr st ->
  NoDup (map course_name (List.filter running courses)) ->
  completed_assignments st = map (shelf_of is_submitted) (List.filter running courses) /\
  pending_assignments st = map (shelf_of pending) (List.filter running courses) /\
  no_due_date_assignments st = map (shelf_of is_undated) (List.filter running courses).
Proof.
  intros Hs Hnd. unfold sort_assignments in Hs.
  apply visit_all_spec in Hs; [done|done|].
  intros c _. cbn. repeat split; apply not_elem_of_nil.
Qed.

Lemma dict_put_all_pending (k : string) (d : dict) :
  all_pending now strptime d -> all_pending now strptime (dict_put k [] d).
Proof.
  unfold all_pending. induction d as [|[k' v'] d IH]; intros H.
  - by repeat constructor.
  - cbn [dict_put]. apply Forall_cons in H as [H1 H2].
    destruct (String.eqb k k'); constructor; auto; by constructor.
Qed.

Lemma dict_append_all_pending (k : string) (x : assignment) (d d' : dict) :
  dict_append k x d = inr d' -> pending x = true ->
  all_pending now strptime d -> all_pending now strptime d'.
Proof.
  unfold all_pending. revert d'. induction d as [|[k' v'] d IH]; intros d' Hd Hx H; [done|].
  cbn [dict_append] in Hd. apply Forall_cons in H as [H1 H2].
  destruct (String.eqb k k').
  - injection Hd as <-. constructor; [|done]. cbn [snd] in *.
    apply Forall_app. split; [done|]. by constructor.
  - destruct (dict_append k x d) as [e|d''] eqn:E; [done|]. injection Hd as <-.
    constructor; [done|]. by apply IH.
Qed.

Lemma shelve_all_pending (k : string) (l : list assignment) :
  forall st st', shelve_all now strptime k st l = inr st' ->
  all_pending now strptime (pending_assignments st) ->
  all_pending now strptime (pending_assignments st').
Proof.
  induction l as [|a l IH]; intros st st'; cbn [shelve_all]; [by intros [= <-]|].
  destruct (shelve now strptime k st a) as [e|st1] eqn:E; [done|].
  intros Hrun Hst. apply (IH _ _ Hrun). clear Hrun.
  unfold shelve in E. fold (is_submitted a) in E.
  destruct (is_submitted a) eqn:Es.
  - destruct (dict_append k a (completed_assignments st)); [done|]. by injection E as <-.
  - destruct (present (due_at a)) as [text|] eqn:Ed.
    + destruct (strptime text) as [due_date|] eqn:Et; [|done].
      destruct (due_date <? now) eqn:El; [by injection E as <-|].
      destruct (dict_append k a (pending_assignments st)) as [e|d] eqn:Ea; [done|].
      injection E as <-. cbn [pending_assignments].
      apply (dict_append_all_pending _ _ _ _ Ea); [|done].
      unfold pending, is_pending, not_before_now. by rewrite Es, Ed, Et, El.
    + destruct (dict_append k a (no_due_date_assignments st)); [done|]. by injection E as <-.
Qed.

Lemma visit_all_pending (courses : list course) :
  forall st st', visit_all now strptime st courses = inr st' ->
  all_pending now strptime (pending_assignments st) ->
  all_pending now strptime (pending_assignments st').
Proof.
  induction courses as [|c courses IH]; intros st st'; cbn [visit_all]; [by intros [= <-]|].
  destruct (visit now strptime st c) as [e|st1] eqn:E; [done|].
  intros Hrun Hst. apply (IH _ _ Hrun). clear Hrun.
  unfold visit in E.
  assert (Hgo : forall st2, shelve_all now strptime (course_name c)
     (Shelves (dict_put (course_name c) [] (completed_assignments st))
              (dict_put (course_name c) [] (pending_assignments st))
              (dict_put (course_name c) [] (no_due_date_assignments st)))
     (course_assignments c) = inr st2 ->
     all_pending now strptime (pending_assignments st2)).
  { intros st2 H2. apply (shelve_all_pending _ _ _ _ H2). cbn [pending_assignments].
    by apply dict_put_all_pending. }
  destruct (present (end_at c)) as [text|].
  - destruct (strptime text) as [course_end_date|]; [|done].
    destruct (course_end_date <? now); [by injection E as <-|]. by apply Hgo.
  - by apply Hgo.
Qed.

(** X28: whatever the course names, every assignment of [asg_list], the
    list the script prints as JSON, is unsubmitted and has a due date that
    is read and is not before now. *)
Theorem asg_list_only_pending (courses : list course) (st : shelves) (a : assignment) :
  sort_assignments now strptime courses = inr st ->
  a ∈ asg_list st ->
  workflow_state a <> "submitted" /\
  exists text due_date,
    due_at a = Some text /\ strptime text = Some due_date /\ now <= due_date.
Proof.
  intros Hs Ha. unfold sort_assignments in Hs.
  apply visit_all_pending in Hs; [|by constructor].
  unfold asg_list in Ha. apply list_elem_of_In, in_concat in Ha as (l & Hl & Ha).
  apply in_map_iff in Hl as ([k v] & <- & Hkv). cbn [snd] in Ha.
  unfold all_pending in Hs. rewrite Forall_forall in Hs.
  apply list_elem_of_In in Hkv. specialize (Hs _ Hkv). cbn [snd] in Hs.
  rewrite Forall_forall in Hs. apply list_elem_of_In in Ha. specialize (Hs _ Ha).
  unfold pending, is_pending, is_submitted, not_before_now in Hs.
  apply andb_true_iff in Hs as [Hsub Hdue]. split.
  - intros Heq. rewrite Heq in Hsub. done.
  - unfold present in Hdue. destruct (due_at a) as [text|]; [|done].
    destruct (PyStr.truthy text); [|done].
    destruct (strptime text) as [due_date|] eqn:Et; [|done].
    exists text, due_date. split; [done|]. split; [done|].
    apply negb_true_iff, Z.ltb_ge in Hdue. lia.
Qed.





End SortingFacts.

Lemma sorted_into_three_shelves_witness :
  GetAsgs.completed_assignments demo_shelves
  = map (shelf_of is_submitted) (List.filter (still_running demo_now demo_strptime) demo_courses) /\
  GetAsgs.pending_assignments demo_shelves
  = map (shelf_of (is_pending demo_now demo_strptime))
      (List.filter (still_running demo_now demo_strptime) demo_courses) /\
  GetAsgs.no_due_date_assignments demo_shelves
  = map (shelf_of is_undated) (List.filter (still_running demo_now demo_strptime) demo_courses).
Proof.
  apply (sorted_into_three_shelves demo_now demo_strptime demo_courses demo_shelves).
  - vm_compute. reflexivity.
  - vm_compute. apply NoDup_singleton.
Defined.

Lemma asg_list_only_pending_witness :
  GetAsgs.workflow_state essay_open <> "submitted" /\
  exists text due_date,
    GetAsgs.due_at essay_open = Some text /\ demo_strptime text = Some due_date /\
    demo_now <= due_date.
Proof.
  apply (asg_list_only_pending demo_now demo_strptime demo_courses demo_shelves essay_open).
  - vm_compute. reflexivity.
  - vm_compute. apply list_elem_of_here.
Defined.


(** ** [get_assignments]: what reaches [generate_solution] *)

Section CanvasFacts.
Variable settings : Settings.
Variable soup : Type.
Variable BeautifulSoup : string -> result soup.
Variable main_text : soup -> string.
Variable a_hrefs : soup -> list string.
Variable iframe_srcs : soup -> list string.
Variable urljoin : string -> string -> result string.
Variable list_assignments : Z -> result (list Canvas.raw_assignment).

Let structured :=
  Canvas.structured settings soup BeautifulSoup main_text a_hrefs iframe_srcs urljoin.
Let get_assignments :=
  Canvas.get_assignments settings soup BeautifulSoup main_text a_hrefs iframe_srcs urljoin
    list_assignments.

Lemma structured_no_duplicates (assign : Canvas.raw_assignment) :
  NoDup (youtube_video_ids (structured assign)).
Proof.
  unfold structured, Canvas.structured, Extractor._extract_links_yt_from_html.
  destruct (_ || _); [apply NoDup_nil_2|].
  destruct (BeautifulSoup _); cbn; [apply NoDup_elements|apply NoDup_nil_2].
Qed.

Lemma structured_blank (assign : Canvas.raw_assignment) :
  PyStr.strip (Canvas.desc_html assign) = EmptyString ->
  description (structured assign) = EmptyString /\
  links (structured assign) = [] /\ youtube_video_ids (structured assign) = [].
Proof.
  intros Hblank.
  unfold structured, Canvas.structured, Extractor._extract_links_yt_from_html.
  rewrite Hblank. cbn [PyStr.truthy negb]. by rewrite orb_true_r.
Qed.

(** X30: every assignment [get_assignments] returns comes from an
    assignment the course service listed, with its id and its name; its
    video identifiers hold no duplicate, and when the listed description is
    missing, null or blank it has an empty description, no link and no
    video.  A course that cannot be listed gives no assignment at all. *)
Theorem fetched_assignments_well_formed (course_id : Z) (a : AssignmentData) :
  a ∈ get_assignments course_id ->
  NoDup (youtube_video_ids a) /\
  exists assignments_raw assign,
    list_assignments course_id = Returns assignments_raw /\
    assign ∈ assignments_raw /\
    id a = Canvas.raw_id assign /\ name a = Canvas.raw_name assign /\
    (PyStr.strip (Canvas.desc_html assign) = EmptyString ->
     description a = EmptyString /\ links a = [] /\ youtube_video_ids a = []).
Proof.
  unfold get_assignments, Canvas.get_assignments.
  destruct (list_assignments course_id) as [assignments_raw|e];
    [|by intros ?%elem_of_nil].
  intros (assign & <- & Hin)%list_elem_of_In%in_map_iff.
  fold structured. split; [apply structured_no_duplicates|].
  exists assignments_raw, assign. split; [done|]. split; [by apply list_elem_of_In|].
  split; [|split; [|apply structured_blank]];
    unfold structured, Canvas.structured; by destruct (Extractor._extract_links_yt_from_html _ _ _ _ _ _ _ _) as [[? ?] ?].
Qed.

End CanvasFacts.

Lemma fetched_assignments_well_formed_witness :
  NoDup (youtube_video_ids
           (Canvas.structured demo_settings demo_soup demo_parse demo_text demo_hrefs
              demo_srcs demo_urljoin survey_raw)) /\
  exists assignments_raw assign,
    demo_list_assignments 101 = Returns assignments_raw /\
    assign ∈ assignments_raw /\
    id (Canvas.structured demo_settings demo_soup demo_parse demo_text demo_hrefs
          demo_srcs demo_urljoin survey_raw) = Canvas.raw_id assign /\
    name (Canvas.structured demo_settings demo_soup demo_parse demo_text demo_hrefs
            demo_srcs demo_urljoin survey_raw) = Canvas.raw_name assign /\
    (PyStr.strip (Canvas.desc_html assign) = EmptyString ->
     description (Canvas.structured demo_settings demo_soup demo_parse demo_text demo_hrefs
                    demo_srcs demo_urljoin survey_raw) = EmptyString /\
     links (Canvas.structured demo_settings demo_soup demo_parse demo_text demo_hrefs
              demo_srcs demo_urljoin survey_raw) = [] /\
     youtube_video_ids (Canvas.structured demo_settings demo_soup demo_parse demo_text
                          demo_hrefs demo_srcs demo_urljoin survey_raw) = []).
Proof.
  apply (fetched_assignments_well_formed demo_settings demo_soup demo_parse demo_text
           demo_hrefs demo_srcs demo_urljoin demo_list_assignments 101).
  apply list_elem_of_further, list_elem_of_here.
Defined.
